(** * EM-Wave-Visual: the physics computation layer of [em_visualizer_complete.py]

    A shallow embedding of [WaveParameters], [MediumProperties],
    [generate_configuration], [calculate_radiation_resistance],
    [calculate_waveguide_impedance] and the [/visualize] handler, and the
    properties the specification states about them.

    Numbers.  A Python [float] (and a JSON number) is a real number; the
    operations [+ - *], [np.sin], [np.cos], [np.radians], ... are the exact
    real operations, so rounding is not modelled.  What IEEE arithmetic adds
    to the reals is kept: a Python division by zero raises
    [ZeroDivisionError]; a numpy division by zero, [np.sqrt] of a negative
    number and [np.arcsin] outside [-1, 1] give a float that is not a finite
    number ([inf] or [nan]), which is [None] in [npfloat].

    Range.  The reals have no overflow and no underflow.  A double has: a
    Python [**] that overflows raises [OverflowError], a product or quotient
    that overflows is [inf], and a result below the smallest double is 0.
    None of this is modelled, and rounding can move a number across the
    threshold of a branch.  The statements about computed values therefore
    take their numbers from [in_range] and keep a relative distance from
    the thresholds they depend on: 1e-9 where a value is compared with a
    constant, 1e-3 at the cutoff frequency of a waveguide, where a
    difference of squares is taken.  Within these bounds the program and
    the model take the same branch and their values differ by rounding
    only.

    Strings.  A Python [str] is the string of the bytes of its UTF-8
    encoding, a lone surrogate being the three bytes of its generalised
    encoding.  Indexing is modelled for the ASCII part of a string, where
    bytes and characters coincide. *)

From Stdlib Require Import Reals Lra Lia ZArith String Ascii List Machin.
From stdpp Require Import base option strings gmap.

Local Open Scope R_scope.
Local Open Scope string_scope.

(** ** Python values *)

#[local] Set Warnings "-register-all".

(** A value of the request object, as [request.json] delivers it: [None],
    a [bool], a number, a [str], a [list] or a [dict]. *)
Inductive json :=
| JNull
| JBool (b : bool)
| JNum (r : R)
| JStr (s : string)
| JArr (l : list json)
| JObj (o : list (string * json)).

(** The exceptions of the modelled code, all subclasses of [Exception].
    [KeyError] carries the key and a [ValueError] raised by the program its
    message; the text of the interpreter's own messages is not modelled
    ([IntValueError] is the [ValueError] of [int] on a character that is no
    digit).  [UnicodeEncodeError] is what [print] raises on a text that
    standard output cannot encode.  [OtherError] is an exception of the
    plotting code.  [NotModelled] is no exception of Python: it marks the
    operations whose result is outside this model (numpy applied to a
    list, indexing a list or a dict, indexing a string at or after a
    character that is not ASCII). *)
Inductive exn :=
| KeyError (key : json)
| ValueError (msg : string)
| IntValueError (ch : ascii)
| TypeError
| ZeroDivisionError
| IndexError
| UnicodeEncodeError
| OtherError (msg : string)
| NotModelled.

Inductive result (A : Type) :=
| Ok (a : A)
| Raise (e : exn).
Arguments Ok {A} a.
Arguments Raise {A} e.

(** ** Module globals and the evaluation monad *)

(** The module-level names the physics layer reads at run time. *)
Record globals := Globals {
  SPEED_OF_LIGHT : R;
  VACUUM_PERMITTIVITY : R;
  VACUUM_PERMEABILITY : R;
  VACUUM_IMPEDANCE : R
}.

(** The store after the module body has run. *)
Definition module_globals : globals := {|
  SPEED_OF_LIGHT := 299792458.0;
  VACUUM_PERMITTIVITY := 8.854187817e-12;
  VACUUM_PERMEABILITY := 1.25663706212e-6;
  VACUUM_IMPEDANCE := 376.730313668
|}.

(** A Python computation: it runs in a store of globals and returns a value
    or raises. *)
Definition M (A : Type) : Type := globals -> result A * globals.

Definition ret {A} (a : A) : M A := fun g => (Ok a, g).
Definition raise {A} (e : exn) : M A := fun g => (Raise e, g).
Definition bind {A B} (m : M A) (k : A -> M B) : M B :=
  fun g => match m g with
           | (Ok a, g') => k a g'
           | (Raise e, g') => (Raise e, g')
           end.
Definition read (name : globals -> R) : M R := fun g => (Ok (name g), g).

Declare Scope py_scope.
Delimit Scope py_scope with py.
Notation "'let*' x ':=' m 'in' k" := (bind m (fun x => k))
  (at level 10, x name, m at level 100, k at level 200) : py_scope.
Local Open Scope py_scope.

(** ** Floats *)

(** A numpy float: [Some r] is the finite number [r], [None] a float that
    is not a finite number ([inf], [-inf] or [nan]).  An operation with such
    an operand gives one again (the one IEEE exception, a finite number
    divided by an infinity, needs an infinite divisor, and the divisors of
    this program are finite or [nan]). *)
Definition npfloat : Type := option R.

Definition fin (r : R) : npfloat := Some r.

Definition np1 (f : R -> R) (x : npfloat) : npfloat :=
  match x with Some a => Some (f a) | None => None end.

Definition np2 (f : R -> R -> R) (x y : npfloat) : npfloat :=
  match x, y with Some a, Some b => Some (f a b) | _, _ => None end.

Definition np_add := np2 Rplus.
Definition np_sub := np2 Rminus.
Definition np_mul := np2 Rmult.
Definition np_sq := np1 (fun a => a ^ 2).
Definition np_sin := np1 sin.
Definition np_cos := np1 cos.

(** numpy [/]: no exception, a non-finite float when the divisor is zero. *)
Definition np_div (x y : npfloat) : npfloat :=
  match x, y with
  | Some a, Some b => if Req_dec_T b 0 then None else Some (a / b)
  | _, _ => None
  end.

(** [np.sqrt]: [nan] below zero. *)
Definition np_sqrt (x : npfloat) : npfloat :=
  match x with
  | Some a => if Rlt_dec a 0 then None else Some (sqrt a)
  | None => None
  end.

(** [np.arcsin]: [nan] outside [-1, 1]. *)
Definition np_arcsin (x : npfloat) : npfloat :=
  match x with
  | Some a => if Rlt_dec a (-1) then None
              else if Rlt_dec 1 a then None else Some (asin a)
  | None => None
  end.

(** [np.radians] and [np.degrees]. *)
Definition radians (deg : R) : R := deg * PI / 180.
Definition np_degrees := np1 (fun rad => rad * 180 / PI).

(** Comparisons with a float.  With [nan] they are false; an infinity is
    never compared in this program. *)
Definition np_le (x : npfloat) (y : R) : bool :=
  match x with
  | Some a => if Rle_dec a y then true else false
  | None => false
  end.
Definition np_gt (x : R) (y : npfloat) : bool :=
  match y with
  | Some b => if Rgt_dec x b then true else false
  | None => false
  end.
Definition le_np (x : R) (y : npfloat) : bool :=
  match y with
  | Some b => if Rle_dec x b then true else false
  | None => false
  end.

Declare Scope np_scope.
Delimit Scope np_scope with np.
Infix "+" := np_add : np_scope.
Infix "-" := np_sub : np_scope.
Infix "*" := np_mul : np_scope.
Infix "/" := np_div : np_scope.

(** Python [/] on two Python numbers. *)
Definition py_div (x y : R) : M R :=
  if Req_dec_T y 0 then raise ZeroDivisionError
  else ret (x / y).

(** The number a JSON value stands for in the arithmetic and the
    comparisons of Python: [bool] is a subtype of [int]; [None], [str],
    [list] and [dict] operands raise [TypeError]. *)
Definition to_number (j : json) : M R :=
  match j with
  | JNum r => ret r
  | JBool b => ret (if b then 1 else 0)
  | JNull => raise TypeError
  | JStr _ => raise TypeError
  | JArr _ => raise TypeError
  | JObj _ => raise TypeError
  end.

(** The number a JSON value stands for as the argument of a numpy
    function: numpy makes an array of a list, which is outside this model;
    for [None], a [str] and a [dict] it raises [TypeError]. *)
Definition np_number (j : json) : M R :=
  match j with
  | JArr _ => raise NotModelled
  | _ => to_number j
  end.

(** ** The request object *)

(** [data[key]] *)
Definition getitem (data : gmap string json) (key : string) : M json :=
  match data !! key with
  | Some v => ret v
  | None => raise (KeyError (JStr key))
  end.

(** [data.get(key, default)] *)
Definition get (data : gmap string json) (key : string) (default : json) : json :=
  match data !! key with
  | Some v => v
  | None => default
  end.

(** [x == 'literal'] on a request value. *)
Definition eq_str (j : json) (s : string) : bool :=
  match j with JStr t => String.eqb t s | _ => false end.

(** ** The configuration object *)

Inductive value :=
| VJson (j : json)
| VFloat (x : npfloat)
| VFloat16 (x : npfloat)
| VInt (z : Z)
| VBool (b : bool)
| VStr (s : string)
| VList (l : list value)
| VDict (d : gmap string value).

Record config := Config {
  version : string;
  phenomenon : json;
  physics : gmap string value
}.

(** [config["physics"][key] = v] *)
Definition set_physics (key : string) (v : value) (c : config) : config :=
  {| version := version c;
     phenomenon := phenomenon c;
     physics := <[key := v]> (physics c) |}.

(** [config["physics"][key]] on a finished configuration. *)
Definition reported (c : config) (key : string) : option value :=
  physics c !! key.

(** [config["physics"][section][key]] *)
Definition reported_in (c : config) (section key : string) : option value :=
  match physics c !! section with
  | Some (VDict d) => d !! key
  | _ => None
  end.

(** ** The dataclasses *)

(** [WaveParameters]: a dataclass checks no types, the fields hold what the
    request held. *)
Record WaveParameters := {
  frequency : json;
  amplitude : json
}.

(** [SPEED_OF_LIGHT / self.frequency] *)
Definition wavelength (self : WaveParameters) : M R :=
  let* c := read SPEED_OF_LIGHT in
  let* f := to_number (frequency self) in
  py_div c f.

(** [2 * np.pi / self.wavelength] *)
Definition wave_number (self : WaveParameters) : M R :=
  let* lam := wavelength self in
  py_div (2 * PI) lam.

(** [2 * np.pi * self.frequency] *)
Definition angular_frequency (self : WaveParameters) : M R :=
  let* f := to_number (frequency self) in
  ret (2 * PI * f).

(** [1.0 / self.frequency] *)
Definition period (self : WaveParameters) : M R :=
  let* f := to_number (frequency self) in
  py_div 1.0 f.

Record MediumProperties := {
  name : string;
  relative_permittivity : R;
  relative_permeability : R;
  conductivity : R
}.

(** [MediumProperties(name, eps)], the other fields at their defaults. *)
Definition MediumProperties_init (name : string) (eps : R) : MediumProperties :=
  {| name := name;
     relative_permittivity := eps;
     relative_permeability := 1.0;
     conductivity := 0.0 |}.

(** [np.sqrt(self.relative_permittivity * self.relative_permeability)] *)
Definition refractive_index (self : MediumProperties) : npfloat :=
  np_sqrt (fin (relative_permittivity self * relative_permeability self)).

(** [SPEED_OF_LIGHT / self.refractive_index] *)
Definition wave_speed (self : MediumProperties) : M npfloat :=
  let* c := read SPEED_OF_LIGHT in
  ret (fin c / refractive_index self)%np.

(** [VACUUM_IMPEDANCE * np.sqrt(self.relative_permeability / self.relative_permittivity)] *)
Definition impedance (self : MediumProperties) : M npfloat :=
  let* z0 := read VACUUM_IMPEDANCE in
  let* q := py_div (relative_permeability self) (relative_permittivity self) in
  ret (fin z0 * np_sqrt (fin q))%np.

(** ** The helpers of [generate_configuration] *)

Definition calculate_radiation_resistance (dipole_length wavelength : R) : M R :=
  let* l_over_lambda := py_div dipole_length wavelength in
  if Rle_dec l_over_lambda 0.1 then
    ret (20 * (PI * l_over_lambda) ^ 2)
  else if Rlt_dec (Rabs (l_over_lambda - 0.5)) 0.01 then
    ret 73.13
  else
    ret (80 * (PI * l_over_lambda) ^ 2).

Definition calculate_waveguide_impedance
    (mode_type : string) (frequency : R) (fc : npfloat) : M npfloat :=
  if le_np frequency fc then
    ret None
  else
    let* z0 := read VACUUM_IMPEDANCE in
    if String.eqb mode_type "TE" then
      ret (fin z0 / np_sqrt (fin 1 - np_sq (fc / fin frequency)))%np
    else
      ret (fin z0 * np_sqrt (fin 1 - np_sq (fc / fin frequency)))%np.

(** The [materials] table of the reflection branch. *)
Definition materials : gmap string MediumProperties :=
  {[ "Air" := MediumProperties_init "Air" 1.00059;
     "Water" := MediumProperties_init "Water" 80.0;
     "Glass" := MediumProperties_init "Glass" 2.25;
     "Diamond" := MediumProperties_init "Diamond" 5.84 ]}.

(** [materials[key]]: a key that cannot be hashed (a list or a dict) raises
    [TypeError], any other key that is not in the table [KeyError]. *)
Definition materials_getitem (key : json) : M MediumProperties :=
  match key with
  | JStr s =>
      match materials !! s with
      | Some m => ret m
      | None => raise (KeyError key)
      end
  | JArr _ => raise TypeError
  | JObj _ => raise TypeError
  | _ => raise (KeyError key)
  end.

(** One entry of [config["physics"]["media"]]. *)
Definition medium_entry (medium : MediumProperties) : M value :=
  let* v := wave_speed medium in
  let* z := impedance medium in
  ret (VDict
    {[ "name" := VStr (name medium);
       "relative_permittivity" := VFloat (fin (relative_permittivity medium));
       "relative_permeability" := VFloat (fin (relative_permeability medium));
       "refractive_index" := VFloat (refractive_index medium);
       "wave_speed" := VFloat v;
       "impedance" := VFloat z ]}).

(** The first [n] bytes of a string (all of them, when it is shorter) are
    ASCII characters: up to there its bytes are its characters. *)
Definition is_ascii (ch : ascii) : bool := Nat.ltb (nat_of_ascii ch) 128.

Fixpoint ascii_prefix (n : nat) (s : string) : bool :=
  match n, s with
  | O, _ => true
  | S _, EmptyString => true
  | S n', String ch rest => is_ascii ch && ascii_prefix n' rest
  end.

(** [mode[:2]] and [mode[i]]: a string is sliced and indexed by character;
    [None], a [bool] and a number cannot be subscripted. *)
Definition slice2 (mode : json) : M string :=
  match mode with
  | JStr s => if ascii_prefix 2 s then ret (substring 0 2 s) else raise NotModelled
  | JArr _ => raise NotModelled
  | JObj _ => raise NotModelled
  | _ => raise TypeError
  end.

Definition char_at (mode : json) (i : nat) : M ascii :=
  match mode with
  | JStr s =>
      if ascii_prefix (S i) s then
        match String.get i s with
        | Some ch => ret ch
        | None => raise IndexError
        end
      else raise NotModelled
  | JArr _ => raise NotModelled
  | JObj _ => raise NotModelled
  | _ => raise TypeError
  end.

(** [int(ch)] of an ASCII character: its value when it is a decimal digit,
    a [ValueError] otherwise. *)
Definition int_of_char (ch : ascii) : M Z :=
  let code := nat_of_ascii ch in
  if Nat.leb 48 code && Nat.leb code 57 then ret (Z.of_nat (code - 48))
  else raise (IntValueError ch).

(** The value [np.radians] returns: a [float64], but for a [bool] a
    [float16]. *)
Definition radians_value (angle : json) (theta : R) : value :=
  match angle with
  | JBool _ => VFloat16 (fin theta)
  | _ => VFloat (fin theta)
  end.

(** *** The branch [data['phenomenon'] == 'reflection'] *)

Definition reflection_parameters
    (data : gmap string json) (cfg : config) : M config :=
  let* key1 := getitem data "medium1" in
  let* medium1 := materials_getitem key1 in
  let* key2 := getitem data "medium2" in
  let* medium2 := materials_getitem key2 in
  let* entry1 := medium_entry medium1 in
  let* entry2 := medium_entry medium2 in
  let config := set_physics "media" (VList [entry1; entry2]) cfg in
  (* Calculate reflection and transmission parameters *)
  let* angle := getitem data "angle" in
  let* deg := np_number angle in
  let theta_i := radians deg in
  let n1 := refractive_index medium1 in
  let n2 := refractive_index medium2 in
  let config := set_physics "incident_angle_deg" (VJson angle) config in
  let config := set_physics "incident_angle_rad" (radians_value angle theta_i) config in
  (* Apply Snell's law *)
  let sin_theta_t := (n1 * fin (sin theta_i) / n2)%np in
  if np_le sin_theta_t 1.0 then
    (* Normal refraction *)
    let theta_t := np_arcsin sin_theta_t in
    let config := set_physics "transmitted_angle_deg" (VFloat (np_degrees theta_t)) config in
    let config := set_physics "transmitted_angle_rad" (VFloat theta_t) config in
    let config := set_physics "total_internal_reflection" (VBool false) config in
    (* Calculate Fresnel coefficients *)
    let cos_theta_i := fin (cos theta_i) in
    let cos_theta_t := np_cos theta_t in
    (* TE (s-polarized) coefficients *)
    let r_te := ((n1 * cos_theta_i - n2 * cos_theta_t)
                 / (n1 * cos_theta_i + n2 * cos_theta_t))%np in
    let t_te := ((fin 2 * n1 * cos_theta_i)
                 / (n1 * cos_theta_i + n2 * cos_theta_t))%np in
    (* TM (p-polarized) coefficients *)
    let r_tm := ((n2 * cos_theta_i - n1 * cos_theta_t)
                 / (n2 * cos_theta_i + n1 * cos_theta_t))%np in
    let t_tm := ((fin 2 * n1 * cos_theta_i)
                 / (n2 * cos_theta_i + n1 * cos_theta_t))%np in
    (* Power coefficients *)
    let R_te := np_sq r_te in
    let T_te := ((n2 * cos_theta_t) / (n1 * cos_theta_i) * np_sq t_te)%np in
    ret (set_physics "fresnel_coefficients"
           (VDict {[ "r_te" := VFloat r_te;
                     "t_te" := VFloat t_te;
                     "r_tm" := VFloat r_tm;
                     "t_tm" := VFloat t_tm;
                     "R_te" := VFloat R_te;
                     "T_te" := VFloat T_te ]}) config)
  else
    (* Total internal reflection *)
    let config := set_physics "total_internal_reflection" (VBool true) config in
    let config := set_physics "critical_angle_deg"
                    (VFloat (np_degrees (np_arcsin (n2 / n1)%np))) config in
    ret (set_physics "fresnel_coefficients"
           (VDict {[ "r_te" := VFloat (fin 1.0);
                     "r_tm" := VFloat (fin 1.0);
                     "R_te" := VFloat (fin 1.0);
                     "R_tm" := VFloat (fin 1.0) ]}) config).

(** *** The branch [data['phenomenon'] == 'doppler'] *)

Definition doppler_parameters
    (data : gmap string json) (wave : WaveParameters) (cfg : config) : M config :=
  let v := get data "velocity" (JNum 0) in
  (* Relativistic Doppler effect *)
  let* vn := to_number v in
  let* c := read SPEED_OF_LIGHT in
  let* beta := py_div vn c in
  if Rlt_dec (Rabs beta) 1.0 then
    (* Calculate observed frequency *)
    let* ratio :=
      if Rgt_dec vn 0 then (* Approaching *)
        py_div (1 + beta) (1 - beta)
      else (* Receding *)
        py_div (1 - Rabs beta) (1 + Rabs beta) in
    let* f := to_number (frequency wave) in
    let f_observed := (fin f * np_sqrt (fin ratio))%np in
    ret (set_physics "doppler"
           (VDict {[ "source_velocity" := VJson v;
                     "beta" := VFloat (fin beta);
                     "observed_frequency" := VFloat f_observed;
                     "frequency_shift" := VFloat (f_observed - fin f)%np;
                     "relative_shift" := VFloat ((f_observed - fin f) / fin f)%np ]})
           cfg)
  else
    ret (set_physics "doppler"
           (VDict {[ "source_velocity" := VJson v;
                     "error" := VStr "Velocity cannot exceed speed of light" ]})
           cfg).

(** *** The branch [data['phenomenon'] == 'dipole'] *)

Definition dipole_parameters
    (data : gmap string json) (wave : WaveParameters) (cfg : config) : M config :=
  let* lam := wavelength wave in
  let* factor := to_number (get data "dipole_length" (JNum 0.5)) in
  let dipole_length := factor * lam in
  let* lam' := wavelength wave in
  let* R_rad := calculate_radiation_resistance dipole_length lam' in
  ret (set_physics "dipole"
         (VDict {[ "length" := VFloat (fin dipole_length);
                   "length_wavelengths" := VJson (get data "dipole_length" (JNum 0.5));
                   "current_distribution" := VJson (get data "current_dist" (JStr "uniform"));
                   "radiation_resistance" := VFloat (fin R_rad) ]})
         cfg).

(** *** The branch [data['phenomenon'] == 'waveguide'] *)

Definition waveguide_parameters
    (data : gmap string json) (wave : WaveParameters) (cfg : config) : M config :=
  let a := get data "guide_width" (JNum 0.023) in
  let b := get data "guide_height" (JNum 0.010) in
  let mode := get data "mode" (JStr "TE10") in
  (* Extract mode indices *)
  let* mode_type := slice2 mode in
  let* ch2 := char_at mode 2 in
  let* m := int_of_char ch2 in
  let* ch3 := char_at mode 3 in
  let* n := int_of_char ch3 in
  (* Calculate cutoff frequency *)
  let* c := read SPEED_OF_LIGHT in
  let* c_2pi := py_div c (2 * PI) in
  let* an := to_number a in
  let* kx := py_div (IZR m * PI) an in
  let* bn := to_number b in
  let* ky := py_div (IZR n * PI) bn in
  let fc := (fin c_2pi * np_sqrt (fin (kx ^ 2 + ky ^ 2)))%np in
  (* Check if frequency is above cutoff *)
  let* f := to_number (frequency wave) in
  if np_gt f fc then
    (* Propagating mode *)
    let* omega := angular_frequency wave in
    let* k := py_div omega c in
    let beta_g := np_sqrt (fin (k ^ 2) - np_sq (fin (2 * PI) * fc / fin c))%np in
    let lambda_g := (fin (2 * PI) / beta_g)%np in
    let vp := (fin omega / beta_g)%np in
    let vg := (fin (c ^ 2) / vp)%np in
    let* Z := calculate_waveguide_impedance mode_type f fc in
    ret (set_physics "waveguide"
           (VDict {[ "type" := VJson (get data "guide_type" (JStr "rectangular"));
                     "width" := VJson a;
                     "height" := VJson b;
                     "mode" := VJson mode;
                     "mode_type" := VStr mode_type;
                     "mode_indices" := VDict {[ "m" := VInt m; "n" := VInt n ]};
                     "cutoff_frequency" := VFloat fc;
                     "cutoff_wavelength" := VFloat (fin c / fc)%np;
                     "propagation_constant" := VFloat beta_g;
                     "guide_wavelength" := VFloat lambda_g;
                     "phase_velocity" := VFloat vp;
                     "group_velocity" := VFloat vg;
                     "impedance" := VFloat Z ]})
           cfg)
  else
    (* Evanescent mode *)
    let* omega := angular_frequency wave in
    let* k := py_div omega c in
    let alpha := np_sqrt (np_sq (fin (2 * PI) * fc / fin c) - fin (k ^ 2))%np in
    ret (set_physics "waveguide"
           (VDict {[ "type" := VJson (get data "guide_type" (JStr "rectangular"));
                     "width" := VJson a;
                     "height" := VJson b;
                     "mode" := VJson mode;
                     "cutoff_frequency" := VFloat fc;
                     "attenuation_constant" := VFloat alpha;
                     "evanescent" := VBool true ]})
           cfg).

(** *** [generate_configuration] *)

Definition generate_configuration (data : gmap string json) : M config :=
  let* f := getitem data "frequency" in
  let* a := getitem data "amplitude" in
  let wave := {| frequency := f; amplitude := a |} in
  let* p := getitem data "phenomenon" in
  let* lam := wavelength wave in
  let* T := period wave in
  let* omega := angular_frequency wave in
  let* k := wave_number wave in
  let* c := read SPEED_OF_LIGHT in
  let* eps0 := read VACUUM_PERMITTIVITY in
  let* mu0 := read VACUUM_PERMEABILITY in
  let* z0 := read VACUUM_IMPEDANCE in
  let cfg :=
    {| version := "1.0";
       phenomenon := p;
       physics :=
         {[ "wave" :=
              VDict {[ "frequency" := VJson (frequency wave);
                       "amplitude" := VJson (amplitude wave);
                       "wavelength" := VFloat (fin lam);
                       "period" := VFloat (fin T);
                       "angular_frequency" := VFloat (fin omega);
                       "wave_number" := VFloat (fin k) ]};
            "constants" :=
              VDict {[ "speed_of_light" := VFloat (fin c);
                       "vacuum_permittivity" := VFloat (fin eps0);
                       "vacuum_permeability" := VFloat (fin mu0);
                       "vacuum_impedance" := VFloat (fin z0) ]} ]} |} in
  (* Add phenomenon-specific parameters *)
  let* p := getitem data "phenomenon" in
  if eq_str p "reflection" then reflection_parameters data cfg
  else
    let* p := getitem data "phenomenon" in
    if eq_str p "doppler" then doppler_parameters data wave cfg
    else
      let* p := getitem data "phenomenon" in
      if eq_str p "dipole" then dipole_parameters data wave cfg
      else
        let* p := getitem data "phenomenon" in
        if eq_str p "waveguide" then waveguide_parameters data wave cfg
        else ret cfg.

(** ** The [/visualize] handler *)

(** What a [create_..._visualization] function returns. *)
Record figure := {
  image : string;
  description : option string;
  description_html : option string
}.

(** The body of the JSON response. *)
Inductive response :=
| Success (image : string) (cfg : config) (description description_html : string)
| Failure (error : string).

Definition success (r : response) : bool :=
  match r with Success _ _ _ _ => true | Failure _ => false end.

Definition error (r : response) : option string :=
  match r with Success _ _ _ _ => None | Failure msg => Some msg end.

Section Endpoint.

(** The plotting functions are outside the physics layer. *)
Variable create_plane_wave_visualization : config -> M figure.
Variable create_standing_wave_visualization : config -> M figure.
Variable create_reflection_visualization : config -> gmap string json -> M figure.
Variable create_interference_visualization : config -> gmap string json -> M figure.
Variable create_doppler_visualization : config -> gmap string json -> M figure.
Variable create_polarization_visualization : config -> gmap string json -> M figure.
Variable create_dipole_visualization : config -> gmap string json -> M figure.
Variable create_waveguide_visualization : config -> gmap string json -> M figure.

(** [str] of a float and of a list or dict, and [repr] of a string. *)
Variable float_str : R -> string.
Variable container_str : json -> string.
Variable str_repr : string -> string.

(** The interpreter's message for an exception of its own.  It names the
    operation that failed and the types of its operands, which [exn] does
    not record: the message is that of the exception the request raises. *)
Variable builtin_message : gmap string json -> exn -> string.

(** Whether standard output can encode a text, and the text of
    [traceback.format_exc()] while the exception of a request is handled. *)
Variable stdout_encodes : string -> bool.
Variable format_exc : gmap string json -> exn -> string.

Definition py_str (j : json) : string :=
  match j with
  | JNull => "None"
  | JBool true => "True"
  | JBool false => "False"
  | JNum r => float_str r
  | JStr s => s
  | JArr _ => container_str j
  | JObj _ => container_str j
  end.

Definition py_repr (j : json) : string :=
  match j with
  | JStr s => str_repr s
  | _ => py_str j
  end.

(** [str(e)], for the exception [e] the request [data] raised. *)
Definition str_exn (data : gmap string json) (e : exn) : string :=
  match e with
  | KeyError key => py_repr key
  | ValueError msg => msg
  | OtherError msg => msg
  | _ => builtin_message data e
  end.

(** [x <= 0] on a request value. *)
Definition le_zero (j : json) : M bool :=
  let* x := to_number j in
  ret (if Rle_dec x 0 then true else false).

(** The [if]/[elif] chain that picks the plotting function. *)
Definition create_visualization (data : gmap string json) (cfg : config) : M figure :=
  let* p := getitem data "phenomenon" in
  if eq_str p "plane_wave" then create_plane_wave_visualization cfg else
  let* p := getitem data "phenomenon" in
  if eq_str p "standing_wave" then create_standing_wave_visualization cfg else
  let* p := getitem data "phenomenon" in
  if eq_str p "reflection" then create_reflection_visualization cfg data else
  let* p := getitem data "phenomenon" in
  if eq_str p "interference" then create_interference_visualization cfg data else
  let* p := getitem data "phenomenon" in
  if eq_str p "doppler" then create_doppler_visualization cfg data else
  let* p := getitem data "phenomenon" in
  if eq_str p "polarization" then create_polarization_visualization cfg data else
  let* p := getitem data "phenomenon" in
  if eq_str p "dipole" then create_dipole_visualization cfg data else
  let* p := getitem data "phenomenon" in
  if eq_str p "waveguide" then create_waveguide_visualization cfg data else
  let* p := getitem data "phenomenon" in
  raise (ValueError ("Unknown phenomenon: " ++ py_str p)).

(** [print(text)]: the text goes to standard output, which raises when it
    cannot encode it. *)
Definition print (text : string) : M unit :=
  if stdout_encodes text then ret tt else raise UnicodeEncodeError.

(** [jsonify] of the success response.  Of the values of a configuration the
    JSON encoder rejects the [float16]; [generate_configuration] stores the
    result of [np.radians] directly in [physics], so no list or dictionary
    of a configuration holds one. *)
Definition json_serializable (v : value) : bool :=
  match v with VFloat16 _ => false | _ => true end.

Definition jsonify (cfg : config) : M unit :=
  if decide (map_Forall (fun _ v => json_serializable v = true) (physics cfg))
  then ret tt
  else raise TypeError.

(** The [try] block. *)
Definition visualize_try (data : gmap string json) : M response :=
  (* Validate input data *)
  let* f := getitem data "frequency" in
  let* bad := le_zero f in
  if bad then raise (ValueError "Frequency must be positive") else
  let* a := getitem data "amplitude" in
  let* bad := le_zero a in
  if bad then raise (ValueError "Amplitude must be positive") else
  (* Generate configuration *)
  let* cfg := generate_configuration data in
  (* Create visualization based on phenomenon *)
  let* result := create_visualization data cfg in
  let* _ := jsonify cfg in
  ret (Success (image result) cfg
         (default "" (description result))
         (default "" (description_html result))).

(** The [except Exception as e] clause: two lines for the log, then the
    failure response. *)
Definition visualize_except (data : gmap string json) (e : exn) : M response :=
  let* _ := print ("Error in visualization: " ++ str_exn data e) in
  let* _ := print (format_exc data e) in
  ret (Failure (str_exn data e)).

(** [visualize]: the [try] block under its [except] clause.  An exception
    of the clause itself leaves the function. *)
Definition visualize (data : gmap string json) : M response :=
  fun g =>
    match visualize_try data g with
    | (Ok r, g') => (Ok r, g')
    | (Raise e, g') => visualize_except data e g'
    end.

(** Standard output can encode the two lines the [except] clause prints
    for [e]. *)
Definition logged (data : gmap string json) (e : exn) : Prop :=
  stdout_encodes ("Error in visualization: " ++ str_exn data e) = true /\
  stdout_encodes (format_exc data e) = true.

End Endpoint.

(** ** The vocabulary of the statements *)

Definition readonly {A} (m : M A) : Prop := forall g, snd (m g) = g.

(** The number a request value is, when it is one. *)
Definition as_real (j : json) : option R :=
  match j with
  | JNum r => Some r
  | JBool b => Some (if b then 1 else 0)
  | _ => None
  end.

(** The [if]/[elif] chain at the end of [generate_configuration]. *)
Definition dispatch (data : gmap string json) (p : json)
    (wave : WaveParameters) (cfg : config) : M config :=
  if eq_str p "reflection" then reflection_parameters data cfg
  else if eq_str p "doppler" then doppler_parameters data wave cfg
  else if eq_str p "dipole" then dipole_parameters data wave cfg
  else if eq_str p "waveguide" then waveguide_parameters data wave cfg
  else ret cfg.



Definition material_names : list string := ["Air"; "Water"; "Glass"; "Diamond"].

(** The request names a medium of the table under [key]. *)
Definition known_medium (data : gmap string json) (key : string) : Prop :=
  exists s, data !! key = Some (JStr s) /\ In s material_names.

(** The magnitudes for which the formulas of the program neither overflow
    nor underflow in double precision. *)
Definition in_range (x : R) : Prop := 1e-100 <= Rabs x <= 1e100.


(** A request value for which the model stands for the program whatever
    the field it is in: a number that is 0 or in range, a string of ASCII
    characters, [None] or a [bool]. *)
Definition plain (j : json) : Prop :=
  match j with
  | JNum r => r = 0 \/ in_range r
  | JStr s => ascii_prefix (String.length s) s = true
  | JArr _ => False
  | JObj _ => False
  | _ => True
  end.

Definition plain_request (data : gmap string json) : Prop :=
  map_Forall (fun _ j => plain j) data.

(** The length [d] of a dipole, in wavelengths, keeps the relative distance
    1e-9 from the thresholds of [calculate_radiation_resistance]. *)
Definition clear_of_thresholds (d : R) : Prop :=
  d <= 0.1 * (1 - 1e-9) \/
  0.1 * (1 + 1e-9) <= d /\
  (Rabs (d - 0.5) <= 0.01 * (1 - 1e-9) \/ 0.01 * (1 + 1e-9) <= Rabs (d - 0.5)).



(** A value that cannot be the key of a dictionary: a list or a dict. *)
Definition unhashable (j : json) : bool :=
  match j with
  | JArr _ => true
  | JObj _ => true
  | _ => false
  end.

(** The request has no list and no dict under [key]. *)
Definition hashable_at (data : gmap string json) (key : string) : Prop :=
  forall j, data !! key = Some j -> unhashable j = false.

(** The character of a decimal digit, and the mode name [TEmn] or [TMmn]. *)
Definition digit (d : nat) : ascii := ascii_of_nat (48 + d).

Definition mode_name (mode_type : string) (m n : nat) : string :=
  mode_type ++ String (digit m) (String (digit n) "").

(** ** Example requests *)



(** The request the form sends by default: TE10 in a 23 mm by 10 mm guide. *)
Definition waveguide_example : gmap string json :=
  {[ "frequency" := JNum 1e10;
     "amplitude" := JNum 1;
     "phenomenon" := JStr "waveguide" ]}.

(** The request the form sends by default: a half-wave dipole. *)
Definition dipole_example : gmap string json :=
  {[ "frequency" := JNum 1e9;
     "amplitude" := JNum 1;
     "phenomenon" := JStr "dipole" ]}.

(** A dipole a little shorter than half a wavelength. *)
Definition dipole_048 : gmap string json :=
  {[ "frequency" := JNum 1e9;
     "amplitude" := JNum 1;
     "phenomenon" := JStr "dipole";
     "dipole_length" := JNum 0.48 ]}.

(** *** A handler to run on examples *)

(** [repr] of a string of ASCII characters: in single quotes, or in double
    quotes when it has a single quote and no double quote; the quote and
    the backslash escaped, a control character written as an escape. *)
Definition single_quote : ascii := ascii_of_nat 39.
Definition double_quote : ascii := ascii_of_nat 34.
Definition backslash : ascii := ascii_of_nat 92.

Fixpoint contains (ch : ascii) (s : string) : bool :=
  match s with
  | EmptyString => false
  | String ch' rest => Ascii.eqb ch ch' || contains ch rest
  end.

Definition hex_digit (n : nat) : ascii :=
  ascii_of_nat (if Nat.ltb n 10 then 48 + n else 87 + n).

Definition repr_char (quote ch : ascii) : string :=
  let code := nat_of_ascii ch in
  if Ascii.eqb ch quote || Ascii.eqb ch backslash then String backslash (String ch "")
  else if Nat.eqb code 9 then String backslash "t"
  else if Nat.eqb code 10 then String backslash "n"
  else if Nat.eqb code 13 then String backslash "r"
  else if Nat.ltb code 32 || Nat.eqb code 127 then
    String backslash
      (String "x"%char (String (hex_digit (code / 16)) (String (hex_digit (code mod 16)) "")))
  else String ch "".

Fixpoint repr_chars (quote : ascii) (s : string) : string :=
  match s with
  | EmptyString => ""
  | String ch rest => repr_char quote ch ++ repr_chars quote rest
  end.

Definition ascii_repr (s : string) : string :=
  let quote :=
    if contains single_quote s && negb (contains double_quote s)
    then double_quote else single_quote in
  String quote (repr_chars quote s ++ String quote "").

(** The bytes of a surrogate: 237, then a byte from 160. *)
Fixpoint has_surrogate (s : string) : bool :=
  match s with
  | String ch (String ch' _ as rest) =>
      Nat.eqb (nat_of_ascii ch) 237 && Nat.leb 160 (nat_of_ascii ch')
      || has_surrogate rest
  | _ => false
  end.

(** A standard output in UTF-8, which has a code for every character but
    the surrogates. *)
Definition utf8_encodes (s : string) : bool := negb (has_surrogate s).

(** The messages of the interpreter that do not depend on the operands
    (a [TypeError] has none: the examples raise no [TypeError]). *)
Definition example_message (data : gmap string json) (e : exn) : string :=
  match e with
  | ZeroDivisionError => "float division by zero"
  | IndexError => "string index out of range"
  | IntValueError ch =>
      "invalid literal for int() with base 10: " ++ ascii_repr (String ch "")
  | _ => ""
  end.

(** Plotting functions that draw nothing. *)
Definition blank_figure : figure :=
  {| image := ""; description := None; description_html := None |}.

(** The handler with these plotting functions, a standard output in UTF-8
    and a traceback that ends with the message of the exception. *)
Definition example_handler (data : gmap string json) : M response :=
  visualize (fun _ => ret blank_figure) (fun _ => ret blank_figure)
    (fun _ _ => ret blank_figure) (fun _ _ => ret blank_figure)
    (fun _ _ => ret blank_figure) (fun _ _ => ret blank_figure)
    (fun _ _ => ret blank_figure) (fun _ _ => ret blank_figure)
    (fun _ => "") (fun _ => "") ascii_repr example_message
    utf8_encodes
    (fun data e =>
       "Traceback (most recent call last): "
       ++ str_exn (fun _ => "") (fun _ => "") ascii_repr example_message data e)
    data.


Definition unknown_medium_request : gmap string json :=
  {[ "frequency" := JNum 1e9;
     "amplitude" := JNum 1;
     "phenomenon" := JStr "reflection";
     "medium1" := JStr "Vacuum";
     "medium2" := JStr "Air";
     "angle" := JNum 30 ]}.


(** A reflection request whose first medium is the list [["Air"]]. *)
Definition list_medium_request : gmap string json :=
  {[ "frequency" := JNum 1e9;
     "amplitude" := JNum 1;
     "phenomenon" := JStr "reflection";
     "medium1" := JArr [JStr "Air"];
     "medium2" := JStr "Air";
     "angle" := JNum 30 ]}.



(** ** The vocabulary of the further properties *)

(** The configuration [generate_configuration] builds before it looks at the
    phenomenon, for a request with frequency [fj] (the number [f]),
    amplitude [aj] and phenomenon [p], in the store [g]. *)
Definition base_config (fj aj p : json) (f : R) (g : globals) : config :=
  {| version := "1.0";
     phenomenon := p;
     physics :=
       {[ "wave" :=
            VDict {[ "frequency" := VJson fj;
                     "amplitude" := VJson aj;
                     "wavelength" := VFloat (fin (SPEED_OF_LIGHT g / f));
                     "period" := VFloat (fin (1.0 / f));
                     "angular_frequency" := VFloat (fin (2 * PI * f));
                     "wave_number" := VFloat (fin (2 * PI / (SPEED_OF_LIGHT g / f))) ]};
          "constants" :=
            VDict {[ "speed_of_light" := VFloat (fin (SPEED_OF_LIGHT g));
                     "vacuum_permittivity" := VFloat (fin (VACUUM_PERMITTIVITY g));
                     "vacuum_permeability" := VFloat (fin (VACUUM_PERMEABILITY g));
                     "vacuum_impedance" := VFloat (fin (VACUUM_IMPEDANCE g)) ]} ]} |}.

(** [cfg] has the version, the phenomenon and the [wave] and [constants]
    sections of [cfg0]. *)
Definition keeps_base (cfg0 cfg : config) : Prop :=
  version cfg = version cfg0 /\
  phenomenon cfg = phenomenon cfg0 /\
  reported cfg "wave" = reported cfg0 "wave" /\
  reported cfg "constants" = reported cfg0 "constants".



(** The characters [int] accepts. *)
Definition is_digit (ch : ascii) : bool :=
  Nat.leb 48 (nat_of_ascii ch) && Nat.leb (nat_of_ascii ch) 57.

(** ** Further example requests *)

Definition plane_wave_example : gmap string json :=
  {[ "frequency" := JNum 1e9;
     "amplitude" := JNum 1;
     "phenomenon" := JStr "plane_wave" ]}.

(** The configuration of [plane_wave_example]. *)
Definition plane_wave_configuration : config :=
  base_config (JNum 1e9) (JNum 1) (JStr "plane_wave") 1e9 module_globals.

Definition zero_frequency_request : gmap string json :=
  {[ "frequency" := JNum 0;
     "amplitude" := JNum 1;
     "phenomenon" := JStr "plane_wave" ]}.

Definition no_frequency_request : gmap string json :=
  {[ "amplitude" := JNum 1;
     "phenomenon" := JStr "plane_wave" ]}.




(** Water to water at 45 degrees. *)
Definition reflection_same_medium : gmap string json :=
  {[ "frequency" := JNum 1e9;
     "amplitude" := JNum 1;
     "phenomenon" := JStr "reflection";
     "medium1" := JStr "Water";
     "medium2" := JStr "Water";
     "angle" := JNum 45 ]}.



(** A source approaching at 30 km/s, and one faster than light. *)
Definition doppler_approaching : gmap string json :=
  {[ "frequency" := JNum 1e9;
     "amplitude" := JNum 1;
     "phenomenon" := JStr "doppler";
     "velocity" := JNum 30000 ]}.


(** A dipole of a twentieth of a wavelength, at two frequencies. *)
Definition dipole_short_1GHz : gmap string json :=
  {[ "frequency" := JNum 1e9;
     "amplitude" := JNum 3;
     "phenomenon" := JStr "dipole";
     "dipole_length" := JNum 0.05 ]}.

Definition dipole_short_2GHz : gmap string json :=
  {[ "frequency" := JNum 2e9;
     "amplitude" := JNum 1;
     "phenomenon" := JStr "dipole";
     "dipole_length" := JNum 0.05 ]}.

(** Waveguide requests: the mode [TE00], a mode name that is too short, and
    a guide of width 0. *)
Definition waveguide_TE00 : gmap string json :=
  {[ "frequency" := JNum 1e10;
     "amplitude" := JNum 1;
     "phenomenon" := JStr "waveguide";
     "mode" := JStr "TE00" ]}.

Definition waveguide_short_mode : gmap string json :=
  {[ "frequency" := JNum 1e10;
     "amplitude" := JNum 1;
     "phenomenon" := JStr "waveguide";
     "mode" := JStr "TE1" ]}.

Definition waveguide_zero_width : gmap string json :=
  {[ "frequency" := JNum 1e10;
     "amplitude" := JNum 1;
     "phenomenon" := JStr "waveguide";
     "guide_width" := JNum 0 ]}.

(** * Properties *)

(** ** Evaluation lemmas *)

Lemma bind_ok {A B} (m : M A) (k : A -> M B) g a g' :
  m g = (Ok a, g') -> bind m k g = k a g'.
Proof. intros H. unfold bind. now rewrite H. Qed.

Lemma bind_raise {A B} (m : M A) (k : A -> M B) g e g' :
  m g = (Raise e, g') -> bind m k g = (Raise e, g').
Proof. intros H. unfold bind. now rewrite H. Qed.

Lemma getitem_ok data key v g :
  data !! key = Some v -> getitem data key g = (Ok v, g).
Proof. intros H. unfold getitem. now rewrite H. Qed.

Lemma getitem_missing data key g :
  data !! key = None -> getitem data key g = (Raise (KeyError (JStr key)), g).
Proof. intros H. unfold getitem. now rewrite H. Qed.

Lemma py_div_ok x y g : y <> 0 -> py_div x y g = (Ok (x / y), g).
Proof. intros H. unfold py_div. now destruct (Req_dec_T y 0). Qed.

Lemma py_div_zero x g : py_div x 0 g = (Raise ZeroDivisionError, g).
Proof. unfold py_div. destruct (Req_dec_T 0 0); [reflexivity | contradiction]. Qed.

Lemma np_div_fin a b : b <> 0 -> (fin a / fin b)%np = fin (a / b).
Proof. intros H. unfold np_div, fin. now destruct (Req_dec_T b 0). Qed.

Lemma np_div_zero a : (fin a / fin 0)%np = None.
Proof. unfold np_div, fin. destruct (Req_dec_T 0 0); [reflexivity | contradiction]. Qed.

Lemma np_sqrt_fin a : 0 <= a -> np_sqrt (fin a) = fin (sqrt a).
Proof. intros H. unfold np_sqrt, fin. destruct (Rlt_dec a 0); [lra | reflexivity]. Qed.

Lemma np_arcsin_fin a : -1 <= a <= 1 -> np_arcsin (fin a) = fin (asin a).
Proof.
  intros H. unfold np_arcsin, fin.
  destruct (Rlt_dec a (-1)); [lra |].
  destruct (Rlt_dec 1 a); [lra | reflexivity].
Qed.

(** ** No evaluation writes a global *)

Lemma readonly_ret {A} (a : A) : readonly (ret a).
Proof. now intros g. Qed.

Lemma readonly_raise {A} e : readonly (@raise A e).
Proof. now intros g. Qed.

Lemma readonly_read name : readonly (read name).
Proof. now intros g. Qed.

Lemma readonly_bind {A B} (m : M A) (k : A -> M B) :
  readonly m -> (forall a, readonly (k a)) -> readonly (bind m k).
Proof.
  intros Hm Hk g. unfold bind. specialize (Hm g).
  destruct (m g) as [[a | e] g']; simpl in Hm; subst g'; [apply Hk | reflexivity].
Qed.

Lemma readonly_if {A} (b : bool) (m1 m2 : M A) :
  readonly m1 -> readonly m2 -> readonly (if b then m1 else m2).
Proof. now destruct b. Qed.

Lemma readonly_sumbool {A} {P Q : Prop} (b : {P} + {Q}) (m1 m2 : M A) :
  readonly m1 -> readonly m2 -> readonly (if b then m1 else m2).
Proof. now destruct b. Qed.

Lemma readonly_py_div x y : readonly (py_div x y).
Proof. unfold py_div. apply readonly_sumbool; [apply readonly_raise | apply readonly_ret]. Qed.

Lemma readonly_to_number j : readonly (to_number j).
Proof. destruct j as [| [|] | | | |]; now intros g. Qed.

Lemma readonly_getitem data key : readonly (getitem data key).
Proof. unfold getitem. now destruct (data !! key); intros g. Qed.

Lemma readonly_materials_getitem key : readonly (materials_getitem key).
Proof.
  unfold materials_getitem. destruct key; try now intros g.
  now destruct (materials !! s); intros g.
Qed.

Lemma readonly_np_number j : readonly (np_number j).
Proof. destruct j as [| [|] | | | |]; now intros g. Qed.

Lemma readonly_slice2 mode : readonly (slice2 mode).
Proof.
  unfold slice2. destruct mode; try now intros g.
  now destruct (ascii_prefix 2 s); intros g.
Qed.

Lemma readonly_char_at mode i : readonly (char_at mode i).
Proof.
  unfold char_at. destruct mode; try now intros g.
  destruct (ascii_prefix (S i) s); [| now intros g].
  now destruct (String.get i s); intros g.
Qed.

Lemma readonly_int_of_char ch : readonly (int_of_char ch).
Proof. unfold int_of_char. apply readonly_if; now intros g. Qed.

Create HintDb readonly.
#[local] Hint Resolve readonly_ret readonly_raise readonly_read readonly_py_div
  readonly_to_number readonly_np_number readonly_getitem readonly_materials_getitem
  readonly_slice2 readonly_char_at readonly_int_of_char : readonly.

Ltac readonly_step :=
  match goal with
  | |- readonly (bind _ _) => apply readonly_bind; [| intros ?]
  | |- readonly (if ?b then _ else _) =>
      first [apply readonly_if | apply readonly_sumbool]
  | |- readonly (let _ := _ in _) => cbv zeta
  | |- readonly _ => solve [auto with readonly]
  end.

Ltac readonly_auto := repeat readonly_step.

Lemma readonly_wavelength w : readonly (wavelength w).
Proof. unfold wavelength. readonly_auto. Qed.

Lemma readonly_period w : readonly (period w).
Proof. unfold period. readonly_auto. Qed.

Lemma readonly_angular_frequency w : readonly (angular_frequency w).
Proof. unfold angular_frequency. readonly_auto. Qed.

#[local] Hint Resolve readonly_wavelength readonly_period
  readonly_angular_frequency : readonly.

Lemma readonly_wave_number w : readonly (wave_number w).
Proof. unfold wave_number. readonly_auto. Qed.

Lemma readonly_wave_speed m : readonly (wave_speed m).
Proof. unfold wave_speed. readonly_auto. Qed.

Lemma readonly_impedance m : readonly (impedance m).
Proof. unfold impedance. readonly_auto. Qed.

#[local] Hint Resolve readonly_wave_number readonly_wave_speed
  readonly_impedance : readonly.

Lemma readonly_medium_entry m : readonly (medium_entry m).
Proof. unfold medium_entry. readonly_auto. Qed.

Lemma readonly_calculate_radiation_resistance l lam :
  readonly (calculate_radiation_resistance l lam).
Proof. unfold calculate_radiation_resistance. readonly_auto. Qed.

Lemma readonly_calculate_waveguide_impedance mt f fc :
  readonly (calculate_waveguide_impedance mt f fc).
Proof. unfold calculate_waveguide_impedance. readonly_auto. Qed.

#[local] Hint Resolve readonly_medium_entry
  readonly_calculate_radiation_resistance
  readonly_calculate_waveguide_impedance : readonly.

Lemma readonly_reflection_parameters data cfg :
  readonly (reflection_parameters data cfg).
Proof. unfold reflection_parameters. readonly_auto. Qed.

Lemma readonly_doppler_parameters data w cfg :
  readonly (doppler_parameters data w cfg).
Proof. unfold doppler_parameters. readonly_auto. Qed.

Lemma readonly_dipole_parameters data w cfg :
  readonly (dipole_parameters data w cfg).
Proof. unfold dipole_parameters. readonly_auto. Qed.

Lemma readonly_waveguide_parameters data w cfg :
  readonly (waveguide_parameters data w cfg).
Proof. unfold waveguide_parameters. readonly_auto. Qed.

#[local] Hint Resolve readonly_reflection_parameters readonly_doppler_parameters
  readonly_dipole_parameters readonly_waveguide_parameters : readonly.

Lemma readonly_generate_configuration data :
  readonly (generate_configuration data).
Proof. unfold generate_configuration. readonly_auto. Qed.

(** ** Numbers of a request *)

Lemma to_number_ok j x g : as_real j = Some x -> to_number j g = (Ok x, g).
Proof. destruct j as [| [|] | | | |]; simpl; intros H; inversion H; reflexivity. Qed.

Lemma to_number_TypeError j g :
  as_real j = None -> to_number j g = (Raise TypeError, g).
Proof. destruct j as [| [|] | | | |]; simpl; intros H; inversion H; reflexivity. Qed.

Lemma np_number_ok j x g : as_real j = Some x -> np_number j g = (Ok x, g).
Proof. destruct j as [| [|] | | | |]; simpl; intros H; inversion H; reflexivity. Qed.


(** ** Numbers in range *)

Lemma in_range_nonzero x : in_range x -> x <> 0.
Proof.
  unfold in_range. intros [H _] ->. rewrite Rabs_R0 in H. lra.
Qed.

Lemma in_range_pos x : 1e-100 <= x <= 1e100 -> in_range x.
Proof. intros H. unfold in_range. rewrite Rabs_pos_eq; lra. Qed.

(** ** Looking a key up in a configuration *)

Lemma reported_set_eq key v cfg : reported (set_physics key v cfg) key = Some v.
Proof. unfold reported, set_physics. simpl. apply lookup_insert_eq. Qed.

Lemma reported_set_ne key key' v cfg :
  key <> key' -> reported (set_physics key v cfg) key' = reported cfg key'.
Proof. intros H. unfold reported, set_physics. simpl. now apply lookup_insert_ne. Qed.

Lemma reported_in_set_eq key d cfg key' :
  reported_in (set_physics key (VDict d) cfg) key key' = d !! key'.
Proof. unfold reported_in, set_physics. simpl. now rewrite lookup_insert_eq. Qed.


(** ** The part of [generate_configuration] every phenomenon shares *)

Lemma c_nonzero : SPEED_OF_LIGHT module_globals <> 0.
Proof. simpl. lra. Qed.

Lemma c_positive : 0 < SPEED_OF_LIGHT module_globals.
Proof. simpl. lra. Qed.

Lemma wavelength_ok w f g :
  as_real (frequency w) = Some f -> f <> 0 ->
  wavelength w g = (Ok (SPEED_OF_LIGHT g / f), g).
Proof.
  intros Hf Hf0. unfold wavelength.
  erewrite bind_ok by reflexivity.
  erewrite bind_ok by (apply to_number_ok; eassumption).
  now apply py_div_ok.
Qed.

Lemma wavelength_zero w g :
  as_real (frequency w) = Some 0 -> wavelength w g = (Raise ZeroDivisionError, g).
Proof.
  intros Hf. unfold wavelength.
  erewrite bind_ok by reflexivity.
  erewrite bind_ok by (apply to_number_ok; eassumption).
  apply py_div_zero.
Qed.

Lemma period_ok w f g :
  as_real (frequency w) = Some f -> f <> 0 -> period w g = (Ok (1.0 / f), g).
Proof.
  intros Hf Hf0. unfold period.
  erewrite bind_ok by (apply to_number_ok; eassumption).
  now apply py_div_ok.
Qed.

Lemma angular_frequency_ok w f g :
  as_real (frequency w) = Some f -> angular_frequency w g = (Ok (2 * PI * f), g).
Proof.
  intros Hf. unfold angular_frequency.
  erewrite bind_ok by (apply to_number_ok; eassumption).
  reflexivity.
Qed.

Lemma Rdiv_neq_0 x y : x <> 0 -> y <> 0 -> x / y <> 0.
Proof.
  intros Hx Hy H. unfold Rdiv in H. apply Rmult_integral in H.
  destruct H as [H | H]; [now apply Hx |].
  revert H. now apply Rinv_neq_0_compat.
Qed.

Lemma wave_number_ok w f g :
  as_real (frequency w) = Some f -> f <> 0 -> SPEED_OF_LIGHT g <> 0 ->
  wave_number w g = (Ok (2 * PI / (SPEED_OF_LIGHT g / f)), g).
Proof.
  intros Hf Hf0 Hc. unfold wave_number.
  erewrite bind_ok by (apply wavelength_ok; eassumption).
  apply py_div_ok. now apply Rdiv_neq_0.
Qed.

Lemma generate_configuration_header data fj f aj p :
  data !! "frequency" = Some fj -> as_real fj = Some f -> f <> 0 ->
  data !! "amplitude" = Some aj ->
  data !! "phenomenon" = Some p ->
  exists cfg0,
    generate_configuration data module_globals
    = dispatch data p {| frequency := fj; amplitude := aj |} cfg0 module_globals.
Proof.
  intros Hfj Hf Hf0 Haj Hp.
  pose proof c_nonzero as Hc.
  unfold generate_configuration.
  do 3 (erewrite bind_ok by (apply getitem_ok; eassumption)).
  erewrite bind_ok by (apply wavelength_ok; eassumption).
  erewrite bind_ok by (apply period_ok; eassumption).
  erewrite bind_ok by (apply angular_frequency_ok; eassumption).
  erewrite bind_ok by (apply wave_number_ok; eassumption).
  do 4 (erewrite bind_ok by reflexivity).
  eexists. unfold dispatch.
  erewrite bind_ok by (apply getitem_ok; eassumption).
  destruct (eq_str p "reflection"); [reflexivity |].
  erewrite bind_ok by (apply getitem_ok; eassumption).
  destruct (eq_str p "doppler"); [reflexivity |].
  erewrite bind_ok by (apply getitem_ok; eassumption).
  destruct (eq_str p "dipole"); [reflexivity |].
  erewrite bind_ok by (apply getitem_ok; eassumption).
  destruct (eq_str p "waveguide"); reflexivity.
Qed.

(** ** The materials table *)

Lemma materials_lookup key medium :
  materials !! key = Some medium ->
  medium = MediumProperties_init "Air" 1.00059 \/
  medium = MediumProperties_init "Water" 80.0 \/
  medium = MediumProperties_init "Glass" 2.25 \/
  medium = MediumProperties_init "Diamond" 5.84.
Proof.
  unfold materials. intros H.
  repeat (apply lookup_insert_Some in H; destruct H as [[_ H] | [_ H]]; [auto |]).
  apply lookup_singleton_Some in H. destruct H as [_ H]. auto.
Qed.

Lemma materials_permittivity key medium :
  materials !! key = Some medium ->
  1 < relative_permittivity medium /\ relative_permeability medium = 1.0.
Proof.
  intros H. apply materials_lookup in H.
  destruct H as [-> | [-> | [-> | ->]]]; simpl; split; lra.
Qed.

(** The refractive index of a medium of the table is a number above one. *)
Lemma materials_refractive_index key medium :
  materials !! key = Some medium ->
  exists n, refractive_index medium = fin n /\ 1 < n /\
            n = sqrt (relative_permittivity medium * relative_permeability medium).
Proof.
  intros H. apply materials_permittivity in H. destruct H as [He Hm].
  exists (sqrt (relative_permittivity medium * relative_permeability medium)).
  split; [| split; [| reflexivity]].
  - unfold refractive_index. apply np_sqrt_fin. rewrite Hm. lra.
  - rewrite <- sqrt_1. apply sqrt_lt_1; try rewrite Hm; lra.
Qed.

Lemma materials_getitem_ok key medium g :
  materials !! key = Some medium ->
  materials_getitem (JStr key) g = (Ok medium, g).
Proof. intros H. unfold materials_getitem. now rewrite H. Qed.

Lemma medium_entry_ok key medium g :
  materials !! key = Some medium ->
  exists entry, medium_entry medium g = (Ok entry, g).
Proof.
  intros H. apply materials_permittivity in H. destruct H as [He Hm].
  assert (Hz : exists z, impedance medium g = (Ok z, g)).
  { unfold impedance.
    erewrite bind_ok by reflexivity.
    erewrite bind_ok by (apply py_div_ok; lra).
    eexists. reflexivity. }
  destruct Hz as [z Hz].
  unfold medium_entry.
  erewrite bind_ok by reflexivity.
  erewrite bind_ok by eassumption.
  eexists. reflexivity.
Qed.

(** ** The reflection branch, evaluated *)

Section Reflection.

Variables (data : gmap string json) (cfg0 : config) (g : globals).
Variables (key1 key2 : string) (medium1 medium2 : MediumProperties).
Variables (aj : json) (angle : R).
Hypothesis Hkey1 : data !! "medium1" = Some (JStr key1).
Hypothesis Hkey2 : data !! "medium2" = Some (JStr key2).
Hypothesis Hmedium1 : materials !! key1 = Some medium1.
Hypothesis Hmedium2 : materials !! key2 = Some medium2.
Hypothesis Haj : data !! "angle" = Some aj.
Hypothesis Hangle : as_real aj = Some angle.

Let n1 := refractive_index medium1.
Let n2 := refractive_index medium2.
Let sin_theta_t := (n1 * fin (sin (radians angle)) / n2)%np.
Let theta_t := np_arcsin sin_theta_t.
Let cos_theta_i := fin (cos (radians angle)).
Let cos_theta_t := np_cos theta_t.




End Reflection.

(** ** Snell's law and total internal reflection *)

Lemma np_le_fin a b : np_le (fin a) b = true <-> a <= b.
Proof. unfold np_le, fin. destruct (Rle_dec a b); split; intros; (assumption || reflexivity || discriminate || contradiction). Qed.

Lemma np_le_fin_false a b : np_le (fin a) b = false <-> a > b.
Proof.
  unfold np_le, fin. destruct (Rle_dec a b); split; intros H;
    try discriminate; try reflexivity; lra.
Qed.

Lemma np_mul_fin a b : (fin a * fin b)%np = fin (a * b).
Proof. reflexivity. Qed.
Lemma np_add_fin a b : (fin a + fin b)%np = fin (a + b).
Proof. reflexivity. Qed.
Lemma np_sub_fin a b : (fin a - fin b)%np = fin (a - b).
Proof. reflexivity. Qed.

Lemma radians_bounds angle : 0 <= angle <= 90 -> 0 <= radians angle <= PI / 2.
Proof.
  intros [H0 H90]. unfold radians. pose proof PI_RGT_0 as Hpi.
  split.
  - apply Rmult_le_pos; [ | lra]. apply Rmult_le_pos; lra.
  - replace (PI / 2) with (90 * PI / 180) by field.
    apply Rmult_le_compat_r; [lra |]. apply Rmult_le_compat_r; lra.
Qed.




(** ** Energy conservation of the TE coefficients *)



Lemma np_sq_fin a : np_sq (fin a) = fin (a ^ 2).
Proof. reflexivity. Qed.

Lemma np_cos_fin a : np_cos (fin a) = fin (cos a).
Proof. reflexivity. Qed.

Lemma np_degrees_fin a : np_degrees (fin a) = fin (a * 180 / PI).
Proof. reflexivity. Qed.


Section ReflectionRequest.

Variables (data : gmap string json) (fj aj anglej : json) (f angle : R).
Variables (key1 key2 : string) (medium1 medium2 : MediumProperties).
Hypothesis Hp : data !! "phenomenon" = Some (JStr "reflection").
Hypothesis Hfj : data !! "frequency" = Some fj.
Hypothesis Hf : as_real fj = Some f.
Hypothesis Hf0 : f <> 0.
Hypothesis Haj : data !! "amplitude" = Some aj.
Hypothesis Hk1 : data !! "medium1" = Some (JStr key1).
Hypothesis Hm1 : materials !! key1 = Some medium1.
Hypothesis Hk2 : data !! "medium2" = Some (JStr key2).
Hypothesis Hm2 : materials !! key2 = Some medium2.
Hypothesis Hanglej : data !! "angle" = Some anglej.
Hypothesis Hangle : as_real anglej = Some angle.



End ReflectionRequest.

Lemma cos_radians_pos angle : 0 <= angle < 90 -> 0 < cos (radians angle).
Proof.
  intros [H0 H90]. pose proof PI_RGT_0 as Hpi.
  apply cos_gt_0; unfold radians.
  - apply Rlt_le_trans with 0; [lra |].
    apply Rmult_le_pos; [| lra]. apply Rmult_le_pos; lra.
  - replace (PI / 2) with (90 * PI / 180) by field.
    apply Rmult_lt_compat_r; [lra |]. apply Rmult_lt_compat_r; lra.
Qed.








(** ** The Doppler branch *)

Lemma Rabs_div_lt_1 v c : 0 < c -> Rabs v < c -> Rabs (v / c) < 1.
Proof.
  intros Hc Hv. unfold Rdiv. rewrite Rabs_mult, (Rabs_pos_eq (/ c)).
  - apply (Rmult_lt_reg_r c); [exact Hc |].
    rewrite Rmult_assoc, Rinv_l by lra. lra.
  - apply Rlt_le, Rinv_0_lt_compat, Hc.
Qed.

Lemma doppler_ratio_pos beta : Rabs beta < 1 -> 0 < (1 + beta) / (1 - beta).
Proof.
  intros H. apply Rabs_def2 in H. apply Rdiv_lt_0_compat; lra.
Qed.

Lemma dispatch_reflection data w cfg :
  dispatch data (JStr "reflection") w cfg = reflection_parameters data cfg.
Proof. reflexivity. Qed.

Lemma dispatch_doppler data w cfg :
  dispatch data (JStr "doppler") w cfg = doppler_parameters data w cfg.
Proof. reflexivity. Qed.

Lemma dispatch_dipole data w cfg :
  dispatch data (JStr "dipole") w cfg = dipole_parameters data w cfg.
Proof. reflexivity. Qed.

Lemma dispatch_waveguide data w cfg :
  dispatch data (JStr "waveguide") w cfg = waveguide_parameters data w cfg.
Proof. reflexivity. Qed.



(** ** The waveguide branch *)

Lemma int_of_char_digit d g :
  (d < 10)%nat -> int_of_char (digit d) g = (Ok (Z.of_nat d), g).
Proof.
  intros H.
  do 10 (destruct d as [| d]; [reflexivity |]). lia.
Qed.

Lemma slice2_mode_name mt m n g :
  mt = "TE" \/ mt = "TM" -> slice2 (JStr (mode_name mt m n)) g = (Ok mt, g).
Proof. intros [-> | ->]; reflexivity. Qed.

Lemma char_at_mode_name_2 mt m n g :
  mt = "TE" \/ mt = "TM" -> (m < 10)%nat ->
  char_at (JStr (mode_name mt m n)) 2 g = (Ok (digit m), g).
Proof.
  intros [-> | ->] Hm;
    (do 10 (destruct m as [| m]; [reflexivity |])); lia.
Qed.

Lemma char_at_mode_name_3 mt m n g :
  mt = "TE" \/ mt = "TM" -> (m < 10)%nat -> (n < 10)%nat ->
  char_at (JStr (mode_name mt m n)) 3 g = (Ok (digit n), g).
Proof.
  intros [-> | ->] Hm Hn;
    (do 10 (destruct m as [| m];
            [do 10 (destruct n as [| n]; [reflexivity |]); lia |])); lia.
Qed.

Section Waveguide.

Variables (data : gmap string json) (wave : WaveParameters) (cfg0 : config) (g : globals).
Variables (mt : string) (m n : nat) (a b f : R).
Hypothesis Hmode : get data "mode" (JStr "TE10") = JStr (mode_name mt m n).
Hypothesis Hmt : mt = "TE" \/ mt = "TM".
Hypothesis Hm : (m < 10)%nat.
Hypothesis Hn : (n < 10)%nat.
Hypothesis Ha : as_real (get data "guide_width" (JNum 0.023)) = Some a.
Hypothesis Hb : as_real (get data "guide_height" (JNum 0.010)) = Some b.
Hypothesis Ha0 : a <> 0.
Hypothesis Hb0 : b <> 0.
Hypothesis Hf : as_real (frequency wave) = Some f.
Hypothesis Hc0 : SPEED_OF_LIGHT g <> 0.

Let c := SPEED_OF_LIGHT g.
Let fc : npfloat :=
  (fin (c / (2 * PI))
   * np_sqrt (fin ((IZR (Z.of_nat m) * PI / a) ^ 2 + (IZR (Z.of_nat n) * PI / b) ^ 2)))%np.
Let k := 2 * PI * f / c.
Let kc := (fin (2 * PI) * fc / fin c)%np.


Lemma waveguide_parameters_evanescent :
  np_gt f fc = false ->
  exists cfg,
    waveguide_parameters data wave cfg0 g = (Ok cfg, g) /\
    reported_in cfg "waveguide" "cutoff_frequency" = Some (VFloat fc) /\
    reported_in cfg "waveguide" "attenuation_constant"
      = Some (VFloat (np_sqrt (np_sq kc - fin (k ^ 2))%np)) /\
    reported_in cfg "waveguide" "evanescent" = Some (VBool true) /\
    reported_in cfg "waveguide" "propagation_constant" = None /\
    reported_in cfg "waveguide" "guide_wavelength" = None /\
    reported_in cfg "waveguide" "phase_velocity" = None /\
    reported_in cfg "waveguide" "group_velocity" = None /\
    reported_in cfg "waveguide" "impedance" = None.
Proof.
  intros Hgt.
  assert (H2pi : 2 * PI <> 0) by (pose proof PI_RGT_0; lra).
  unfold waveguide_parameters. cbv zeta. rewrite Hmode.
  erewrite bind_ok by (now apply slice2_mode_name).
  erewrite bind_ok by (now apply char_at_mode_name_2).
  erewrite bind_ok by (now apply int_of_char_digit).
  erewrite bind_ok by (now apply char_at_mode_name_3).
  erewrite bind_ok by (now apply int_of_char_digit).
  erewrite bind_ok by reflexivity.
  erewrite bind_ok by (now apply py_div_ok).
  erewrite bind_ok by (apply to_number_ok; exact Ha).
  erewrite bind_ok by (now apply py_div_ok).
  erewrite bind_ok by (apply to_number_ok; exact Hb).
  erewrite bind_ok by (now apply py_div_ok).
  erewrite bind_ok by (apply to_number_ok; exact Hf).
  fold c. fold fc. rewrite Hgt.
  erewrite bind_ok by (apply angular_frequency_ok; exact Hf).
  erewrite bind_ok by (now apply py_div_ok).
  eexists. split; [reflexivity |].
  rewrite !reported_in_set_eq. fold k. fold kc.
  repeat split; reflexivity.
Qed.

End Waveguide.

Lemma np_gt_fin x y : np_gt x (fin y) = true <-> x > y.
Proof.
  unfold np_gt, fin. destruct (Rgt_dec x y); split; intros H;
    try discriminate; try reflexivity; try assumption; contradiction.
Qed.

Lemma np_gt_fin_false x y : np_gt x (fin y) = false <-> ~ x > y.
Proof.
  unfold np_gt, fin. destruct (Rgt_dec x y); split; intros H;
    try discriminate; try reflexivity; try assumption; contradiction.
Qed.

Lemma le_np_fin_false x y : x > y -> le_np x (fin y) = false.
Proof. intros H. unfold le_np, fin. destruct (Rle_dec x y); [lra | reflexivity]. Qed.

(** The cutoff frequency is a number, and not negative. *)
Lemma cutoff_frequency_fin c kx ky :
  0 < c ->
  (fin (c / (2 * PI)) * np_sqrt (fin (kx ^ 2 + ky ^ 2)))%np
    = fin (c / (2 * PI) * sqrt (kx ^ 2 + ky ^ 2)) /\
  0 <= c / (2 * PI) * sqrt (kx ^ 2 + ky ^ 2).
Proof.
  intros Hc. pose proof PI_RGT_0 as Hpi.
  pose proof (pow2_ge_0 kx). pose proof (pow2_ge_0 ky).
  split.
  - rewrite np_sqrt_fin by lra. reflexivity.
  - apply Rmult_le_pos; [| apply sqrt_pos].
    apply Rlt_le, Rdiv_lt_0_compat; lra.
Qed.

(** Above cutoff the square of the wave number exceeds that of the cutoff
    wave number; at or below cutoff it does not. *)
Lemma dispersion_above c f fc :
  0 < c -> 0 <= fc -> fc < f ->
  0 < (2 * PI * f / c) ^ 2 - (2 * PI * fc / c) ^ 2.
Proof.
  intros Hc Hfc Hf. pose proof PI_RGT_0 as Hpi.
  replace ((2 * PI * f / c) ^ 2 - (2 * PI * fc / c) ^ 2)
    with ((2 * PI / c) ^ 2 * ((f - fc) * (f + fc))) by (field; lra).
  apply Rmult_lt_0_compat.
  - apply pow_lt, Rdiv_lt_0_compat; lra.
  - apply Rmult_lt_0_compat; lra.
Qed.


Lemma cutoff_ratio f fc : 0 <= fc -> fc < f -> 0 < 1 - (fc / f) ^ 2.
Proof.
  intros Hfc Hf.
  assert (Hq : 0 <= fc / f < 1).
  { split.
    - apply Rmult_le_pos; [lra |]. apply Rlt_le, Rinv_0_lt_compat. lra.
    - apply (Rmult_lt_reg_r f); [lra |].
      replace (fc / f * f) with fc by (field; lra). lra. }
  nra.
Qed.

Lemma calculate_waveguide_impedance_above mt f fc g :
  0 <= fc -> fc < f ->
  calculate_waveguide_impedance mt f (fin fc) g
  = (Ok (fin (if String.eqb mt "TE"
              then VACUUM_IMPEDANCE g / sqrt (1 - (fc / f) ^ 2)
              else VACUUM_IMPEDANCE g * sqrt (1 - (fc / f) ^ 2))), g).
Proof.
  intros Hfc Hf. pose proof (cutoff_ratio f fc Hfc Hf) as Hq.
  unfold calculate_waveguide_impedance.
  rewrite le_np_fin_false by lra.
  erewrite bind_ok by reflexivity.
  rewrite np_div_fin by lra.
  rewrite np_sq_fin, np_sub_fin, np_sqrt_fin by lra.
  destruct (String.eqb mt "TE"); [| reflexivity].
  rewrite np_div_fin; [reflexivity |].
  apply Rgt_not_eq, sqrt_lt_R0, Hq.
Qed.


(** The cutoff frequency of a mode with the second index 0. *)
Lemma single_index_cutoff c m a b :
  0 < c -> a <> 0 ->
  c / (2 * PI) * sqrt ((INR m * PI / a) ^ 2 + (INR 0 * PI / b) ^ 2)
  = INR m * c / (2 * Rabs a).
Proof.
  intros Hc Ha. pose proof PI_RGT_0 as Hpi.
  pose proof (Rabs_pos_lt a Ha) as Habs.
  pose proof (pos_INR m) as Hm.
  replace ((INR m * PI / a) ^ 2 + (INR 0 * PI / b) ^ 2)
    with (Rsqr (INR m * PI / a)).
  2:{ unfold Rsqr. simpl INR. unfold Rdiv. ring. }
  rewrite sqrt_Rsqr_abs.
  unfold Rdiv at 2. rewrite Rabs_mult, Rabs_inv.
  rewrite (Rabs_right (INR m * PI)) by (apply Rle_ge, Rmult_le_pos; lra).
  field. lra.
Qed.





(** ** The dipole branch and the radiation resistance *)

Lemma PI_bounds : 3.1415 < PI < 3.1416.
Proof.
  pose proof (PI_2_3_7_ineq 2) as H.
  unfold PI_2_3_7_tg, tg_alt, Ratan_seq in H. simpl in H. lra.
Qed.

(** The three branches of [calculate_radiation_resistance]. *)
Lemma calculate_radiation_resistance_short l lam g :
  lam <> 0 -> l / lam <= 0.1 ->
  calculate_radiation_resistance l lam g = (Ok (20 * (PI * (l / lam)) ^ 2), g).
Proof.
  intros Hlam Hx. unfold calculate_radiation_resistance.
  erewrite bind_ok by (now apply py_div_ok).
  destruct (Rle_dec (l / lam) 0.1); [reflexivity | contradiction].
Qed.

Lemma calculate_radiation_resistance_half_wave l lam g :
  lam <> 0 -> Rabs (l / lam - 0.5) < 0.01 ->
  calculate_radiation_resistance l lam g = (Ok 73.13, g).
Proof.
  intros Hlam Hx. unfold calculate_radiation_resistance.
  erewrite bind_ok by (now apply py_div_ok).
  destruct (Rle_dec (l / lam) 0.1) as [Hle | _].
  { apply Rabs_def2 in Hx. lra. }
  destruct (Rlt_dec (Rabs (l / lam - 0.5)) 0.01); [reflexivity | contradiction].
Qed.

Lemma calculate_radiation_resistance_general l lam g :
  lam <> 0 -> 0.1 < l / lam -> 0.01 <= Rabs (l / lam - 0.5) ->
  calculate_radiation_resistance l lam g = (Ok (80 * (PI * (l / lam)) ^ 2), g).
Proof.
  intros Hlam Hx Hy. unfold calculate_radiation_resistance.
  erewrite bind_ok by (now apply py_div_ok).
  destruct (Rle_dec (l / lam) 0.1) as [Hle | _]; [lra |].
  destruct (Rlt_dec (Rabs (l / lam - 0.5)) 0.01); [lra | reflexivity].
Qed.

(** The resistance of a dipole request in exact arithmetic, by the branch of
    [calculate_radiation_resistance]. *)
Lemma dipole_resistance_branches
    (data : gmap string json) (fj aj : json) (f d : R) :
  data !! "phenomenon" = Some (JStr "dipole") ->
  data !! "frequency" = Some fj -> as_real fj = Some f -> f <> 0 ->
  data !! "amplitude" = Some aj ->
  as_real (get data "dipole_length" (JNum 0.5)) = Some d ->
  let lambda := SPEED_OF_LIGHT module_globals / f in
  let l := d * lambda in
  exists cfg R_rad,
    generate_configuration data module_globals = (Ok cfg, module_globals) /\
    reported_in cfg "dipole" "length" = Some (VFloat (fin l)) /\
    reported_in cfg "dipole" "radiation_resistance" = Some (VFloat (fin R_rad)) /\
    calculate_radiation_resistance l lambda module_globals
      = (Ok R_rad, module_globals) /\
    (l / lambda <= 0.1 -> R_rad = 20 * (PI * l / lambda) ^ 2) /\
    (l = 0.5 * lambda -> R_rad = 73.13) /\
    (Rabs (l / lambda - 0.5) < 0.01 -> R_rad = 73.13) /\
    (0.1 < l / lambda -> 0.01 <= Rabs (l / lambda - 0.5) ->
       R_rad = 80 * (PI * l / lambda) ^ 2).
Proof.
  intros Hp Hfj Hf Hf0 Haj Hd lambda l.
  destruct (generate_configuration_header data fj f aj _ Hfj Hf Hf0 Haj Hp)
    as [cfg0 Hgc].
  rewrite dispatch_dipole in Hgc. rewrite Hgc. clear Hgc.
  pose proof c_nonzero as Hc.
  assert (Hlam : lambda <> 0) by (now apply Rdiv_neq_0).
  set (wave := {| frequency := fj; amplitude := aj |}).
  assert (Hrun : exists R_rad,
            calculate_radiation_resistance l lambda module_globals
              = (Ok R_rad, module_globals)).
  { unfold calculate_radiation_resistance.
    erewrite bind_ok by (now apply py_div_ok).
    destruct (Rle_dec (l / lambda) 0.1); [eexists; reflexivity |].
    destruct (Rlt_dec (Rabs (l / lambda - 0.5)) 0.01); eexists; reflexivity. }
  destruct Hrun as [R_rad Hrun].
  unfold dipole_parameters.
  erewrite bind_ok by (apply wavelength_ok; [exact Hf | exact Hf0]).
  erewrite bind_ok by (apply to_number_ok; exact Hd).
  cbv zeta.
  erewrite bind_ok by (apply wavelength_ok; [exact Hf | exact Hf0]).
  fold lambda. fold l.
  erewrite bind_ok by exact Hrun.
  eexists. exists R_rad. split; [reflexivity |].
  rewrite !reported_in_set_eq.
  split; [reflexivity |]. split; [reflexivity |]. split; [exact Hrun |].
  split; [| split; [| split]].
  - intros Hx.
    rewrite calculate_radiation_resistance_short in Hrun by assumption.
    assert (E : R_rad = 20 * (PI * (l / lambda)) ^ 2) by congruence.
    rewrite E. field. exact Hlam.
  - intros Hx.
    rewrite calculate_radiation_resistance_half_wave in Hrun;
      [congruence | exact Hlam |].
    rewrite Hx. replace (0.5 * lambda / lambda - 0.5) with 0 by (field; exact Hlam).
    rewrite Rabs_R0. lra.
  - intros Hx.
    rewrite calculate_radiation_resistance_half_wave in Hrun;
      [congruence | exact Hlam | exact Hx].
  - intros Hx Hy.
    rewrite calculate_radiation_resistance_general in Hrun by assumption.
    assert (E : R_rad = 80 * (PI * (l / lambda)) ^ 2) by congruence.
    rewrite E. field. exact Hlam.
Qed.

(** C5, amended.  For a dipole request with a frequency in range and a
    length that is 0 or in range, the reported [radiation_resistance] is
    [20 * (pi*l/lambda)^2] for a short dipole ([l/lambda <= 0.1]), [73.13]
    for a half-wave dipole ([l/lambda] within 0.01 of 0.5), and for every
    other length the general formula [80 * (pi*l/lambda)^2] of
    [calculate_radiation_resistance]; [l/lambda] is the [dipole_length] [d]
    of the request, and the three cases are taken with the relative margin
    1e-9 from the thresholds 0.1 and 0.01, within which the value is one of
    the three. *)
Theorem dipole_radiation_resistance
    (data : gmap string json) (fj aj : json) (f d : R) :
  data !! "phenomenon" = Some (JStr "dipole") ->
  data !! "frequency" = Some fj -> as_real fj = Some f -> in_range f ->
  data !! "amplitude" = Some aj ->
  as_real (get data "dipole_length" (JNum 0.5)) = Some d -> d = 0 \/ in_range d ->
  let lambda := SPEED_OF_LIGHT module_globals / f in
  let l := d * lambda in
  exists cfg R_rad,
    generate_configuration data module_globals = (Ok cfg, module_globals) /\
    reported_in cfg "dipole" "length" = Some (VFloat (fin l)) /\
    reported_in cfg "dipole" "radiation_resistance" = Some (VFloat (fin R_rad)) /\
    l / lambda = d /\
    (d <= 0.1 * (1 - 1e-9) -> R_rad = 20 * (PI * l / lambda) ^ 2) /\
    (Rabs (d - 0.5) <= 0.01 * (1 - 1e-9) -> R_rad = 73.13) /\
    (0.1 * (1 + 1e-9) <= d -> 0.01 * (1 + 1e-9) <= Rabs (d - 0.5) ->
       R_rad = 80 * (PI * l / lambda) ^ 2) /\
    (R_rad = 20 * (PI * l / lambda) ^ 2 \/ R_rad = 73.13 \/
     R_rad = 80 * (PI * l / lambda) ^ 2).
Proof.
  intros Hp Hfj Hf Hfr Haj Hd _ lambda l.
  pose proof (in_range_nonzero f Hfr) as Hf0.
  destruct (dipole_resistance_branches data fj aj f d Hp Hfj Hf Hf0 Haj Hd)
    as (cfg & R_rad & Hrun & Hlen & Hrad & _ & Hshort & _ & Hhalf & Hgen).
  fold lambda l in Hlen, Hshort, Hhalf, Hgen.
  pose proof c_nonzero as Hc.
  assert (Hlam : lambda <> 0) by (now apply Rdiv_neq_0).
  assert (Hq : l / lambda = d) by (unfold l; field; exact Hlam).
  rewrite Hq in Hshort, Hhalf, Hgen.
  exists cfg, R_rad. repeat (split; [assumption |]).
  split; [intros H; apply Hshort; lra |].
  split; [intros H; apply Hhalf; lra |].
  split; [intros H1 H2; apply Hgen; lra |].
  destruct (Rle_dec d 0.1) as [H1 | H1]; [left; now apply Hshort |].
  destruct (Rlt_dec (Rabs (d - 0.5)) 0.01) as [H2 | H2];
    [right; left; now apply Hhalf | right; right; apply Hgen; lra].
Qed.

Lemma resistance_048 : 180 < 80 * (PI * 0.48) ^ 2.
Proof. pose proof PI_bounds as H. nra. Qed.

(** C5 as stated fails for the other lengths.  A dipole of 0.48 wavelengths
    is reported with [80 * (0.48*pi)^2], more than 180 ohms, while the
    half-wave dipole, which is longer, is reported with 73.13 ohms: no
    resistance that does not decrease with the length up to half a
    wavelength, as that of the textbook, has both values. *)
Lemma dipole_radiation_resistance_counterexample :
  exists cfg cfg' r,
    generate_configuration dipole_048 module_globals = (Ok cfg, module_globals) /\
    reported_in cfg "dipole" "radiation_resistance" = Some (VFloat (fin r)) /\
    r = 80 * (PI * 0.48) ^ 2 /\ 180 < r /\
    generate_configuration dipole_example module_globals = (Ok cfg', module_globals) /\
    reported_in cfg' "dipole" "radiation_resistance" = Some (VFloat (fin 73.13)) /\
    forall textbook : R -> R,
      (forall x y, 0 <= x <= y -> y <= 0.5 -> textbook x <= textbook y) ->
      ~ (textbook 0.48 = r /\ textbook 0.5 = 73.13).
Proof.
  destruct (dipole_resistance_branches dipole_048 (JNum 1e9) (JNum 1) 1e9 0.48
              eq_refl eq_refl eq_refl ltac:(lra) eq_refl eq_refl)
    as (cfg & r & Hrun & _ & Hrad & _ & _ & _ & _ & Hgen).
  destruct (dipole_resistance_branches dipole_example (JNum 1e9) (JNum 1) 1e9 0.5
              eq_refl eq_refl eq_refl ltac:(lra) eq_refl eq_refl)
    as (cfg' & r' & Hrun' & _ & Hrad' & _ & _ & _ & Hhalf & _).
  pose proof c_nonzero as Hc.
  set (lambda := SPEED_OF_LIGHT module_globals / 1e9) in *.
  assert (Hlam : lambda <> 0) by (apply Rdiv_neq_0; [exact Hc | lra]).
  assert (Hq : 0.48 * lambda / lambda = 0.48) by (field; exact Hlam).
  assert (Hq' : 0.5 * lambda / lambda = 0.5) by (field; exact Hlam).
  rewrite Hq in Hgen. rewrite Hq' in Hhalf.
  assert (Er : r = 80 * (PI * 0.48) ^ 2).
  { rewrite Hgen.
    - field. exact Hlam.
    - lra.
    - rewrite Rabs_left; lra. }
  assert (Er' : r' = 73.13).
  { apply Hhalf. replace (0.5 - 0.5) with 0 by ring. rewrite Rabs_R0. lra. }
  pose proof resistance_048 as H180.
  exists cfg, cfg', r. split; [exact Hrun |]. split; [exact Hrad |].
  split; [exact Er |]. split; [lra |]. split; [exact Hrun' |].
  split; [rewrite Hrad', Er'; reflexivity |].
  intros textbook Hmono [H1 H2].
  pose proof (Hmono 0.48 0.5 ltac:(lra) ltac:(lra)) as H. lra.
Qed.

Lemma dipole_radiation_resistance_witness :
  exists cfg,
    generate_configuration dipole_example module_globals = (Ok cfg, module_globals) /\
    reported_in cfg "dipole" "radiation_resistance" = Some (VFloat (fin 73.13)).
Proof.
  destruct (dipole_radiation_resistance dipole_example (JNum 1e9) (JNum 1) 1e9 0.5)
    as (cfg & R_rad & Hrun & _ & Hrad & _ & _ & Hhalf & _);
    try reflexivity.
  - apply in_range_pos. lra.
  - right. apply in_range_pos. lra.
  - exists cfg. split; [exact Hrun |].
    rewrite Hrad, Hhalf; [reflexivity |].
    replace (0.5 - 0.5) with 0 by ring. rewrite Rabs_R0. lra.
Defined.




(** ** The handler *)

Lemma bind_Ok_inv {A B} (m : M A) (k : A -> M B) g b g' :
  bind m k g = (Ok b, g') ->
  exists a g1, m g = (Ok a, g1) /\ k a g1 = (Ok b, g').
Proof.
  unfold bind. destruct (m g) as [[a | e] g1]; [eauto | discriminate].
Qed.

Lemma getitem_Ok_inv data key v g g' :
  getitem data key g = (Ok v, g') -> data !! key = Some v /\ g' = g.
Proof.
  unfold getitem. destruct (data !! key); intros H; inversion H; auto.
Qed.

Lemma to_number_Ok_inv j x g g' :
  to_number j g = (Ok x, g') -> as_real j = Some x /\ g' = g.
Proof. destruct j as [| [|] | | | |]; intros H; inversion H; auto. Qed.

Lemma materials_lookup_key s medium :
  materials !! s = Some medium -> In s material_names.
Proof.
  unfold materials, material_names. intros H.
  repeat (apply lookup_insert_Some in H;
          destruct H as [[<- _] | [_ H]]; [simpl; auto 10 |]).
  apply lookup_singleton_Some in H. destruct H as [<- _]. simpl. auto 10.
Qed.

Lemma materials_getitem_total key g :
  (exists medium s, key = JStr s /\ materials !! s = Some medium /\
                    materials_getitem key g = (Ok medium, g)) \/
  (unhashable key = false /\
   (forall s, key = JStr s -> ~ In s material_names) /\
   materials_getitem key g = (Raise (KeyError key), g)) \/
  (unhashable key = true /\
   materials_getitem key g = (Raise TypeError, g)).
Proof.
  destruct key as [| b | r | s | l | o];
    try (right; left; split; [reflexivity |];
         split; [intros s Hs; discriminate | reflexivity]);
    try (right; right; split; reflexivity).
  destruct (materials !! s) as [medium |] eqn:E.
  - left. exists medium, s. repeat split; [exact E |].
    unfold materials_getitem. now rewrite E.
  - right. left. split; [reflexivity |]. split.
    + intros s' Hs' Hin. inversion Hs'; subst s'.
      unfold material_names in Hin. simpl in Hin.
      destruct Hin as [<- | [<- | [<- | [<- | []]]]]; discriminate.
    + unfold materials_getitem. now rewrite E.
Qed.

(** A reflection request that names no medium of the table under [medium1]
    or under [medium2]: the first lookup that fails raises, [KeyError] for a
    key that can be hashed and [TypeError] for one that cannot. *)
Lemma reflection_parameters_unknown_medium data cfg0 g :
  ~ known_medium data "medium1" \/ ~ known_medium data "medium2" ->
  (~ known_medium data "medium1" -> hashable_at data "medium1" ->
   exists key, reflection_parameters data cfg0 g = (Raise (KeyError key), g)) /\
  (forall j, data !! "medium1" = Some j -> unhashable j = true ->
   reflection_parameters data cfg0 g = (Raise TypeError, g)) /\
  (known_medium data "medium1" -> hashable_at data "medium2" ->
   exists key, reflection_parameters data cfg0 g = (Raise (KeyError key), g)) /\
  (known_medium data "medium1" ->
   forall j, data !! "medium2" = Some j -> unhashable j = true ->
   reflection_parameters data cfg0 g = (Raise TypeError, g)) /\
  ((exists key, reflection_parameters data cfg0 g = (Raise (KeyError key), g)) \/
   reflection_parameters data cfg0 g = (Raise TypeError, g)).
Proof.
  intros Hbad. unfold reflection_parameters.
  destruct (data !! "medium1") as [key1 |] eqn:E1.
  2:{ erewrite bind_raise by (apply getitem_missing; exact E1).
      split; [eauto |]. split; [intros j Hj; discriminate Hj |].
      split; [intros (s & Hs & _); congruence |].
      split; [intros (s & Hs & _); congruence |]. eauto. }
  erewrite bind_ok by (apply getitem_ok; exact E1).
  destruct (materials_getitem_total key1 g)
    as [(m1 & s1 & -> & Hm1 & Hget1) | [(Hh1 & Hunk1 & Hget1) | (Hh1 & Hget1)]].
  - erewrite bind_ok by exact Hget1.
    assert (Hk1 : known_medium data "medium1").
    { exists s1. split; [exact E1 |]. now apply materials_lookup_key in Hm1. }
    destruct (data !! "medium2") as [key2 |] eqn:E2.
    2:{ erewrite bind_raise by (apply getitem_missing; exact E2).
        split; [intros H; contradiction |].
        split; [intros j Hj Hu; inversion Hj; subst j; discriminate Hu |].
        split; [eauto |]. split; [intros _ j Hj; discriminate Hj |]. eauto. }
    erewrite bind_ok by (apply getitem_ok; exact E2).
    destruct (materials_getitem_total key2 g)
      as [(m2 & s2 & -> & Hm2 & Hget2) | [(Hh2 & Hunk2 & Hget2) | (Hh2 & Hget2)]].
    + exfalso. destruct Hbad as [Hbad | Hbad]; apply Hbad; [exact Hk1 |].
      exists s2. split; [exact E2 |]. now apply materials_lookup_key in Hm2.
    + erewrite bind_raise by exact Hget2.
      split; [intros H; contradiction |].
      split; [intros j Hj Hu; inversion Hj; subst j; discriminate Hu |].
      split; [eauto |].
      split; [intros _ j Hj Hu; inversion Hj; subst j; congruence |]. eauto.
    + erewrite bind_raise by exact Hget2.
      split; [intros H; contradiction |].
      split; [intros j Hj Hu; inversion Hj; subst j; discriminate Hu |].
      split; [intros _ Hh; specialize (Hh key2 E2); congruence |].
      split; [reflexivity |]. auto.
  - erewrite bind_raise by exact Hget1.
    split; [eauto |].
    split; [intros j Hj Hu; inversion Hj; subst j; congruence |].
    split; [eauto |].
    split; [| eauto].
    intros (s & Hs & Hin). rewrite E1 in Hs. inversion Hs; subst key1.
    exfalso. exact (Hunk1 s eq_refl Hin).
  - erewrite bind_raise by exact Hget1.
    split; [intros _ Hh; specialize (Hh key1 E1); congruence |].
    split; [reflexivity |].
    split; [intros (s & Hs & _); rewrite E1 in Hs; inversion Hs; subst key1;
            discriminate Hh1 |].
    split; [reflexivity |]. auto.
Qed.

(** After the part every phenomenon shares, a reflection request is in the
    hands of [reflection_parameters]. *)
Lemma generate_configuration_reflection data fj f aj :
  data !! "phenomenon" = Some (JStr "reflection") ->
  data !! "frequency" = Some fj -> as_real fj = Some f -> f <> 0 ->
  data !! "amplitude" = Some aj ->
  exists cfg0,
    generate_configuration data module_globals
      = reflection_parameters data cfg0 module_globals.
Proof.
  intros Hp Hfj Hf Hf0 Haj.
  destruct (generate_configuration_header data fj f aj _ Hfj Hf Hf0 Haj Hp)
    as [cfg0 Hgc].
  rewrite dispatch_reflection in Hgc. eauto.
Qed.

Lemma generate_configuration_unknown_medium data fj f aj :
  data !! "phenomenon" = Some (JStr "reflection") ->
  ~ known_medium data "medium1" \/ ~ known_medium data "medium2" ->
  data !! "frequency" = Some fj -> as_real fj = Some f -> f <> 0 ->
  data !! "amplitude" = Some aj ->
  (exists key,
     generate_configuration data module_globals
       = (Raise (KeyError key), module_globals)) \/
  generate_configuration data module_globals = (Raise TypeError, module_globals).
Proof.
  intros Hp Hbad Hfj Hf Hf0 Haj.
  destruct (generate_configuration_reflection data fj f aj Hp Hfj Hf Hf0 Haj)
    as [cfg0 ->].
  now apply reflection_parameters_unknown_medium.
Qed.

Section Handler.

Variable create_plane_wave_visualization : config -> M figure.
Variable create_standing_wave_visualization : config -> M figure.
Variable create_reflection_visualization : config -> gmap string json -> M figure.
Variable create_interference_visualization : config -> gmap string json -> M figure.
Variable create_doppler_visualization : config -> gmap string json -> M figure.
Variable create_polarization_visualization : config -> gmap string json -> M figure.
Variable create_dipole_visualization : config -> gmap string json -> M figure.
Variable create_waveguide_visualization : config -> gmap string json -> M figure.
Variable float_str : R -> string.
Variable container_str : json -> string.
Variable str_repr : string -> string.
Variable builtin_message : gmap string json -> exn -> string.
Variable stdout_encodes : string -> bool.
Variable format_exc : gmap string json -> exn -> string.

Let handler_try :=
  visualize_try create_plane_wave_visualization create_standing_wave_visualization
    create_reflection_visualization create_interference_visualization
    create_doppler_visualization create_polarization_visualization
    create_dipole_visualization create_waveguide_visualization
    float_str container_str.

Let handler :=
  visualize create_plane_wave_visualization create_standing_wave_visualization
    create_reflection_visualization create_interference_visualization
    create_doppler_visualization create_polarization_visualization
    create_dipole_visualization create_waveguide_visualization
    float_str container_str str_repr builtin_message stdout_encodes format_exc.

Let choose :=
  create_visualization create_plane_wave_visualization
    create_standing_wave_visualization create_reflection_visualization
    create_interference_visualization create_doppler_visualization
    create_polarization_visualization create_dipole_visualization
    create_waveguide_visualization float_str container_str.

Let message := str_exn float_str container_str str_repr builtin_message.

Let in_log :=
  logged float_str container_str str_repr builtin_message stdout_encodes format_exc.

Lemma le_zero_ok j x g :
  as_real j = Some x ->
  le_zero j g = (Ok (if Rle_dec x 0 then true else false), g).
Proof.
  intros H. unfold le_zero.
  erewrite bind_ok by (apply to_number_ok; exact H). reflexivity.
Qed.

Lemma le_zero_Ok_inv j bad g g' :
  le_zero j g = (Ok bad, g') ->
  exists x, as_real j = Some x /\ bad = (if Rle_dec x 0 then true else false) /\ g' = g.
Proof.
  unfold le_zero. intros H. apply bind_Ok_inv in H.
  destruct H as (x & g1 & Hx & Hret). apply to_number_Ok_inv in Hx.
  destruct Hx as [Hx ->]. inversion Hret. eauto.
Qed.

(** What the [except] clause does with an exception of the [try] block:
    the failure response when both lines of the log can be written, and
    otherwise the [UnicodeEncodeError] of [print], which leaves the
    handler. *)
Lemma visualize_except_logged data e g :
  in_log data e ->
  visualize_except float_str container_str str_repr builtin_message
    stdout_encodes format_exc data e g
  = (Ok (Failure (message data e)), g).
Proof.
  intros [H1 H2]. unfold visualize_except, print, bind.
  rewrite H1. unfold ret at 1. rewrite H2. reflexivity.
Qed.

Lemma visualize_except_not_logged data e g :
  ~ in_log data e ->
  visualize_except float_str container_str str_repr builtin_message
    stdout_encodes format_exc data e g
  = (Raise UnicodeEncodeError, g).
Proof.
  intros H. unfold visualize_except, print, bind.
  destruct (stdout_encodes ("Error in visualization: "
              ++ str_exn float_str container_str str_repr builtin_message data e))
    eqn:E1; [| reflexivity].
  unfold ret at 1.
  destruct (stdout_encodes (format_exc data e)) eqn:E2; [| reflexivity].
  exfalso. apply H. split; assumption.
Qed.

Lemma in_log_dec data e : in_log data e \/ ~ in_log data e.
Proof.
  unfold in_log, logged.
  destruct (stdout_encodes ("Error in visualization: " ++ _));
    [| right; intros [H _]; discriminate].
  destruct (stdout_encodes (format_exc data e));
    [left; split; reflexivity | right; intros [_ H]; discriminate].
Qed.

Lemma handler_raise data g e g' :
  handler_try data g = (Raise e, g') -> in_log data e ->
  handler data g = (Ok (Failure (message data e)), g').
Proof.
  intros H Hlog. unfold handler, visualize. fold handler_try. rewrite H.
  now apply visualize_except_logged.
Qed.








(** C8, amended.  A reflection request whose [medium1] or [medium2] is not
    one of ["Air"], ["Water"], ["Glass"], ["Diamond"] makes
    [generate_configuration] raise (for a request the handler has validated:
    a positive frequency and an amplitude): [KeyError] when the first value
    that names no medium is absent or can be hashed, [TypeError] when it is
    a list or a dict.  The handler never answers such a request with
    [success = True]. *)
Theorem unknown_medium_is_KeyError (data : gmap string json) :
  data !! "phenomenon" = Some (JStr "reflection") ->
  ~ known_medium data "medium1" \/ ~ known_medium data "medium2" ->
  (forall fj f aj,
     data !! "frequency" = Some fj -> as_real fj = Some f -> 0 < f <= 1e300 ->
     data !! "amplitude" = Some aj ->
     (~ known_medium data "medium1" -> hashable_at data "medium1" ->
      exists key,
        generate_configuration data module_globals
          = (Raise (KeyError key), module_globals)) /\
     (forall j, data !! "medium1" = Some j -> unhashable j = true ->
      generate_configuration data module_globals
        = (Raise TypeError, module_globals)) /\
     (known_medium data "medium1" -> hashable_at data "medium2" ->
      exists key,
        generate_configuration data module_globals
          = (Raise (KeyError key), module_globals)) /\
     (known_medium data "medium1" ->
      forall j, data !! "medium2" = Some j -> unhashable j = true ->
      generate_configuration data module_globals
        = (Raise TypeError, module_globals))) /\
  (forall r g', handler data module_globals = (Ok r, g') -> success r = false).
Proof.
  intros Hp Hbad. split.
  - intros fj f aj Hfj Hf [Hf0 _] Haj.
    destruct (generate_configuration_reflection data fj f aj Hp Hfj Hf
                ltac:(lra) Haj) as [cfg0 ->].
    destruct (reflection_parameters_unknown_medium data cfg0 module_globals Hbad)
      as (H1 & H2 & H3 & H4 & _).
    auto.
  - intros r g' H.
    unfold handler, visualize in H. fold handler_try in H.
    destruct (handler_try data module_globals) as [[r0 | e] g0] eqn:E.
    + exfalso. unfold handler_try, visualize_try in E.
      apply bind_Ok_inv in E. destruct E as (fj & g1 & Hget & E).
      apply getitem_Ok_inv in Hget. destruct Hget as [Hfj ->].
      apply bind_Ok_inv in E. destruct E as (bad & g1 & Hle & E).
      apply le_zero_Ok_inv in Hle. destruct Hle as (f & Hf & -> & ->).
      destruct (Rle_dec f 0) as [| Hf0]; [discriminate |].
      apply bind_Ok_inv in E. destruct E as (aj & g1 & Hget & E).
      apply getitem_Ok_inv in Hget. destruct Hget as [Haj ->].
      apply bind_Ok_inv in E. destruct E as (bad & g1 & Hle & E).
      apply le_zero_Ok_inv in Hle. destruct Hle as (a & Ha & -> & ->).
      destruct (Rle_dec a 0) as [| Ha0]; [discriminate |].
      apply bind_Ok_inv in E. destruct E as (cfg & g1 & Hgc & _).
      destruct (generate_configuration_unknown_medium data fj f aj Hp Hbad Hfj Hf
                  ltac:(lra) Haj) as [[key Hkey] | Hkey];
        rewrite Hkey in Hgc; discriminate.
    + destruct (in_log_dec data e) as [Hlog | Hlog].
      * rewrite (visualize_except_logged data e g0 Hlog) in H.
        inversion H. reflexivity.
      * rewrite (visualize_except_not_logged data e g0 Hlog) in H. discriminate.
Qed.

End Handler.


(** C8 as stated fails: a medium that is a list cannot be hashed, and the
    lookup in the table raises [TypeError], which is no [KeyError]. *)
Lemma unknown_medium_counterexample :
  list_medium_request !! "phenomenon" = Some (JStr "reflection") /\
  ~ known_medium list_medium_request "medium1" /\
  generate_configuration list_medium_request module_globals
    = (Raise TypeError, module_globals) /\
  ~ (exists key,
       generate_configuration list_medium_request module_globals
         = (Raise (KeyError key), module_globals)).
Proof.
  assert (Hbad : ~ known_medium list_medium_request "medium1").
  { intros (s & Hs & _). discriminate. }
  assert (H : generate_configuration list_medium_request module_globals
              = (Raise TypeError, module_globals)).
  { destruct (generate_configuration_reflection list_medium_request
                (JNum 1e9) 1e9 (JNum 1) eq_refl eq_refl eq_refl ltac:(lra) eq_refl)
      as [cfg0 ->].
    destruct (reflection_parameters_unknown_medium list_medium_request cfg0
                module_globals (or_introl Hbad)) as (_ & H2 & _).
    apply (H2 (JArr [JStr "Air"])); reflexivity. }
  split; [reflexivity |]. split; [exact Hbad |]. split; [exact H |].
  intros [key Hkey]. rewrite H in Hkey. discriminate.
Qed.

Lemma unknown_medium_is_KeyError_witness :
  (forall fj f aj,
     unknown_medium_request !! "frequency" = Some fj -> as_real fj = Some f ->
     0 < f <= 1e300 ->
     unknown_medium_request !! "amplitude" = Some aj ->
     (~ known_medium unknown_medium_request "medium1" ->
      hashable_at unknown_medium_request "medium1" ->
      exists key,
        generate_configuration unknown_medium_request module_globals
          = (Raise (KeyError key), module_globals)) /\
     (forall j, unknown_medium_request !! "medium1" = Some j -> unhashable j = true ->
      generate_configuration unknown_medium_request module_globals
        = (Raise TypeError, module_globals)) /\
     (known_medium unknown_medium_request "medium1" ->
      hashable_at unknown_medium_request "medium2" ->
      exists key,
        generate_configuration unknown_medium_request module_globals
          = (Raise (KeyError key), module_globals)) /\
     (known_medium unknown_medium_request "medium1" ->
      forall j, unknown_medium_request !! "medium2" = Some j -> unhashable j = true ->
      generate_configuration unknown_medium_request module_globals
        = (Raise TypeError, module_globals))) /\
  (forall r g',
     example_handler unknown_medium_request module_globals = (Ok r, g') ->
     success r = false).
Proof.
  apply (unknown_medium_is_KeyError _ _ _ _ _ _ _ _ _ _ _ _ _ _ unknown_medium_request).
  - reflexivity.
  - left. intros (s & Hs & Hin). inversion Hs. subst s.
    simpl in Hin. intuition discriminate.
Defined.


(** * Further properties *)

(** ** Inversion and frame lemmas *)

Ltac bind_inv H :=
  let a := fresh "a" in let g := fresh "g" in let Ha := fresh "Hstep" in
  apply bind_Ok_inv in H; destruct H as (a & g & Ha & H).

Lemma ret_Ok_inv {A} (a b : A) g g' : ret a g = (Ok b, g') -> a = b.
Proof. intros H. now inversion H. Qed.

Lemma py_div_Ok_inv x y r g g' :
  py_div x y g = (Ok r, g') -> y <> 0 /\ r = x / y /\ g' = g.
Proof.
  unfold py_div. destruct (Req_dec_T y 0); intros H; inversion H; auto.
Qed.

Lemma read_Ok_inv name r g g' : read name g = (Ok r, g') -> r = name g /\ g' = g.
Proof. intros H. inversion H. auto. Qed.

Lemma wavelength_Ok_inv w lam g g' :
  wavelength w g = (Ok lam, g') ->
  exists f, as_real (frequency w) = Some f /\ f <> 0 /\ g' = g.
Proof.
  intros H. unfold wavelength in H.
  bind_inv H. apply read_Ok_inv in Hstep. destruct Hstep as [-> ->].
  bind_inv H. apply to_number_Ok_inv in Hstep. destruct Hstep as [Hf ->].
  apply py_div_Ok_inv in H. destruct H as (Hf0 & _ & ->). eauto.
Qed.

Lemma wavelength_TypeError w g :
  as_real (frequency w) = None -> wavelength w g = (Raise TypeError, g).
Proof.
  intros Hf. unfold wavelength.
  erewrite bind_ok by reflexivity.
  erewrite bind_raise by (apply to_number_TypeError; exact Hf). reflexivity.
Qed.



Lemma Some_VFloat_fin a b : a = b -> Some (VFloat (fin a)) = Some (VFloat (fin b)).
Proof. now intros ->. Qed.

Lemma reported_in_of cfg section d key :
  reported cfg section = Some (VDict d) -> reported_in cfg section key = d !! key.
Proof. unfold reported, reported_in. now intros ->. Qed.

Ltac in_dict H :=
  repeat match goal with
         | |- context [reported_in ?c ?s ?k] => rewrite (reported_in_of c s _ k H)
         end.

Lemma generate_configuration_base data fj f aj p g :
  data !! "frequency" = Some fj -> as_real fj = Some f -> f <> 0 ->
  data !! "amplitude" = Some aj ->
  data !! "phenomenon" = Some p ->
  SPEED_OF_LIGHT g <> 0 ->
  generate_configuration data g
  = dispatch data p {| frequency := fj; amplitude := aj |} (base_config fj aj p f g) g.
Proof.
  intros Hfj Hf Hf0 Haj Hp Hc.
  unfold generate_configuration.
  do 3 (erewrite bind_ok by (apply getitem_ok; eassumption)).
  erewrite bind_ok by (apply wavelength_ok; eassumption).
  erewrite bind_ok by (apply period_ok; eassumption).
  erewrite bind_ok by (apply angular_frequency_ok; eassumption).
  erewrite bind_ok by (apply wave_number_ok; eassumption).
  do 4 (erewrite bind_ok by reflexivity).
  unfold dispatch, base_config. cbn [frequency amplitude].
  erewrite bind_ok by (apply getitem_ok; eassumption).
  destruct (eq_str p "reflection"); [reflexivity |].
  erewrite bind_ok by (apply getitem_ok; eassumption).
  destruct (eq_str p "doppler"); [reflexivity |].
  erewrite bind_ok by (apply getitem_ok; eassumption).
  destruct (eq_str p "dipole"); [reflexivity |].
  erewrite bind_ok by (apply getitem_ok; eassumption).
  destruct (eq_str p "waveguide"); reflexivity.
Qed.

Lemma keeps_base_refl cfg : keeps_base cfg cfg.
Proof. repeat split. Qed.

Lemma keeps_base_set key v cfg0 cfg :
  key <> "wave" -> key <> "constants" ->
  keeps_base cfg0 cfg -> keeps_base cfg0 (set_physics key v cfg).
Proof.
  intros H1 H2 (Hv & Hp & Hw & Hc). repeat split; try assumption.
  - now rewrite reported_set_ne.
  - now rewrite reported_set_ne.
Qed.

Ltac keeps_base_auto :=
  repeat (apply keeps_base_set; [discriminate | discriminate |]);
  apply keeps_base_refl.

Lemma reflection_parameters_keeps_base data cfg0 g cfg g' :
  reflection_parameters data cfg0 g = (Ok cfg, g') -> keeps_base cfg0 cfg.
Proof.
  intros H. unfold reflection_parameters in H.
  do 8 bind_inv H. cbv zeta in H.
  match type of H with (if ?b then _ else _) _ = _ => destruct b end;
    apply ret_Ok_inv in H; subst cfg; keeps_base_auto.
Qed.

Lemma doppler_parameters_keeps_base data w cfg0 g cfg g' :
  doppler_parameters data w cfg0 g = (Ok cfg, g') -> keeps_base cfg0 cfg.
Proof.
  intros H. unfold doppler_parameters in H. cbv zeta in H.
  do 3 bind_inv H.
  match type of H with (if ?b then _ else _) _ = _ => destruct b end.
  - do 2 bind_inv H. apply ret_Ok_inv in H. subst cfg. keeps_base_auto.
  - apply ret_Ok_inv in H. subst cfg. keeps_base_auto.
Qed.

Lemma dipole_parameters_keeps_base data w cfg0 g cfg g' :
  dipole_parameters data w cfg0 g = (Ok cfg, g') -> keeps_base cfg0 cfg.
Proof.
  intros H. unfold dipole_parameters in H.
  do 2 bind_inv H. cbv zeta in H. do 2 bind_inv H.
  apply ret_Ok_inv in H. subst cfg. keeps_base_auto.
Qed.

Lemma waveguide_parameters_keeps_base data w cfg0 g cfg g' :
  waveguide_parameters data w cfg0 g = (Ok cfg, g') -> keeps_base cfg0 cfg.
Proof.
  intros H. unfold waveguide_parameters in H. cbv zeta in H.
  do 12 bind_inv H.
  match type of H with (if ?b then _ else _) _ = _ => destruct b end.
  - do 3 bind_inv H. apply ret_Ok_inv in H. subst cfg. keeps_base_auto.
  - do 2 bind_inv H. apply ret_Ok_inv in H. subst cfg. keeps_base_auto.
Qed.

Lemma dispatch_keeps_base data p w cfg0 g cfg g' :
  dispatch data p w cfg0 g = (Ok cfg, g') -> keeps_base cfg0 cfg.
Proof.
  unfold dispatch.
  destruct (eq_str p "reflection"); [apply reflection_parameters_keeps_base |].
  destruct (eq_str p "doppler"); [apply doppler_parameters_keeps_base |].
  destruct (eq_str p "dipole"); [apply dipole_parameters_keeps_base |].
  destruct (eq_str p "waveguide"); [apply waveguide_parameters_keeps_base |].
  intros H. apply ret_Ok_inv in H. subst. apply keeps_base_refl.
Qed.

Lemma base_config_other fj aj p f g key :
  key <> "wave" -> key <> "constants" -> reported (base_config fj aj p f g) key = None.
Proof.
  intros H1 H2. unfold reported, base_config. cbn [physics].
  rewrite lookup_insert_ne by congruence.
  now rewrite lookup_singleton_ne by congruence.
Qed.

Lemma base_config_wave fj aj p f g key :
  reported_in (base_config fj aj p f g) "wave" key
  = ({[ "frequency" := VJson fj;
        "amplitude" := VJson aj;
        "wavelength" := VFloat (fin (SPEED_OF_LIGHT g / f));
        "period" := VFloat (fin (1.0 / f));
        "angular_frequency" := VFloat (fin (2 * PI * f));
        "wave_number" := VFloat (fin (2 * PI / (SPEED_OF_LIGHT g / f))) ]}
      : gmap string value) !! key.
Proof.
  unfold reported_in, base_config. cbn [physics].
  now rewrite lookup_insert_eq.
Qed.

Lemma base_config_constants fj aj p f g key :
  reported_in (base_config fj aj p f g) "constants" key
  = ({[ "speed_of_light" := VFloat (fin (SPEED_OF_LIGHT g));
        "vacuum_permittivity" := VFloat (fin (VACUUM_PERMITTIVITY g));
        "vacuum_permeability" := VFloat (fin (VACUUM_PERMEABILITY g));
        "vacuum_impedance" := VFloat (fin (VACUUM_IMPEDANCE g)) ]}
      : gmap string value) !! key.
Proof.
  unfold reported_in, base_config. cbn [physics].
  rewrite lookup_insert_ne by discriminate.
  now rewrite lookup_singleton_eq.
Qed.

Lemma keeps_base_reported_in cfg0 cfg key :
  keeps_base cfg0 cfg ->
  reported_in cfg "wave" key = reported_in cfg0 "wave" key /\
  reported_in cfg "constants" key = reported_in cfg0 "constants" key.
Proof.
  intros (_ & _ & Hw & Hc). unfold reported, reported_in in *.
  now rewrite Hw, Hc.
Qed.

(** What a successful evaluation of [generate_configuration] presupposes. *)
Lemma generate_configuration_Ok_inv data cfg g g' :
  generate_configuration data g = (Ok cfg, g') ->
  exists fj aj p f,
    data !! "frequency" = Some fj /\ as_real fj = Some f /\ f <> 0 /\
    data !! "amplitude" = Some aj /\ data !! "phenomenon" = Some p /\ g' = g.
Proof.
  intros H. pose proof (readonly_generate_configuration data g) as Hg.
  rewrite H in Hg. simpl in Hg. subst g'.
  unfold generate_configuration in H.
  bind_inv H. apply getitem_Ok_inv in Hstep. destruct Hstep as [Hfj ->].
  bind_inv H. apply getitem_Ok_inv in Hstep. destruct Hstep as [Haj ->].
  bind_inv H. apply getitem_Ok_inv in Hstep. destruct Hstep as [Hp ->].
  bind_inv H. apply wavelength_Ok_inv in Hstep.
  destruct Hstep as (f & Hf & Hf0 & ->). cbn [frequency] in Hf.
  eauto 12.
Qed.

Lemma generate_configuration_missing_phenomenon data g fj aj :
  data !! "frequency" = Some fj -> data !! "amplitude" = Some aj ->
  data !! "phenomenon" = None ->
  generate_configuration data g = (Raise (KeyError (JStr "phenomenon")), g).
Proof.
  intros Hfj Haj H. unfold generate_configuration.
  erewrite bind_ok by (apply getitem_ok; exact Hfj).
  erewrite bind_ok by (apply getitem_ok; exact Haj).
  now erewrite bind_raise by (apply getitem_missing; exact H).
Qed.

(** ** The shared part of every configuration *)

(** X1.  Every configuration [generate_configuration] returns comes from a
    request with a frequency that is a non-zero number, an amplitude and a
    phenomenon.  Whatever the branch of the phenomenon added, it has the
    version ["1.0"], the phenomenon of the request, a [wave] section with
    the frequency and amplitude of the request, and a [constants] section
    with the four module constants.  For a frequency in range the derived
    values of the [wave] section are numbers, and consistent:
    [wavelength * f = c], [period * f = 1], [angular_frequency = 2*pi*f],
    [wave_number * wavelength = 2*pi] and
    [angular_frequency = wave_number * c]. *)
Theorem configuration_wave_section
    (data : gmap string json) (cfg : config) (g' : globals) :
  generate_configuration data module_globals = (Ok cfg, g') ->
  exists fj aj p f,
    data !! "frequency" = Some fj /\ as_real fj = Some f /\ f <> 0 /\
    data !! "amplitude" = Some aj /\ data !! "phenomenon" = Some p /\
    version cfg = "1.0" /\ phenomenon cfg = p /\
    reported_in cfg "wave" "frequency" = Some (VJson fj) /\
    reported_in cfg "wave" "amplitude" = Some (VJson aj) /\
    reported_in cfg "constants" "speed_of_light" = Some (VFloat (fin 299792458.0)) /\
    reported_in cfg "constants" "vacuum_permittivity"
      = Some (VFloat (fin 8.854187817e-12)) /\
    reported_in cfg "constants" "vacuum_permeability"
      = Some (VFloat (fin 1.25663706212e-6)) /\
    reported_in cfg "constants" "vacuum_impedance" = Some (VFloat (fin 376.730313668)) /\
    (in_range f ->
     exists lam T omega k,
       reported_in cfg "wave" "wavelength" = Some (VFloat (fin lam)) /\
       reported_in cfg "wave" "period" = Some (VFloat (fin T)) /\
       reported_in cfg "wave" "angular_frequency" = Some (VFloat (fin omega)) /\
       reported_in cfg "wave" "wave_number" = Some (VFloat (fin k)) /\
       lam * f = 299792458 /\ T * f = 1 /\ omega = 2 * PI * f /\
       k * lam = 2 * PI /\ omega = k * 299792458).
Proof.
  intros H.
  destruct (generate_configuration_Ok_inv _ _ _ _ H)
    as (fj & aj & p & f & Hfj & Hf & Hf0 & Haj & Hp & ->).
  rewrite (generate_configuration_base data fj f aj p module_globals
             Hfj Hf Hf0 Haj Hp c_nonzero) in H.
  apply dispatch_keeps_base in H.
  pose proof H as (Hv & Hph & _ & _).
  pose proof (fun key => proj1 (keeps_base_reported_in _ _ key H)) as Hw.
  pose proof (fun key => proj2 (keeps_base_reported_in _ _ key H)) as Hc.
  pose proof PI_RGT_0 as Hpi.
  exists fj, aj, p, f.
  repeat (split; [assumption |]).
  rewrite !Hw, !Hc, !base_config_wave, !base_config_constants.
  repeat (split; [reflexivity |]).
  intros _.
  exists (299792458 / f), (1 / f), (2 * PI * f), (2 * PI / (299792458 / f)).
  rewrite ?Hw, ?base_config_wave.
  assert (E1 : SPEED_OF_LIGHT module_globals = 299792458) by (simpl; lra).
  assert (E2 : 1.0 = 1) by lra.
  rewrite E1, E2.
  repeat (split; [reflexivity |]).
  split; [field; assumption |]. split; [field; assumption |].
  split; [reflexivity |]. split; [field; lra |].
  field; lra.
Qed.

Lemma configuration_wave_section_witness :
  exists fj aj p f,
    plane_wave_example !! "frequency" = Some fj /\ as_real fj = Some f /\ f <> 0 /\
    plane_wave_example !! "amplitude" = Some aj /\
    plane_wave_example !! "phenomenon" = Some p /\
    version plane_wave_configuration = "1.0" /\
    phenomenon plane_wave_configuration = p /\
    reported_in plane_wave_configuration "wave" "frequency" = Some (VJson fj) /\
    reported_in plane_wave_configuration "wave" "amplitude" = Some (VJson aj) /\
    reported_in plane_wave_configuration "constants" "speed_of_light"
      = Some (VFloat (fin 299792458.0)) /\
    reported_in plane_wave_configuration "constants" "vacuum_permittivity"
      = Some (VFloat (fin 8.854187817e-12)) /\
    reported_in plane_wave_configuration "constants" "vacuum_permeability"
      = Some (VFloat (fin 1.25663706212e-6)) /\
    reported_in plane_wave_configuration "constants" "vacuum_impedance"
      = Some (VFloat (fin 376.730313668)) /\
    (in_range f ->
     exists lam T omega k,
       reported_in plane_wave_configuration "wave" "wavelength"
         = Some (VFloat (fin lam)) /\
       reported_in plane_wave_configuration "wave" "period" = Some (VFloat (fin T)) /\
       reported_in plane_wave_configuration "wave" "angular_frequency"
         = Some (VFloat (fin omega)) /\
       reported_in plane_wave_configuration "wave" "wave_number"
         = Some (VFloat (fin k)) /\
       lam * f = 299792458 /\ T * f = 1 /\ omega = 2 * PI * f /\
       k * lam = 2 * PI /\ omega = k * 299792458).
Proof.
  apply (configuration_wave_section plane_wave_example _ module_globals).
  rewrite (generate_configuration_base plane_wave_example (JNum 1e9) 1e9 (JNum 1)
             (JStr "plane_wave") module_globals);
    [reflexivity | reflexivity | reflexivity | lra | reflexivity | reflexivity
    | apply c_nonzero].
Defined.

(** X2.  The errors of the part of [generate_configuration] every
    phenomenon shares: a request without [frequency], without [amplitude]
    or without [phenomenon] raises [KeyError] with that key, looked up in
    this order; a frequency that is no number raises [TypeError]; and the
    frequency 0, which the handler rejects but the function does not,
    raises [ZeroDivisionError]. *)
Theorem generate_configuration_header_errors (data : gmap string json) (g : globals) :
  (data !! "frequency" = None ->
   generate_configuration data g = (Raise (KeyError (JStr "frequency")), g)) /\
  (forall fj, data !! "frequency" = Some fj -> data !! "amplitude" = None ->
   generate_configuration data g = (Raise (KeyError (JStr "amplitude")), g)) /\
  (forall fj aj, data !! "frequency" = Some fj -> data !! "amplitude" = Some aj ->
   data !! "phenomenon" = None ->
   generate_configuration data g = (Raise (KeyError (JStr "phenomenon")), g)) /\
  (forall fj aj p, data !! "frequency" = Some fj -> data !! "amplitude" = Some aj ->
   data !! "phenomenon" = Some p -> as_real fj = None ->
   generate_configuration data g = (Raise TypeError, g)) /\
  (forall fj aj p, data !! "frequency" = Some fj -> data !! "amplitude" = Some aj ->
   data !! "phenomenon" = Some p -> as_real fj = Some 0 ->
   generate_configuration data g = (Raise ZeroDivisionError, g)).
Proof.
  unfold generate_configuration. repeat split.
  - intros H. now erewrite bind_raise by (apply getitem_missing; exact H).
  - intros fj Hfj H.
    erewrite bind_ok by (apply getitem_ok; exact Hfj).
    now erewrite bind_raise by (apply getitem_missing; exact H).
  - intros fj aj Hfj Haj H.
    erewrite bind_ok by (apply getitem_ok; exact Hfj).
    erewrite bind_ok by (apply getitem_ok; exact Haj).
    now erewrite bind_raise by (apply getitem_missing; exact H).
  - intros fj aj p Hfj Haj Hp H.
    erewrite bind_ok by (apply getitem_ok; exact Hfj).
    erewrite bind_ok by (apply getitem_ok; exact Haj).
    erewrite bind_ok by (apply getitem_ok; exact Hp).
    now erewrite bind_raise by (apply wavelength_TypeError; exact H).
  - intros fj aj p Hfj Haj Hp H.
    erewrite bind_ok by (apply getitem_ok; exact Hfj).
    erewrite bind_ok by (apply getitem_ok; exact Haj).
    erewrite bind_ok by (apply getitem_ok; exact Hp).
    now erewrite bind_raise by (apply wavelength_zero; exact H).
Qed.

Lemma generate_configuration_header_errors_witness :
  generate_configuration zero_frequency_request module_globals
    = (Raise ZeroDivisionError, module_globals) /\
  generate_configuration no_frequency_request module_globals
    = (Raise (KeyError (JStr "frequency")), module_globals).
Proof.
  split.
  - apply (generate_configuration_header_errors zero_frequency_request module_globals)
      with (fj := JNum 0) (aj := JNum 1) (p := JStr "plane_wave"); reflexivity.
  - apply (generate_configuration_header_errors no_frequency_request module_globals).
    reflexivity.
Defined.



(** ** The properties of a medium *)

Lemma sqrt_div_mul a b : 0 < a -> 0 < b -> sqrt (b / a) * sqrt (a * b) = b.
Proof.
  intros Ha Hb. rewrite <- sqrt_mult_alt.
  - replace (b / a * (a * b)) with (b * b) by (field; lra).
    apply sqrt_square. lra.
  - apply Rlt_le, Rdiv_lt_0_compat; lra.
Qed.

(** X4.  The properties of a [MediumProperties] with positive relative
    permittivity and permeability are numbers, with
    [refractive_index ^ 2 = eps_r * mu_r],
    [wave_speed * refractive_index = c] and
    [impedance * refractive_index = Z0 * mu_r]. *)
Theorem medium_properties_relations (self : MediumProperties) (g : globals) :
  0 < relative_permittivity self -> 0 < relative_permeability self ->
  exists n v z,
    refractive_index self = fin n /\
    wave_speed self g = (Ok (fin v), g) /\
    impedance self g = (Ok (fin z), g) /\
    0 < n /\ n ^ 2 = relative_permittivity self * relative_permeability self /\
    v * n = SPEED_OF_LIGHT g /\
    z * n = VACUUM_IMPEDANCE g * relative_permeability self.
Proof.
  intros He Hm.
  set (eps := relative_permittivity self) in *.
  set (mu := relative_permeability self) in *.
  assert (Hprod : 0 < eps * mu) by nra.
  assert (Hn : 0 < sqrt (eps * mu)) by now apply sqrt_lt_R0.
  assert (Hq : 0 < mu / eps) by (apply Rdiv_lt_0_compat; lra).
  assert (Hsq : sqrt (eps * mu) ^ 2 = eps * mu).
  { simpl. rewrite Rmult_1_r. apply sqrt_sqrt. lra. }
  exists (sqrt (eps * mu)), (SPEED_OF_LIGHT g / sqrt (eps * mu)),
    (VACUUM_IMPEDANCE g * sqrt (mu / eps)).
  assert (Hri : refractive_index self = fin (sqrt (eps * mu))).
  { unfold refractive_index. fold eps mu. apply np_sqrt_fin. lra. }
  split; [exact Hri |].
  split.
  { unfold wave_speed. erewrite bind_ok by reflexivity.
    rewrite Hri, np_div_fin by lra. reflexivity. }
  split.
  { unfold impedance. erewrite bind_ok by reflexivity. fold eps mu.
    erewrite bind_ok by (apply py_div_ok; lra).
    rewrite np_sqrt_fin by lra. reflexivity. }
  split; [exact Hn |]. split; [exact Hsq |].
  split; [field; lra |].
  assert (Hz : sqrt (mu / eps) * sqrt (eps * mu) = mu) by now apply sqrt_div_mul.
  rewrite Rmult_assoc, Hz. reflexivity.
Qed.

Lemma medium_properties_relations_witness :
  exists n v z,
    refractive_index (MediumProperties_init "Glass" 2.25) = fin n /\
    wave_speed (MediumProperties_init "Glass" 2.25) module_globals
      = (Ok (fin v), module_globals) /\
    impedance (MediumProperties_init "Glass" 2.25) module_globals
      = (Ok (fin z), module_globals) /\
    0 < n /\
    n ^ 2 = relative_permittivity (MediumProperties_init "Glass" 2.25)
            * relative_permeability (MediumProperties_init "Glass" 2.25) /\
    v * n = SPEED_OF_LIGHT module_globals /\
    z * n = VACUUM_IMPEDANCE module_globals
            * relative_permeability (MediumProperties_init "Glass" 2.25).
Proof.
  apply (medium_properties_relations (MediumProperties_init "Glass" 2.25) module_globals);
    simpl; lra.
Defined.

(** X5.  A medium with relative permittivity 0 has the refractive index 0;
    its [wave_speed] is a numpy division by zero and returns a float that
    is no finite number, while its [impedance] is a Python division by zero
    and raises [ZeroDivisionError], as does the [media] entry built from
    it. *)
Theorem medium_without_permittivity (self : MediumProperties) (g : globals) :
  relative_permittivity self = 0 ->
  refractive_index self = fin 0 /\
  wave_speed self g = (Ok None, g) /\
  impedance self g = (Raise ZeroDivisionError, g) /\
  medium_entry self g = (Raise ZeroDivisionError, g).
Proof.
  intros He.
  assert (Hri : refractive_index self = fin 0).
  { unfold refractive_index. rewrite He, Rmult_0_l, np_sqrt_fin by lra.
    now rewrite sqrt_0. }
  assert (Hv : wave_speed self g = (Ok None, g)).
  { unfold wave_speed. erewrite bind_ok by reflexivity.
    now rewrite Hri, np_div_zero. }
  assert (Hz : impedance self g = (Raise ZeroDivisionError, g)).
  { unfold impedance. erewrite bind_ok by reflexivity.
    rewrite He. now erewrite bind_raise by apply py_div_zero. }
  repeat split; try assumption.
  unfold medium_entry. erewrite bind_ok by exact Hv.
  now erewrite bind_raise by exact Hz.
Qed.

Lemma medium_without_permittivity_witness :
  refractive_index (MediumProperties_init "Void" 0) = fin 0 /\
  wave_speed (MediumProperties_init "Void" 0) module_globals
    = (Ok None, module_globals) /\
  impedance (MediumProperties_init "Void" 0) module_globals
    = (Raise ZeroDivisionError, module_globals) /\
  medium_entry (MediumProperties_init "Void" 0) module_globals
    = (Raise ZeroDivisionError, module_globals).
Proof.
  apply (medium_without_permittivity (MediumProperties_init "Void" 0) module_globals).
  reflexivity.
Defined.

(** ** The report of the reflection branch *)


Section ReflectionEvaluated.

Variables (data : gmap string json) (cfg0 : config) (g : globals).
Variables (key1 key2 : string) (medium1 medium2 : MediumProperties).
Variables (aj : json) (angle : R).
Hypothesis Hkey1 : data !! "medium1" = Some (JStr key1).
Hypothesis Hkey2 : data !! "medium2" = Some (JStr key2).
Hypothesis Hmedium1 : materials !! key1 = Some medium1.
Hypothesis Hmedium2 : materials !! key2 = Some medium2.
Hypothesis Haj : data !! "angle" = Some aj.
Hypothesis Hangle : as_real aj = Some angle.

Let n1 := refractive_index medium1.
Let n2 := refractive_index medium2.
Let sin_theta_t := (n1 * fin (sin (radians angle)) / n2)%np.
Let theta_t := np_arcsin sin_theta_t.
Let ci := fin (cos (radians angle)).
Let ct := np_cos theta_t.

(** The configuration of the reflection branch, key by key. *)
Lemma reflection_parameters_report :
  exists cfg entry1 entry2,
    reflection_parameters data cfg0 g = (Ok cfg, g) /\
    medium_entry medium1 g = (Ok entry1, g) /\
    medium_entry medium2 g = (Ok entry2, g) /\
    keeps_base cfg0 cfg /\
    reported cfg "media" = Some (VList [entry1; entry2]) /\
    reported cfg "incident_angle_deg" = Some (VJson aj) /\
    reported cfg "incident_angle_rad" = Some (radians_value aj (radians angle)) /\
    (np_le sin_theta_t 1.0 = true ->
       reported cfg "total_internal_reflection" = Some (VBool false) /\
       reported cfg "transmitted_angle_rad" = Some (VFloat theta_t) /\
       reported cfg "transmitted_angle_deg" = Some (VFloat (np_degrees theta_t)) /\
       reported cfg "critical_angle_deg" = reported cfg0 "critical_angle_deg" /\
       reported cfg "fresnel_coefficients" = Some (VDict
         {[ "r_te" := VFloat ((n1 * ci - n2 * ct) / (n1 * ci + n2 * ct))%np;
            "t_te" := VFloat ((fin 2 * n1 * ci) / (n1 * ci + n2 * ct))%np;
            "r_tm" := VFloat ((n2 * ci - n1 * ct) / (n2 * ci + n1 * ct))%np;
            "t_tm" := VFloat ((fin 2 * n1 * ci) / (n2 * ci + n1 * ct))%np;
            "R_te" := VFloat (np_sq ((n1 * ci - n2 * ct) / (n1 * ci + n2 * ct))%np);
            "T_te" := VFloat ((n2 * ct) / (n1 * ci)
                              * np_sq ((fin 2 * n1 * ci) / (n1 * ci + n2 * ct)))%np ]})) /\
    (np_le sin_theta_t 1.0 = false ->
       reported cfg "total_internal_reflection" = Some (VBool true) /\
       reported cfg "critical_angle_deg"
         = Some (VFloat (np_degrees (np_arcsin (n2 / n1)%np))) /\
       reported cfg "transmitted_angle_rad" = reported cfg0 "transmitted_angle_rad" /\
       reported cfg "transmitted_angle_deg" = reported cfg0 "transmitted_angle_deg" /\
       reported cfg "fresnel_coefficients" = Some (VDict
         {[ "r_te" := VFloat (fin 1.0);
            "r_tm" := VFloat (fin 1.0);
            "R_te" := VFloat (fin 1.0);
            "R_tm" := VFloat (fin 1.0) ]})).
Proof.
  destruct (medium_entry_ok _ _ g Hmedium1) as [e1 He1].
  destruct (medium_entry_ok _ _ g Hmedium2) as [e2 He2].
  assert (Hrun : exists cfg, reflection_parameters data cfg0 g = (Ok cfg, g) /\
     cfg = (if np_le sin_theta_t 1.0
            then set_physics "fresnel_coefficients" (VDict
                   {[ "r_te" := VFloat ((n1 * ci - n2 * ct) / (n1 * ci + n2 * ct))%np;
                      "t_te" := VFloat ((fin 2 * n1 * ci) / (n1 * ci + n2 * ct))%np;
                      "r_tm" := VFloat ((n2 * ci - n1 * ct) / (n2 * ci + n1 * ct))%np;
                      "t_tm" := VFloat ((fin 2 * n1 * ci) / (n2 * ci + n1 * ct))%np;
                      "R_te" := VFloat (np_sq ((n1 * ci - n2 * ct) / (n1 * ci + n2 * ct))%np);
                      "T_te" := VFloat ((n2 * ct) / (n1 * ci)
                                 * np_sq ((fin 2 * n1 * ci) / (n1 * ci + n2 * ct)))%np ]})
                 (set_physics "total_internal_reflection" (VBool false)
                 (set_physics "transmitted_angle_rad" (VFloat theta_t)
                 (set_physics "transmitted_angle_deg" (VFloat (np_degrees theta_t))
                 (set_physics "incident_angle_rad" (radians_value aj (radians angle))
                 (set_physics "incident_angle_deg" (VJson aj)
                 (set_physics "media" (VList [e1; e2]) cfg0))))))
            else set_physics "fresnel_coefficients" (VDict
                   {[ "r_te" := VFloat (fin 1.0);
                      "r_tm" := VFloat (fin 1.0);
                      "R_te" := VFloat (fin 1.0);
                      "R_tm" := VFloat (fin 1.0) ]})
                 (set_physics "critical_angle_deg"
                    (VFloat (np_degrees (np_arcsin (n2 / n1)%np)))
                 (set_physics "total_internal_reflection" (VBool true)
                 (set_physics "incident_angle_rad" (radians_value aj (radians angle))
                 (set_physics "incident_angle_deg" (VJson aj)
                 (set_physics "media" (VList [e1; e2]) cfg0))))))).
  { unfold reflection_parameters.
    erewrite bind_ok by (apply getitem_ok; eassumption).
    erewrite bind_ok by (apply materials_getitem_ok; eassumption).
    erewrite bind_ok by (apply getitem_ok; eassumption).
    erewrite bind_ok by (apply materials_getitem_ok; eassumption).
    erewrite bind_ok by eassumption.
    erewrite bind_ok by eassumption.
    erewrite bind_ok by (apply getitem_ok; eassumption).
    erewrite bind_ok by (apply np_number_ok; eassumption).
    cbv zeta. fold n1 n2. fold sin_theta_t.
    destruct (np_le sin_theta_t 1.0); eexists; split; reflexivity. }
  destruct Hrun as (cfg & Hrun & Hcfg).
  exists cfg, e1, e2.
  split; [exact Hrun |]. split; [exact He1 |]. split; [exact He2 |].
  split; [exact (reflection_parameters_keeps_base _ _ _ _ _ Hrun) |].
  destruct (np_le sin_theta_t 1.0); subst cfg.
  - repeat (split; [repeat (rewrite reported_set_ne by discriminate);
                    try rewrite reported_set_eq; reflexivity |]).
    split; [| intros H; discriminate].
    intros _.
    repeat (split; [repeat (rewrite reported_set_ne by discriminate);
                    try rewrite reported_set_eq; reflexivity |]).
    rewrite reported_set_eq. reflexivity.
  - repeat (split; [repeat (rewrite reported_set_ne by discriminate);
                    try rewrite reported_set_eq; reflexivity |]).
    split; [intros H; discriminate |].
    intros _.
    repeat (split; [repeat (rewrite reported_set_ne by discriminate);
                    try rewrite reported_set_eq; reflexivity |]).
    rewrite reported_set_eq. reflexivity.
Qed.

End ReflectionEvaluated.

Section ReflectionRequestReport.

Variables (data : gmap string json) (fj aj anglej : json) (f angle : R).
Variables (key1 key2 : string) (medium1 medium2 : MediumProperties).
Hypothesis Hp : data !! "phenomenon" = Some (JStr "reflection").
Hypothesis Hfj : data !! "frequency" = Some fj.
Hypothesis Hf : as_real fj = Some f.
Hypothesis Hf0 : f <> 0.
Hypothesis Haj : data !! "amplitude" = Some aj.
Hypothesis Hk1 : data !! "medium1" = Some (JStr key1).
Hypothesis Hm1 : materials !! key1 = Some medium1.
Hypothesis Hk2 : data !! "medium2" = Some (JStr key2).
Hypothesis Hm2 : materials !! key2 = Some medium2.
Hypothesis Hanglej : data !! "angle" = Some anglej.
Hypothesis Hangle : as_real anglej = Some angle.

(** Everything [generate_configuration] reports for a well-formed reflection
    request, with the refractive indices as numbers. *)
Lemma reflection_report :
  exists cfg n1 n2 entry1 entry2,
    generate_configuration data module_globals = (Ok cfg, module_globals) /\
    refractive_index medium1 = fin n1 /\ 1 < n1 /\
    n1 = sqrt (relative_permittivity medium1 * relative_permeability medium1) /\
    refractive_index medium2 = fin n2 /\ 1 < n2 /\
    n2 = sqrt (relative_permittivity medium2 * relative_permeability medium2) /\
    medium_entry medium1 module_globals = (Ok entry1, module_globals) /\
    medium_entry medium2 module_globals = (Ok entry2, module_globals) /\
    keeps_base (base_config fj aj (JStr "reflection") f module_globals) cfg /\
    reported cfg "media" = Some (VList [entry1; entry2]) /\
    reported cfg "incident_angle_deg" = Some (VJson anglej) /\
    reported cfg "incident_angle_rad" = Some (radians_value anglej (radians angle)) /\
    let s := n1 * sin (radians angle) / n2 in
    let ci := cos (radians angle) in
    let ct := np_cos (np_arcsin (fin s)) in
    (s <= 1 ->
       reported cfg "total_internal_reflection" = Some (VBool false) /\
       reported cfg "transmitted_angle_rad" = Some (VFloat (np_arcsin (fin s))) /\
       reported cfg "transmitted_angle_deg"
         = Some (VFloat (np_degrees (np_arcsin (fin s)))) /\
       reported cfg "critical_angle_deg" = None /\
       reported cfg "fresnel_coefficients" = Some (VDict
         {[ "r_te" := VFloat ((fin n1 * fin ci - fin n2 * ct)
                              / (fin n1 * fin ci + fin n2 * ct))%np;
            "t_te" := VFloat ((fin 2 * fin n1 * fin ci)
                              / (fin n1 * fin ci + fin n2 * ct))%np;
            "r_tm" := VFloat ((fin n2 * fin ci - fin n1 * ct)
                              / (fin n2 * fin ci + fin n1 * ct))%np;
            "t_tm" := VFloat ((fin 2 * fin n1 * fin ci)
                              / (fin n2 * fin ci + fin n1 * ct))%np;
            "R_te" := VFloat (np_sq ((fin n1 * fin ci - fin n2 * ct)
                                     / (fin n1 * fin ci + fin n2 * ct))%np);
            "T_te" := VFloat ((fin n2 * ct) / (fin n1 * fin ci)
                              * np_sq ((fin 2 * fin n1 * fin ci)
                                       / (fin n1 * fin ci + fin n2 * ct)))%np ]})) /\
    (s > 1 ->
       reported cfg "total_internal_reflection" = Some (VBool true) /\
       reported cfg "critical_angle_deg"
         = Some (VFloat (fin (asin (n2 / n1) * 180 / PI))) /\
       reported cfg "transmitted_angle_rad" = None /\
       reported cfg "transmitted_angle_deg" = None /\
       reported cfg "fresnel_coefficients" = Some (VDict
         {[ "r_te" := VFloat (fin 1.0);
            "r_tm" := VFloat (fin 1.0);
            "R_te" := VFloat (fin 1.0);
            "R_tm" := VFloat (fin 1.0) ]})).
Proof.
  pose proof c_nonzero as Hc.
  pose proof (generate_configuration_base data fj f aj _ module_globals
                Hfj Hf Hf0 Haj Hp Hc) as Hgc.
  rewrite dispatch_reflection in Hgc.
  destruct (materials_refractive_index _ _ Hm1) as (n1 & Hn1 & Hn1pos & Hn1eq).
  destruct (materials_refractive_index _ _ Hm2) as (n2 & Hn2 & Hn2pos & Hn2eq).
  destruct (reflection_parameters_report data
              (base_config fj aj (JStr "reflection") f module_globals)
              module_globals _ _ _ _ _ _ Hk1 Hk2 Hm1 Hm2 Hanglej Hangle)
    as (cfg & e1 & e2 & Hrun & He1 & He2 & Hbase & Hmedia & Hdeg & Hrad & Hrefr & Htir).
  set (s := n1 * sin (radians angle) / n2).
  assert (Hsin : (refractive_index medium1 * fin (sin (radians angle))
                  / refractive_index medium2)%np = fin s).
  { rewrite Hn1, Hn2, np_mul_fin. apply np_div_fin. lra. }
  rewrite Hsin, Hn1, Hn2 in Hrefr. rewrite Hsin, Hn1, Hn2 in Htir.
  exists cfg, n1, n2, e1, e2. rewrite Hgc.
  repeat (split; [assumption |]). cbv zeta. fold s. split.
  - intros Hle. destruct (Hrefr (proj2 (np_le_fin s 1.0) ltac:(lra)))
      as (H1 & H2 & H3 & H4 & H5).
    repeat (split; [assumption |]). exact H5.
  - intros Hgt. destruct (Htir (proj2 (np_le_fin_false s 1.0) ltac:(lra)))
      as (H1 & H2 & H3 & H4 & H5).
    split; [exact H1 |]. split.
    { rewrite H2, np_div_fin by lra. rewrite np_arcsin_fin; [reflexivity |].
      assert (Hq : 0 < n2 / n1) by (apply Rdiv_lt_0_compat; lra).
      split; [lra |].
      assert (n2 < n1 * sin (radians angle)).
      { unfold s in Hgt.
        apply (Rmult_lt_compat_r n2) in Hgt; [| lra].
        replace (n1 * sin (radians angle) / n2 * n2)
          with (n1 * sin (radians angle)) in Hgt by (field; lra).
        lra. }
      pose proof (SIN_bound (radians angle)) as [_ Hs1].
      apply Rlt_le. apply (Rmult_lt_reg_r n1); [lra |].
      replace (n2 / n1 * n1) with n2 by (field; lra). nra. }
    split; [rewrite H3; now apply base_config_other |].
    split; [rewrite H4; now apply base_config_other |].
    exact H5.
Qed.

End ReflectionRequestReport.











(** ** The Fresnel coefficients *)





(** X12.  When both media of a reflection request are the same and the angle
    is a number between 0 and 80 degrees, nothing is reflected: the transmitted angle
    is the angle of incidence, [r_te = r_tm = 0], [t_te = t_tm = 1],
    [R_te = 0] and [T_te = 1].  (Towards 90 degrees the arcsine of the sine
    loses the angle to rounding, and the statement with it.) *)
Theorem same_medium_transmits_unchanged
    (data : gmap string json) (fj aj : json) (f angle : R)
    (key : string) (medium : MediumProperties) :
  data !! "phenomenon" = Some (JStr "reflection") ->
  data !! "frequency" = Some fj -> as_real fj = Some f -> in_range f ->
  data !! "amplitude" = Some aj ->
  data !! "medium1" = Some (JStr key) ->
  data !! "medium2" = Some (JStr key) -> materials !! key = Some medium ->
  data !! "angle" = Some (JNum angle) ->
  0 <= angle <= 80 ->
  exists cfg,
    generate_configuration data module_globals = (Ok cfg, module_globals) /\
    reported cfg "total_internal_reflection" = Some (VBool false) /\
    reported cfg "transmitted_angle_deg" = Some (VFloat (fin angle)) /\
    reported_in cfg "fresnel_coefficients" "r_te" = Some (VFloat (fin 0)) /\
    reported_in cfg "fresnel_coefficients" "r_tm" = Some (VFloat (fin 0)) /\
    reported_in cfg "fresnel_coefficients" "t_te" = Some (VFloat (fin 1)) /\
    reported_in cfg "fresnel_coefficients" "t_tm" = Some (VFloat (fin 1)) /\
    reported_in cfg "fresnel_coefficients" "R_te" = Some (VFloat (fin 0)) /\
    reported_in cfg "fresnel_coefficients" "T_te" = Some (VFloat (fin 1)).
Proof.
  intros Hp Hfj Hf Hfr Haj Hk1 Hk2 Hm Hangle Hrange.
  pose proof (in_range_nonzero f Hfr) as Hf0.
  destruct (reflection_report data fj aj (JNum angle) f angle key key medium medium
              Hp Hfj Hf Hf0 Haj Hk1 Hm Hk2 Hm Hangle eq_refl)
    as (cfg & n1 & n2 & e1 & e2 & Hrun & Hn1 & Hn1pos & _ & Hn2 & _ & _
        & _ & _ & _ & _ & _ & _ & Hrefr & _).
  assert (n2 = n1) as -> by (rewrite Hn1 in Hn2; now inversion Hn2).
  cbv zeta in Hrefr.
  replace (n1 * sin (radians angle) / n1) with (sin (radians angle)) in Hrefr
    by (field; lra).
  pose proof (SIN_bound (radians angle)) as [Hlo Hhi].
  destruct (Hrefr Hhi) as (Hflag & _ & Hdeg & _ & Hfres).
  pose proof (radians_bounds angle ltac:(lra)) as [Hr0 Hr1].
  pose proof PI_RGT_0 as Hpi.
  pose proof (cos_radians_pos angle ltac:(lra)) as Hci.
  rewrite np_arcsin_fin in Hdeg, Hfres by lra.
  rewrite asin_sin in Hdeg, Hfres by lra.
  rewrite np_degrees_fin in Hdeg. rewrite np_cos_fin in Hfres.
  set (ci := cos (radians angle)) in *.
  rewrite !np_mul_fin, !np_add_fin, !np_sub_fin in Hfres.
  rewrite !np_div_fin in Hfres by nra.
  rewrite !np_sq_fin, np_mul_fin in Hfres.
  exists cfg. split; [exact Hrun |]. split; [exact Hflag |].
  split.
  { rewrite Hdeg. apply Some_VFloat_fin. unfold radians. field. lra. }
  in_dict Hfres.
  repeat split; (etransitivity; [reflexivity |]); apply Some_VFloat_fin; field; nra.
Qed.

Lemma same_medium_transmits_unchanged_witness :
  exists cfg,
    generate_configuration reflection_same_medium module_globals
      = (Ok cfg, module_globals) /\
    reported cfg "total_internal_reflection" = Some (VBool false) /\
    reported cfg "transmitted_angle_deg" = Some (VFloat (fin 45)) /\
    reported_in cfg "fresnel_coefficients" "r_te" = Some (VFloat (fin 0)) /\
    reported_in cfg "fresnel_coefficients" "r_tm" = Some (VFloat (fin 0)) /\
    reported_in cfg "fresnel_coefficients" "t_te" = Some (VFloat (fin 1)) /\
    reported_in cfg "fresnel_coefficients" "t_tm" = Some (VFloat (fin 1)) /\
    reported_in cfg "fresnel_coefficients" "R_te" = Some (VFloat (fin 0)) /\
    reported_in cfg "fresnel_coefficients" "T_te" = Some (VFloat (fin 1)).
Proof.
  apply (same_medium_transmits_unchanged reflection_same_medium
           (JNum 1e9) (JNum 1) 1e9 45 "Water"
           (MediumProperties_init "Water" 80.0));
    try reflexivity; try lra.
  apply in_range_pos. lra.
Defined.





(** ** The Doppler shift *)

(** Everything [generate_configuration] reports for a Doppler request below
    the speed of light. *)
Lemma doppler_configuration (data : gmap string json) (fj aj : json) (f v : R) :
  data !! "phenomenon" = Some (JStr "doppler") ->
  data !! "frequency" = Some fj -> as_real fj = Some f -> f <> 0 ->
  data !! "amplitude" = Some aj ->
  as_real (get data "velocity" (JNum 0)) = Some v ->
  Rabs v < SPEED_OF_LIGHT module_globals ->
  exists cfg,
    generate_configuration data module_globals = (Ok cfg, module_globals) /\
    let beta := v / SPEED_OF_LIGHT module_globals in
    let fo := f * sqrt ((1 + beta) / (1 - beta)) in
    -1 < beta < 1 /\
    reported cfg "doppler" = Some (VDict
      {[ "source_velocity" := VJson (get data "velocity" (JNum 0));
         "beta" := VFloat (fin beta);
         "observed_frequency" := VFloat (fin fo);
         "frequency_shift" := VFloat (fin (fo - f));
         "relative_shift" := VFloat (fin ((fo - f) / f)) ]}).
Proof.
  intros Hp Hfj Hf Hf0 Haj Hv Hlt.
  rewrite (generate_configuration_base data fj f aj _ module_globals
             Hfj Hf Hf0 Haj Hp c_nonzero).
  rewrite dispatch_doppler.
  pose proof c_positive as Hc.
  set (c := SPEED_OF_LIGHT module_globals) in *.
  pose proof (Rabs_div_lt_1 v c Hc Hlt) as Hbeta.
  pose proof (doppler_ratio_pos _ Hbeta) as Hratio.
  pose proof (Rabs_def2 _ _ Hbeta) as [Hb1 Hb2].
  unfold doppler_parameters. cbv zeta.
  erewrite bind_ok by (apply to_number_ok; eassumption).
  erewrite bind_ok by reflexivity.
  erewrite bind_ok by (apply py_div_ok; fold c; lra).
  fold c.
  destruct (Rlt_dec (Rabs (v / c)) 1.0) as [_ | Hn]; [| exfalso; lra].
  destruct (Rgt_dec v 0) as [Hpos | Hneg].
  - erewrite bind_ok by (apply py_div_ok; lra).
    erewrite bind_ok by (apply to_number_ok; exact Hf).
    eexists. split; [reflexivity |]. split; [lra |].
    rewrite reported_set_eq. cbn [frequency].
    rewrite np_sqrt_fin by lra.
    rewrite np_mul_fin, np_sub_fin, np_div_fin by exact Hf0. reflexivity.
  - assert (Habs : Rabs (v / c) = - (v / c)).
    { apply Rabs_left1. apply Rnot_gt_le in Hneg.
      pose proof (Rinv_0_lt_compat c Hc) as Hi. unfold Rdiv. nra. }
    erewrite bind_ok by (apply py_div_ok; rewrite Habs; lra).
    erewrite bind_ok by (apply to_number_ok; exact Hf).
    eexists. split; [reflexivity |]. split; [lra |].
    rewrite reported_set_eq. cbn [frequency].
    rewrite Habs.
    replace ((1 - - (v / c)) / (1 + - (v / c))) with ((1 + v / c) / (1 - v / c))
      by (unfold Rminus; rewrite Ropp_involutive; reflexivity).
    rewrite np_sqrt_fin by lra.
    rewrite np_mul_fin, np_sub_fin, np_div_fin by exact Hf0. reflexivity.
Qed.

Lemma doppler_factor beta :
  -1 < beta < 1 ->
  0 < sqrt ((1 + beta) / (1 - beta)) /\
  (0 < beta -> 1 < sqrt ((1 + beta) / (1 - beta))) /\
  (beta < 0 -> sqrt ((1 + beta) / (1 - beta)) < 1) /\
  (beta = 0 -> sqrt ((1 + beta) / (1 - beta)) = 1) /\
  sqrt ((1 + beta) / (1 - beta)) * sqrt ((1 + - beta) / (1 - - beta)) = 1.
Proof.
  intros [H1 H2].
  assert (Hr : 0 < (1 + beta) / (1 - beta)) by (apply Rdiv_lt_0_compat; lra).
  split; [now apply sqrt_lt_R0 |].
  split; [| split; [| split]].
  - intros Hb.
    assert (H : sqrt 1 < sqrt ((1 + beta) / (1 - beta))).
    { apply sqrt_lt_1; [lra | lra |].
      apply (Rmult_lt_reg_r (1 - beta)); [lra |].
      replace ((1 + beta) / (1 - beta) * (1 - beta)) with (1 + beta) by (field; lra).
      lra. }
    now rewrite sqrt_1 in H.
  - intros Hb.
    assert (H : sqrt ((1 + beta) / (1 - beta)) < sqrt 1).
    { apply sqrt_lt_1; [lra | lra |].
      apply (Rmult_lt_reg_r (1 - beta)); [lra |].
      replace ((1 + beta) / (1 - beta) * (1 - beta)) with (1 + beta) by (field; lra).
      lra. }
    now rewrite sqrt_1 in H.
  - intros ->. replace ((1 + 0) / (1 - 0)) with 1 by field. apply sqrt_1.
  - rewrite <- sqrt_mult_alt by lra.
    replace ((1 + beta) / (1 - beta) * ((1 + - beta) / (1 - - beta))) with 1
      by (field; lra).
    apply sqrt_1.
Qed.

Lemma Rdiv_sign v c : 0 < c ->
  (0 < v -> 0 < v / c) /\ (v < 0 -> v / c < 0) /\ (v = 0 -> v / c = 0).
Proof.
  intros Hc. pose proof (Rinv_0_lt_compat c Hc) as Hi. unfold Rdiv.
  repeat split; intros H; nra.
Qed.

(** X15.  For a Doppler request with [|v| < c] and a positive frequency in
    range the configuration reports no error; the observed frequency is
    positive, [frequency_shift] is the observed frequency minus the emitted
    one and [relative_shift] is that shift over the emitted frequency.  The
    shift is not negative for [v >= 0] (approaching), not positive for
    [v <= 0] (receding) and zero for [v = 0], the default; from a speed of
    1 m/s it is positive when approaching and negative when receding. *)
Theorem doppler_shift_direction
    (data : gmap string json) (fj aj : json) (f v : R) :
  data !! "phenomenon" = Some (JStr "doppler") ->
  data !! "frequency" = Some fj -> as_real fj = Some f -> 0 < f -> in_range f ->
  data !! "amplitude" = Some aj ->
  as_real (get data "velocity" (JNum 0)) = Some v ->
  Rabs v < SPEED_OF_LIGHT module_globals ->
  exists cfg fo shift rel,
    generate_configuration data module_globals = (Ok cfg, module_globals) /\
    reported_in cfg "doppler" "observed_frequency" = Some (VFloat (fin fo)) /\
    reported_in cfg "doppler" "frequency_shift" = Some (VFloat (fin shift)) /\
    reported_in cfg "doppler" "relative_shift" = Some (VFloat (fin rel)) /\
    reported_in cfg "doppler" "error" = None /\
    0 < fo /\ shift = fo - f /\ rel * f = shift /\
    (0 <= v -> 0 <= shift) /\ (v <= 0 -> shift <= 0) /\ (v = 0 -> shift = 0) /\
    (1 <= v -> 0 < shift) /\ (v <= -1 -> shift < 0).
Proof.
  intros Hp Hfj Hf Hf0 _ Haj Hv Hlt.
  destruct (doppler_configuration data fj aj f v Hp Hfj Hf ltac:(lra) Haj Hv Hlt)
    as (cfg & Hrun & Hbeta & Hd).
  cbv zeta in Hd.
  destruct (Rdiv_sign v _ c_positive) as (Hs1 & Hs2 & Hs3).
  set (beta := v / SPEED_OF_LIGHT module_globals) in *.
  destruct (doppler_factor beta Hbeta) as (Hpos & Hup & Hdown & Hzero & _).
  set (q := sqrt ((1 + beta) / (1 - beta))) in *.
  assert (Happroaching : 0 < v -> 0 < f * q - f).
  { intros H. specialize (Hup (Hs1 H)). nra. }
  assert (Hreceding : v < 0 -> f * q - f < 0).
  { intros H. specialize (Hdown (Hs2 H)). nra. }
  assert (Hrest : v = 0 -> f * q - f = 0).
  { intros H. rewrite (Hzero (Hs3 H)). ring. }
  exists cfg, (f * q), (f * q - f), ((f * q - f) / f).
  split; [exact Hrun |].
  in_dict Hd.
  do 4 (split; [reflexivity |]).
  split; [nra |]. split; [reflexivity |]. split; [field; lra |].
  repeat split; intros H.
  - destruct (Rtotal_order v 0) as [Hv0 | [Hv0 | Hv0]];
      [lra | rewrite (Hrest Hv0); lra | apply Rlt_le, Happroaching; lra].
  - destruct (Rtotal_order v 0) as [Hv0 | [Hv0 | Hv0]];
      [apply Rlt_le, Hreceding; lra | rewrite (Hrest Hv0); lra | lra].
  - exact (Hrest H).
  - apply Happroaching. lra.
  - apply Hreceding. lra.
Qed.

Lemma doppler_shift_direction_witness :
  exists cfg fo shift rel,
    generate_configuration doppler_approaching module_globals
      = (Ok cfg, module_globals) /\
    reported_in cfg "doppler" "observed_frequency" = Some (VFloat (fin fo)) /\
    reported_in cfg "doppler" "frequency_shift" = Some (VFloat (fin shift)) /\
    reported_in cfg "doppler" "relative_shift" = Some (VFloat (fin rel)) /\
    reported_in cfg "doppler" "error" = None /\
    0 < fo /\ shift = fo - 1e9 /\ rel * 1e9 = shift /\
    (0 <= 30000 -> 0 <= shift) /\ (30000 <= 0 -> shift <= 0) /\
    (30000 = 0 -> shift = 0) /\
    (1 <= 30000 -> 0 < shift) /\ (30000 <= -1 -> shift < 0).
Proof.
  apply (doppler_shift_direction doppler_approaching (JNum 1e9) (JNum 1) 1e9 30000);
    try reflexivity.
  - lra.
  - apply in_range_pos. lra.
  - rewrite Rabs_right by lra. simpl. lra.
Defined.





(** ** The dipole *)

Lemma calculate_radiation_resistance_value l lam g :
  lam <> 0 ->
  exists r,
    calculate_radiation_resistance l lam g = (Ok r, g) /\ 0 <= r /\
    (l / lam <= 0.1 -> r = 20 * (PI * (l / lam)) ^ 2) /\
    (Rabs (l / lam - 0.5) < 0.01 -> r = 73.13) /\
    (0.1 < l / lam -> 0.01 <= Rabs (l / lam - 0.5) -> r = 80 * (PI * (l / lam)) ^ 2).
Proof.
  intros Hlam. unfold calculate_radiation_resistance.
  erewrite bind_ok by (now apply py_div_ok).
  pose proof (pow2_ge_0 (PI * (l / lam))) as Hsq.
  destruct (Rle_dec (l / lam) 0.1) as [Hle | Hgt].
  - eexists. split; [reflexivity |]. split; [lra |].
    split; [reflexivity |]. split; [| lra].
    intros H. apply Rabs_def2 in H. lra.
  - destruct (Rlt_dec (Rabs (l / lam - 0.5)) 0.01) as [Hw | Hw].
    + eexists. split; [reflexivity |]. split; [lra |].
      split; [lra |]. split; [reflexivity | lra].
    + eexists. split; [reflexivity |]. split; [lra |].
      split; [lra |]. split; [lra | reflexivity].
Qed.



(** Everything [generate_configuration] reports for a dipole request. *)
Lemma dipole_configuration (data : gmap string json) (fj aj : json) (f d : R) :
  data !! "phenomenon" = Some (JStr "dipole") ->
  data !! "frequency" = Some fj -> as_real fj = Some f -> f <> 0 ->
  data !! "amplitude" = Some aj ->
  as_real (get data "dipole_length" (JNum 0.5)) = Some d ->
  exists cfg r,
    generate_configuration data module_globals = (Ok cfg, module_globals) /\
    reported cfg "dipole" = Some (VDict
      {[ "length" := VFloat (fin (d * (SPEED_OF_LIGHT module_globals / f)));
         "length_wavelengths" := VJson (get data "dipole_length" (JNum 0.5));
         "current_distribution" := VJson (get data "current_dist" (JStr "uniform"));
         "radiation_resistance" := VFloat (fin r) ]}) /\
    0 <= r /\
    (d <= 0.1 -> r = 20 * (PI * d) ^ 2) /\
    (Rabs (d - 0.5) < 0.01 -> r = 73.13) /\
    (0.1 < d -> 0.01 <= Rabs (d - 0.5) -> r = 80 * (PI * d) ^ 2).
Proof.
  intros Hp Hfj Hf Hf0 Haj Hd.
  rewrite (generate_configuration_base data fj f aj _ module_globals
             Hfj Hf Hf0 Haj Hp c_nonzero).
  rewrite dispatch_dipole.
  pose proof c_nonzero as Hc.
  set (lambda := SPEED_OF_LIGHT module_globals / f).
  assert (Hlam : lambda <> 0) by (now apply Rdiv_neq_0).
  destruct (calculate_radiation_resistance_value (d * lambda) lambda module_globals Hlam)
    as (r & Hr & Hpos & Hshort & Hhalf & Hgen).
  replace (d * lambda / lambda) with d in * by (field; exact Hlam).
  unfold dipole_parameters.
  erewrite bind_ok by (apply wavelength_ok; [exact Hf | exact Hf0]).
  erewrite bind_ok by (apply to_number_ok; exact Hd).
  cbv zeta.
  erewrite bind_ok by (apply wavelength_ok; [exact Hf | exact Hf0]).
  fold lambda.
  erewrite bind_ok by exact Hr.
  eexists. exists r. split; [reflexivity |].
  split; [apply reported_set_eq |]. auto.
Qed.

(** X19.  The radiation resistance a dipole request reports depends on
    [dipole_length] (the length in wavelengths) only, not on the frequency
    or the amplitude: two requests with frequencies in range and the same
    [dipole_length] (0 or in range), clear of the thresholds of
    [calculate_radiation_resistance], report the same
    resistance, while the physical lengths scale with the wavelength
    ([l * f = l' * f']).  It is [20 * (pi*d)^2] for [d <= 0.1], [73.13] in
    the whole window [|d - 0.5| < 0.01], and [80 * (pi*d)^2] otherwise. *)
Theorem dipole_resistance_independent_of_frequency
    (data data' : gmap string json) (fj aj fj' aj' : json) (f f' d : R) :
  data !! "phenomenon" = Some (JStr "dipole") ->
  data !! "frequency" = Some fj -> as_real fj = Some f -> in_range f ->
  data !! "amplitude" = Some aj ->
  as_real (get data "dipole_length" (JNum 0.5)) = Some d ->
  data' !! "phenomenon" = Some (JStr "dipole") ->
  data' !! "frequency" = Some fj' -> as_real fj' = Some f' -> in_range f' ->
  data' !! "amplitude" = Some aj' ->
  as_real (get data' "dipole_length" (JNum 0.5)) = Some d ->
  d = 0 \/ in_range d -> clear_of_thresholds d ->
  exists cfg cfg' r l l',
    generate_configuration data module_globals = (Ok cfg, module_globals) /\
    generate_configuration data' module_globals = (Ok cfg', module_globals) /\
    reported_in cfg "dipole" "radiation_resistance" = Some (VFloat (fin r)) /\
    reported_in cfg' "dipole" "radiation_resistance" = Some (VFloat (fin r)) /\
    reported_in cfg "dipole" "length" = Some (VFloat (fin l)) /\
    reported_in cfg' "dipole" "length" = Some (VFloat (fin l')) /\
    l * f = l' * f' /\ 0 <= r /\
    (d <= 0.1 -> r = 20 * (PI * d) ^ 2) /\
    (Rabs (d - 0.5) < 0.01 -> r = 73.13) /\
    (0.1 < d -> 0.01 <= Rabs (d - 0.5) -> r = 80 * (PI * d) ^ 2).
Proof.
  intros Hp Hfj Hf Hfr Haj Hd Hp' Hfj' Hf' Hfr' Haj' Hd' _ _.
  pose proof (in_range_nonzero f Hfr) as Hf0.
  pose proof (in_range_nonzero f' Hfr') as Hf0'.
  destruct (dipole_configuration data fj aj f d Hp Hfj Hf Hf0 Haj Hd)
    as (cfg & r & Hrun & Hdict & Hpos & Hshort & Hhalf & Hgen).
  destruct (dipole_configuration data' fj' aj' f' d Hp' Hfj' Hf' Hf0' Haj' Hd')
    as (cfg' & r' & Hrun' & Hdict' & _ & Hshort' & Hhalf' & Hgen').
  assert (r' = r) as ->.
  { destruct (Rle_dec d 0.1) as [Hle | Hgt].
    - rewrite (Hshort Hle), (Hshort' Hle). reflexivity.
    - destruct (Rlt_dec (Rabs (d - 0.5)) 0.01) as [Hw | Hw].
      + rewrite (Hhalf Hw), (Hhalf' Hw). reflexivity.
      + rewrite Hgen, Hgen' by lra. reflexivity. }
  exists cfg, cfg', r. do 2 eexists.
  split; [exact Hrun |]. split; [exact Hrun' |].
  rewrite !(reported_in_of cfg _ _ _ Hdict), !(reported_in_of cfg' _ _ _ Hdict').
  do 4 (split; [reflexivity |]).
  split; [field; auto |]. auto.
Qed.

Lemma dipole_resistance_independent_of_frequency_witness :
  exists cfg cfg' r l l',
    generate_configuration dipole_short_1GHz module_globals = (Ok cfg, module_globals) /\
    generate_configuration dipole_short_2GHz module_globals = (Ok cfg', module_globals) /\
    reported_in cfg "dipole" "radiation_resistance" = Some (VFloat (fin r)) /\
    reported_in cfg' "dipole" "radiation_resistance" = Some (VFloat (fin r)) /\
    reported_in cfg "dipole" "length" = Some (VFloat (fin l)) /\
    reported_in cfg' "dipole" "length" = Some (VFloat (fin l')) /\
    l * 1e9 = l' * 2e9 /\ 0 <= r /\
    (0.05 <= 0.1 -> r = 20 * (PI * 0.05) ^ 2) /\
    (Rabs (0.05 - 0.5) < 0.01 -> r = 73.13) /\
    (0.1 < 0.05 -> 0.01 <= Rabs (0.05 - 0.5) -> r = 80 * (PI * 0.05) ^ 2).
Proof.
  apply (dipole_resistance_independent_of_frequency dipole_short_1GHz dipole_short_2GHz
           (JNum 1e9) (JNum 3) (JNum 2e9) (JNum 1) 1e9 2e9 0.05);
    try reflexivity; try (apply in_range_pos; lra).
  - right. apply in_range_pos. lra.
  - left. lra.
Defined.

(** ** The waveguide *)

Section WaveguideReport.

Variables (data : gmap string json) (fj aj : json) (f a b : R).
Variables (mt : string) (m n : nat).
Hypothesis Hp : data !! "phenomenon" = Some (JStr "waveguide").
Hypothesis Hfj : data !! "frequency" = Some fj.
Hypothesis Hf : as_real fj = Some f.
Hypothesis Hf0 : 0 < f.
Hypothesis Haj : data !! "amplitude" = Some aj.
Hypothesis Hmode : get data "mode" (JStr "TE10") = JStr (mode_name mt m n).
Hypothesis Hmt : mt = "TE" \/ mt = "TM".
Hypothesis Hm : (m < 10)%nat.
Hypothesis Hn : (n < 10)%nat.
Hypothesis Ha : as_real (get data "guide_width" (JNum 0.023)) = Some a.
Hypothesis Ha0 : a <> 0.
Hypothesis Hb : as_real (get data "guide_height" (JNum 0.010)) = Some b.
Hypothesis Hb0 : b <> 0.

(** Everything [generate_configuration] reports for a propagating mode. *)
Lemma waveguide_propagating_report :
  let c := SPEED_OF_LIGHT module_globals in
  let Z0 := VACUUM_IMPEDANCE module_globals in
  let omega := 2 * PI * f in
  let fc := c / (2 * PI) * sqrt ((INR m * PI / a) ^ 2 + (INR n * PI / b) ^ 2) in
  let beta_g := sqrt ((omega / c) ^ 2 - (2 * PI * fc / c) ^ 2) in
  f > fc ->
  exists cfg,
    generate_configuration data module_globals = (Ok cfg, module_globals) /\
    0 <= fc /\ 0 < beta_g /\ 0 < 1 - (fc / f) ^ 2 /\
    beta_g ^ 2 = (omega / c) ^ 2 - (2 * PI * fc / c) ^ 2 /\
    reported cfg "waveguide" = Some (VDict
      {[ "type" := VJson (get data "guide_type" (JStr "rectangular"));
         "width" := VJson (get data "guide_width" (JNum 0.023));
         "height" := VJson (get data "guide_height" (JNum 0.010));
         "mode" := VJson (JStr (mode_name mt m n));
         "mode_type" := VStr mt;
         "mode_indices" := VDict {[ "m" := VInt (Z.of_nat m); "n" := VInt (Z.of_nat n) ]};
         "cutoff_frequency" := VFloat (fin fc);
         "cutoff_wavelength" := VFloat (fin c / fin fc)%np;
         "propagation_constant" := VFloat (fin beta_g);
         "guide_wavelength" := VFloat (fin (2 * PI / beta_g));
         "phase_velocity" := VFloat (fin (omega / beta_g));
         "group_velocity" := VFloat (fin (c ^ 2 / (omega / beta_g)));
         "impedance" := VFloat (fin (if String.eqb mt "TE"
                                     then Z0 / sqrt (1 - (fc / f) ^ 2)
                                     else Z0 * sqrt (1 - (fc / f) ^ 2))) ]}).
Proof.
  intros c Z0 omega fc beta_g Hgt.
  rewrite (generate_configuration_base data fj f aj _ module_globals
             Hfj Hf ltac:(lra) Haj Hp c_nonzero).
  rewrite dispatch_waveguide.
  pose proof c_positive as Hc. fold c in Hc.
  pose proof PI_RGT_0 as Hpi.
  assert (H2pi : 2 * PI <> 0) by lra.
  assert (Hc0 : SPEED_OF_LIGHT module_globals <> 0) by (fold c; lra).
  destruct (cutoff_frequency_fin c (INR m * PI / a) (INR n * PI / b) Hc)
    as [Hfc_np Hfc0].
  fold fc in Hfc_np, Hfc0.
  pose proof (dispersion_above c f fc Hc Hfc0 ltac:(lra)) as Hdisp.
  assert (Hbeta : 0 < beta_g) by (apply sqrt_lt_R0, Hdisp).
  pose proof (cutoff_ratio f fc Hfc0 ltac:(lra)) as Hq.
  assert (Hvp : omega / beta_g <> 0).
  { apply Rdiv_neq_0; [| lra]. apply Rgt_not_eq. unfold omega. nra. }
  assert (Hgt' : np_gt f (fin fc) = true) by now apply np_gt_fin.
  unfold waveguide_parameters. cbv zeta. rewrite Hmode.
  erewrite bind_ok by (now apply slice2_mode_name).
  erewrite bind_ok by (now apply char_at_mode_name_2).
  erewrite bind_ok by (now apply int_of_char_digit).
  erewrite bind_ok by (now apply char_at_mode_name_3).
  erewrite bind_ok by (now apply int_of_char_digit).
  erewrite bind_ok by reflexivity.
  erewrite bind_ok by (now apply py_div_ok).
  erewrite bind_ok by (apply to_number_ok; exact Ha).
  erewrite bind_ok by (now apply py_div_ok).
  erewrite bind_ok by (apply to_number_ok; exact Hb).
  erewrite bind_ok by (now apply py_div_ok).
  erewrite bind_ok by (apply to_number_ok; exact Hf).
  rewrite <- !INR_IZR_INZ. fold c. rewrite Hfc_np, Hgt'.
  erewrite bind_ok by (apply angular_frequency_ok; exact Hf).
  erewrite bind_ok by (now apply py_div_ok).
  erewrite bind_ok by (apply calculate_waveguide_impedance_above; lra).
  fold Z0. cbn [frequency]. fold omega.
  rewrite np_mul_fin, (np_div_fin _ c) by lra.
  rewrite np_sq_fin, np_sub_fin, np_sqrt_fin by (fold omega in Hdisp; lra).
  fold beta_g.
  rewrite !(np_div_fin _ beta_g) by lra.
  rewrite (np_div_fin _ (omega / beta_g)) by exact Hvp.
  eexists. split; [reflexivity |].
  split; [exact Hfc0 |]. split; [exact Hbeta |]. split; [exact Hq |].
  split.
  { unfold beta_g. apply pow2_sqrt. fold omega in Hdisp. lra. }
  apply reported_set_eq.
Qed.

End WaveguideReport.

Lemma Rmult_cross_lt x y p q :
  0 < x -> 0 < p -> p < q -> x * p = y * q -> y < x.
Proof. intros Hx Hp Hpq Heq. nra. Qed.

Lemma zero_index_cutoff c a b :
  0 < c -> c / (2 * PI) * sqrt ((INR 0 * PI / a) ^ 2 + (INR 0 * PI / b) ^ 2) = 0.
Proof.
  intros Hc. simpl INR. unfold Rdiv. rewrite !Rmult_0_l.
  replace (0 ^ 2 + 0 ^ 2) with 0 by ring. rewrite sqrt_0. ring.
Qed.

(** The relations between the values of a propagating mode, in exact
    arithmetic. *)
Lemma waveguide_velocity_relations
    (data : gmap string json) (fj aj : json) (f a b : R)
    (mt : string) (m n : nat) :
  data !! "phenomenon" = Some (JStr "waveguide") ->
  data !! "frequency" = Some fj -> as_real fj = Some f -> 0 < f ->
  data !! "amplitude" = Some aj ->
  get data "mode" (JStr "TE10") = JStr (mode_name mt m n) ->
  mt = "TE" \/ mt = "TM" -> (m < 10)%nat -> (n < 10)%nat ->
  as_real (get data "guide_width" (JNum 0.023)) = Some a -> a <> 0 ->
  as_real (get data "guide_height" (JNum 0.010)) = Some b -> b <> 0 ->
  let c := SPEED_OF_LIGHT module_globals in
  let fc := c / (2 * PI) * sqrt ((INR m * PI / a) ^ 2 + (INR n * PI / b) ^ 2) in
  f > fc ->
  exists cfg beta lambda_g vp vg,
    generate_configuration data module_globals = (Ok cfg, module_globals) /\
    reported_in cfg "waveguide" "propagation_constant" = Some (VFloat (fin beta)) /\
    reported_in cfg "waveguide" "guide_wavelength" = Some (VFloat (fin lambda_g)) /\
    reported_in cfg "waveguide" "phase_velocity" = Some (VFloat (fin vp)) /\
    reported_in cfg "waveguide" "group_velocity" = Some (VFloat (fin vg)) /\
    0 < beta /\
    beta ^ 2 + (2 * PI * fc / c) ^ 2 = (2 * PI * f / c) ^ 2 /\
    lambda_g * beta = 2 * PI /\
    vp * beta = 2 * PI * f /\
    vp * vg = c ^ 2 /\
    (0 < fc -> vg < c < vp /\ c / f < lambda_g) /\
    (fc = 0 -> vg = c /\ vp = c /\ lambda_g = c / f).
Proof.
  intros Hp Hfj Hf Hf0 Haj Hmode Hmt Hm Hn Ha Ha0 Hb Hb0 c fc Hgt.
  destruct (waveguide_propagating_report data fj aj f a b mt m n
              Hp Hfj Hf Hf0 Haj Hmode Hmt Hm Hn Ha Ha0 Hb Hb0 Hgt)
    as (cfg & Hrun & Hfc0 & Hbeta & _ & Hsq & Hd).
  fold c in Hfc0, Hbeta, Hsq, Hd. fold fc in Hfc0, Hbeta, Hsq, Hd.
  pose proof c_positive as Hc. fold c in Hc.
  pose proof PI_RGT_0 as Hpi.
  set (beta := sqrt ((2 * PI * f / c) ^ 2 - (2 * PI * fc / c) ^ 2)) in *.
  set (k := 2 * PI * f / c) in *.
  set (kc := 2 * PI * fc / c) in *.
  assert (Hk : 0 < k) by (apply Rdiv_lt_0_compat; nra).
  assert (Hkc : 0 <= kc).
  { unfold kc. apply Rmult_le_pos; [nra |]. apply Rlt_le, Rinv_0_lt_compat, Hc. }
  assert (Hck : c * k = 2 * PI * f) by (unfold k; field; lra).
  assert (Hom : 0 < 2 * PI * f) by nra.
  exists cfg, beta, (2 * PI / beta), (2 * PI * f / beta),
    (c ^ 2 / (2 * PI * f / beta)).
  split; [exact Hrun |].
  in_dict Hd.
  do 4 (split; [reflexivity |]).
  split; [exact Hbeta |]. split; [lra |].
  split; [field; lra |]. split; [field; lra |].
  split; [field; lra |].
  assert (Hvp : 2 * PI * f / beta * beta = c * k) by (rewrite Hck; field; lra).
  assert (Hvppos : 0 < 2 * PI * f / beta) by (apply Rdiv_lt_0_compat; lra).
  assert (Hvg : c ^ 2 / (2 * PI * f / beta) * (2 * PI * f / beta) = c * c)
    by (field; lra).
  assert (Hlg : 2 * PI / beta * beta = c / f * k) by (unfold k; field; lra).
  split.
  - intros Hfcpos.
    assert (Hkcpos : 0 < kc).
    { unfold kc. apply Rdiv_lt_0_compat; nra. }
    assert (Hlt : beta < k) by nra.
    assert (Hcvp : c < 2 * PI * f / beta).
    { apply (Rmult_cross_lt _ _ beta k); [assumption | assumption | assumption |].
      exact Hvp. }
    split; [split; [| exact Hcvp] |].
    + apply (Rmult_cross_lt c _ c (2 * PI * f / beta)); try lra.
    + apply (Rmult_cross_lt _ _ beta k); try assumption.
      apply Rdiv_lt_0_compat; lra.
  - intros Hfc.
    assert (Hkc0 : kc = 0) by (unfold kc; rewrite Hfc; field; lra).
    assert (Heq : beta = k) by nra.
    rewrite Heq. unfold k. repeat split; field; lra.
Qed.

(** X20.  For a waveguide mode that propagates, with frequency and
    dimensions in range and the frequency above the cutoff by the relative
    margin 1e-3, the reported values satisfy the dispersion relation
    [beta^2 + (2*pi*fc/c)^2 = (omega/c)^2], with
    [guide_wavelength * beta = 2*pi], [phase_velocity * beta = omega] and
    [phase_velocity * group_velocity = c^2].  With a cutoff frequency of at
    least a thousandth of the frequency the group velocity is below [c],
    the phase velocity above [c] and the guide wavelength longer than the
    free-space wavelength; with the cutoff frequency 0 they are [c], [c]
    and [c / f]. *)
Theorem waveguide_velocities
    (data : gmap string json) (fj aj : json) (f a b : R)
    (mt : string) (m n : nat) :
  data !! "phenomenon" = Some (JStr "waveguide") ->
  data !! "frequency" = Some fj -> as_real fj = Some f -> 0 < f -> in_range f ->
  data !! "amplitude" = Some aj ->
  get data "mode" (JStr "TE10") = JStr (mode_name mt m n) ->
  mt = "TE" \/ mt = "TM" -> (m < 10)%nat -> (n < 10)%nat ->
  as_real (get data "guide_width" (JNum 0.023)) = Some a -> in_range a ->
  as_real (get data "guide_height" (JNum 0.010)) = Some b -> in_range b ->
  let c := SPEED_OF_LIGHT module_globals in
  let fc := c / (2 * PI) * sqrt ((INR m * PI / a) ^ 2 + (INR n * PI / b) ^ 2) in
  (1 + 1e-3) * fc <= f ->
  exists cfg beta lambda_g vp vg,
    generate_configuration data module_globals = (Ok cfg, module_globals) /\
    reported_in cfg "waveguide" "propagation_constant" = Some (VFloat (fin beta)) /\
    reported_in cfg "waveguide" "guide_wavelength" = Some (VFloat (fin lambda_g)) /\
    reported_in cfg "waveguide" "phase_velocity" = Some (VFloat (fin vp)) /\
    reported_in cfg "waveguide" "group_velocity" = Some (VFloat (fin vg)) /\
    0 < beta /\
    beta ^ 2 + (2 * PI * fc / c) ^ 2 = (2 * PI * f / c) ^ 2 /\
    lambda_g * beta = 2 * PI /\
    vp * beta = 2 * PI * f /\
    vp * vg = c ^ 2 /\
    (f <= 1000 * fc -> vg < c < vp /\ c / f < lambda_g) /\
    (fc = 0 -> vg = c /\ vp = c /\ lambda_g = c / f).
Proof.
  intros Hp Hfj Hf Hf0 _ Haj Hmode Hmt Hm Hn Ha Har Hb Hbr c fc Hmargin.
  pose proof c_positive as Hc. fold c in Hc.
  destruct (cutoff_frequency_fin c (INR m * PI / a) (INR n * PI / b) Hc)
    as [_ Hfc0].
  fold fc in Hfc0.
  destruct (waveguide_velocity_relations data fj aj f a b mt m n
              Hp Hfj Hf Hf0 Haj Hmode Hmt Hm Hn Ha (in_range_nonzero a Har)
              Hb (in_range_nonzero b Hbr))
    as (cfg & beta & lambda_g & vp & vg & Hrun & H1 & H2 & H3 & H4 & H5 & H6
        & H7 & H8 & H9 & Hstrict & Hzero).
  { fold c fc. nra. }
  fold c fc in H6, Hstrict, Hzero.
  exists cfg, beta, lambda_g, vp, vg.
  repeat (split; [assumption |]).
  split; [| exact Hzero].
  intros Hfc. apply Hstrict. lra.
Qed.

Lemma waveguide_velocities_witness :
  let c := SPEED_OF_LIGHT module_globals in
  let fc := c / (2 * PI) * sqrt ((INR 1 * PI / 0.023) ^ 2 + (INR 0 * PI / 0.010) ^ 2) in
  exists cfg beta lambda_g vp vg,
    generate_configuration waveguide_example module_globals = (Ok cfg, module_globals) /\
    reported_in cfg "waveguide" "propagation_constant" = Some (VFloat (fin beta)) /\
    reported_in cfg "waveguide" "guide_wavelength" = Some (VFloat (fin lambda_g)) /\
    reported_in cfg "waveguide" "phase_velocity" = Some (VFloat (fin vp)) /\
    reported_in cfg "waveguide" "group_velocity" = Some (VFloat (fin vg)) /\
    0 < beta /\
    beta ^ 2 + (2 * PI * fc / c) ^ 2 = (2 * PI * 1e10 / c) ^ 2 /\
    lambda_g * beta = 2 * PI /\
    vp * beta = 2 * PI * 1e10 /\
    vp * vg = c ^ 2 /\
    (1e10 <= 1000 * fc -> vg < c < vp /\ c / 1e10 < lambda_g) /\
    (fc = 0 -> vg = c /\ vp = c /\ lambda_g = c / 1e10).
Proof.
  apply (waveguide_velocities waveguide_example (JNum 1e10) (JNum 1) 1e10 0.023 0.010
           "TE" 1 0); try reflexivity; try lra; try lia;
    try (apply in_range_pos; lra).
  - left. reflexivity.
  - rewrite single_index_cutoff by (try apply c_positive; lra).
    rewrite Rabs_pos_eq by lra. simpl. lra.
Defined.

(** X21.  [calculate_waveguide_impedance] above cutoff: the TE and the TM
    impedance have the product [Z0^2], with [0 < Z_TM <= Z0 <= Z_TE];
    every [mode_type] other than ["TE"] gets the TM formula; and at or
    below cutoff the function returns a float that is no finite number,
    whatever the mode type. *)
Theorem waveguide_impedance_properties
    (mode_type : string) (f fc : R) (g : globals) :
  0 <= fc < f -> 0 < VACUUM_IMPEDANCE g ->
  exists z_te z_tm,
    calculate_waveguide_impedance "TE" f (fin fc) g = (Ok (fin z_te), g) /\
    calculate_waveguide_impedance "TM" f (fin fc) g = (Ok (fin z_tm), g) /\
    z_te * z_tm = VACUUM_IMPEDANCE g ^ 2 /\
    0 < z_tm <= VACUUM_IMPEDANCE g /\ VACUUM_IMPEDANCE g <= z_te /\
    (mode_type <> "TE" ->
     calculate_waveguide_impedance mode_type f (fin fc) g = (Ok (fin z_tm), g)) /\
    (forall f', f' <= fc ->
     calculate_waveguide_impedance mode_type f' (fin fc) g = (Ok None, g)).
Proof.
  intros [Hfc Hf] HZ.
  pose proof (cutoff_ratio f fc Hfc Hf) as Hq.
  set (Z0 := VACUUM_IMPEDANCE g) in *.
  set (q := 1 - (fc / f) ^ 2) in *.
  assert (Hq1 : q <= 1) by (unfold q; pose proof (pow2_ge_0 (fc / f)); lra).
  assert (Hs : 0 < sqrt q) by now apply sqrt_lt_R0.
  assert (Hs1 : sqrt q <= 1).
  { rewrite <- sqrt_1. apply sqrt_le_1; lra. }
  exists (Z0 / sqrt q), (Z0 * sqrt q).
  split; [apply (calculate_waveguide_impedance_above "TE"); lra |].
  split; [apply (calculate_waveguide_impedance_above "TM"); lra |].
  split; [field; lra |].
  split; [nra |].
  split.
  { apply (Rmult_le_reg_r (sqrt q)); [lra |].
    replace (Z0 / sqrt q * sqrt q) with Z0 by (field; lra). nra. }
  split.
  - intros Hne.
    rewrite calculate_waveguide_impedance_above by lra.
    apply String.eqb_neq in Hne. now rewrite Hne.
  - intros f' Hle. unfold calculate_waveguide_impedance, le_np, fin.
    destruct (Rle_dec f' fc); [reflexivity | contradiction].
Qed.

Lemma waveguide_impedance_properties_witness :
  exists z_te z_tm,
    calculate_waveguide_impedance "TE" 2 (fin 1) module_globals
      = (Ok (fin z_te), module_globals) /\
    calculate_waveguide_impedance "TM" 2 (fin 1) module_globals
      = (Ok (fin z_tm), module_globals) /\
    z_te * z_tm = VACUUM_IMPEDANCE module_globals ^ 2 /\
    0 < z_tm <= VACUUM_IMPEDANCE module_globals /\
    VACUUM_IMPEDANCE module_globals <= z_te /\
    ("XY" <> "TE" ->
     calculate_waveguide_impedance "XY" 2 (fin 1) module_globals
       = (Ok (fin z_tm), module_globals)) /\
    (forall f', f' <= 1 ->
     calculate_waveguide_impedance "XY" f' (fin 1) module_globals
       = (Ok None, module_globals)).
Proof.
  apply (waveguide_impedance_properties "XY" 2 1 module_globals); simpl; lra.
Defined.

(** The cutoff of a mode with the second index 0, in exact arithmetic. *)
Lemma single_index_report
    (data : gmap string json) (fj aj : json) (f a b : R)
    (mt : string) (m : nat) :
  data !! "phenomenon" = Some (JStr "waveguide") ->
  data !! "frequency" = Some fj -> as_real fj = Some f -> 0 < f ->
  data !! "amplitude" = Some aj ->
  get data "mode" (JStr "TE10") = JStr (mode_name mt m 0) ->
  mt = "TE" \/ mt = "TM" -> (0 < m < 10)%nat ->
  as_real (get data "guide_width" (JNum 0.023)) = Some a -> a <> 0 ->
  as_real (get data "guide_height" (JNum 0.010)) = Some b -> b <> 0 ->
  let fc := INR m * SPEED_OF_LIGHT module_globals / (2 * Rabs a) in
  exists cfg,
    generate_configuration data module_globals = (Ok cfg, module_globals) /\
    reported_in cfg "waveguide" "cutoff_frequency" = Some (VFloat (fin fc)) /\
    (f > fc ->
     reported_in cfg "waveguide" "cutoff_wavelength"
       = Some (VFloat (fin (2 * Rabs a / INR m))) /\
     reported_in cfg "waveguide" "evanescent" = None) /\
    (f <= fc ->
     reported_in cfg "waveguide" "evanescent" = Some (VBool true) /\
     reported_in cfg "waveguide" "cutoff_wavelength" = None).
Proof.
  intros Hp Hfj Hf Hf0 Haj Hmode Hmt [Hm0 Hm] Ha Ha0 Hb Hb0 fc.
  pose proof c_positive as Hc.
  pose proof (Rabs_pos_lt a Ha0) as Habs.
  assert (HmR : 0 < INR m) by (apply lt_0_INR; lia).
  pose proof (single_index_cutoff (SPEED_OF_LIGHT module_globals) m a b Hc Ha0) as Hfc.
  fold fc in Hfc.
  destruct (Rgt_dec f fc) as [Hgt | Hle].
  - destruct (waveguide_propagating_report data fj aj f a b mt m 0
                Hp Hfj Hf Hf0 Haj Hmode Hmt Hm ltac:(lia) Ha Ha0 Hb Hb0)
      as (cfg & Hrun & _ & _ & _ & _ & Hd).
    { rewrite Hfc. exact Hgt. }
    rewrite Hfc in Hd.
    assert (Hfcpos : fc <> 0).
    { unfold fc. apply Rdiv_neq_0; nra. }
    rewrite np_div_fin in Hd by exact Hfcpos.
    exists cfg. split; [exact Hrun |].
    in_dict Hd.
    split; [reflexivity |].
    split; [| intros H; exfalso; lra].
    intros _. split; [| reflexivity].
    etransitivity; [reflexivity |]. apply Some_VFloat_fin.
    unfold fc. field. repeat split; lra.
  - rewrite (generate_configuration_base data fj f aj _ module_globals
               Hfj Hf ltac:(lra) Haj Hp c_nonzero).
    rewrite dispatch_waveguide.
    destruct (waveguide_parameters_evanescent data
                {| frequency := fj; amplitude := aj |}
                (base_config fj aj (JStr "waveguide") f module_globals)
                module_globals mt m 0 a b f Hmode Hmt Hm ltac:(lia) Ha Hb Ha0 Hb0
                Hf c_nonzero)
      as (cfg & Hrun & Hcut & _ & Hev & _).
    { rewrite <- !INR_IZR_INZ.
      rewrite (proj1 (cutoff_frequency_fin _ _ _ Hc)), Hfc.
      now apply np_gt_fin_false. }
    rewrite <- !INR_IZR_INZ in Hcut.
    rewrite (proj1 (cutoff_frequency_fin _ _ _ Hc)), Hfc in Hcut.
    exists cfg. split; [exact Hrun |]. split; [exact Hcut |].
    split; [intros H; exfalso; lra |].
    intros _. split; [exact Hev |].
    revert Hrun. unfold waveguide_parameters. cbv zeta. rewrite Hmode.
    erewrite bind_ok by (now apply slice2_mode_name).
    erewrite bind_ok by (now apply char_at_mode_name_2).
    erewrite bind_ok by (apply int_of_char_digit; lia).
    erewrite bind_ok by (apply char_at_mode_name_3; [assumption | lia | lia]).
    erewrite bind_ok by (apply int_of_char_digit; lia).
    erewrite bind_ok by reflexivity.
    erewrite bind_ok by (apply py_div_ok; pose proof PI_RGT_0; lra).
    erewrite bind_ok by (apply to_number_ok; exact Ha).
    erewrite bind_ok by (now apply py_div_ok).
    erewrite bind_ok by (apply to_number_ok; exact Hb).
    erewrite bind_ok by (now apply py_div_ok).
    erewrite bind_ok by (apply to_number_ok; exact Hf).
    rewrite <- !INR_IZR_INZ.
    rewrite (proj1 (cutoff_frequency_fin _ _ _ Hc)), Hfc.
    rewrite (proj2 (np_gt_fin_false f fc) Hle).
    erewrite bind_ok by (apply angular_frequency_ok; exact Hf).
    erewrite bind_ok by (apply py_div_ok; apply c_nonzero).
    intros Hrun. apply ret_Ok_inv in Hrun. subst cfg.
    rewrite reported_in_set_eq. reflexivity.
Qed.

(** X22.  For a mode [TEm0] or [TMm0] with [m > 0], and frequency and
    dimensions in range, the cutoff frequency is [m * c / (2 * |a|)]: it
    does not depend on the height, and a negative width counts as its
    absolute value.  For a frequency above it by the relative margin 1e-3
    the configuration reports the cutoff wavelength [2 * |a| / m] and no
    [evanescent] entry; for one below it by this margin,
    [evanescent = True] and no cutoff wavelength. *)
Theorem waveguide_cutoff_single_index
    (data : gmap string json) (fj aj : json) (f a b : R)
    (mt : string) (m : nat) :
  data !! "phenomenon" = Some (JStr "waveguide") ->
  data !! "frequency" = Some fj -> as_real fj = Some f -> 0 < f -> in_range f ->
  data !! "amplitude" = Some aj ->
  get data "mode" (JStr "TE10") = JStr (mode_name mt m 0) ->
  mt = "TE" \/ mt = "TM" -> (0 < m < 10)%nat ->
  as_real (get data "guide_width" (JNum 0.023)) = Some a -> in_range a ->
  as_real (get data "guide_height" (JNum 0.010)) = Some b -> in_range b ->
  let fc := INR m * SPEED_OF_LIGHT module_globals / (2 * Rabs a) in
  exists cfg,
    generate_configuration data module_globals = (Ok cfg, module_globals) /\
    reported_in cfg "waveguide" "cutoff_frequency" = Some (VFloat (fin fc)) /\
    ((1 + 1e-3) * fc <= f ->
     reported_in cfg "waveguide" "cutoff_wavelength"
       = Some (VFloat (fin (2 * Rabs a / INR m))) /\
     reported_in cfg "waveguide" "evanescent" = None) /\
    (f <= (1 - 1e-3) * fc ->
     reported_in cfg "waveguide" "evanescent" = Some (VBool true) /\
     reported_in cfg "waveguide" "cutoff_wavelength" = None).
Proof.
  intros Hp Hfj Hf Hf0 _ Haj Hmode Hmt Hm Ha Har Hb Hbr fc.
  pose proof (in_range_nonzero a Har) as Ha0.
  destruct (single_index_report data fj aj f a b mt m Hp Hfj Hf Hf0 Haj Hmode Hmt Hm
              Ha Ha0 Hb (in_range_nonzero b Hbr))
    as (cfg & Hrun & Hcut & Habove & Hbelow).
  fold fc in Hcut, Habove, Hbelow.
  assert (Hfc : 0 < fc).
  { unfold fc. pose proof c_positive. pose proof (Rabs_pos_lt a Ha0).
    assert (0 < INR m) by (apply lt_0_INR; lia).
    apply Rdiv_lt_0_compat; nra. }
  exists cfg. split; [exact Hrun |]. split; [exact Hcut |].
  split; [intros H; apply Habove; nra | intros H; apply Hbelow; nra].
Qed.

Lemma waveguide_cutoff_single_index_witness :
  let fc := INR 1 * SPEED_OF_LIGHT module_globals / (2 * Rabs 0.023) in
  exists cfg,
    generate_configuration waveguide_example module_globals
      = (Ok cfg, module_globals) /\
    reported_in cfg "waveguide" "cutoff_frequency" = Some (VFloat (fin fc)) /\
    ((1 + 1e-3) * fc <= 1e10 ->
     reported_in cfg "waveguide" "cutoff_wavelength"
       = Some (VFloat (fin (2 * Rabs 0.023 / INR 1))) /\
     reported_in cfg "waveguide" "evanescent" = None) /\
    (1e10 <= (1 - 1e-3) * fc ->
     reported_in cfg "waveguide" "evanescent" = Some (VBool true) /\
     reported_in cfg "waveguide" "cutoff_wavelength" = None).
Proof.
  apply (waveguide_cutoff_single_index waveguide_example (JNum 1e10) (JNum 1)
           1e10 0.023 0.010 "TE" 1); try reflexivity; try lra; try lia;
    try (apply in_range_pos; lra).
  left. reflexivity.
Defined.

(** The mode with both indices 0, in exact arithmetic. *)
Lemma zero_index_report
    (data : gmap string json) (fj aj : json) (f a b : R) (mt : string) :
  data !! "phenomenon" = Some (JStr "waveguide") ->
  data !! "frequency" = Some fj -> as_real fj = Some f -> 0 < f ->
  data !! "amplitude" = Some aj ->
  get data "mode" (JStr "TE10") = JStr (mode_name mt 0 0) ->
  mt = "TE" \/ mt = "TM" ->
  as_real (get data "guide_width" (JNum 0.023)) = Some a -> a <> 0 ->
  as_real (get data "guide_height" (JNum 0.010)) = Some b -> b <> 0 ->
  exists cfg,
    generate_configuration data module_globals = (Ok cfg, module_globals) /\
    reported_in cfg "waveguide" "evanescent" = None /\
    reported_in cfg "waveguide" "cutoff_frequency" = Some (VFloat (fin 0)) /\
    reported_in cfg "waveguide" "cutoff_wavelength" = Some (VFloat None) /\
    reported_in cfg "waveguide" "propagation_constant"
      = Some (VFloat (fin (2 * PI * f / SPEED_OF_LIGHT module_globals))) /\
    reported_in cfg "waveguide" "guide_wavelength"
      = Some (VFloat (fin (SPEED_OF_LIGHT module_globals / f))) /\
    reported_in cfg "waveguide" "phase_velocity"
      = Some (VFloat (fin (SPEED_OF_LIGHT module_globals))) /\
    reported_in cfg "waveguide" "group_velocity"
      = Some (VFloat (fin (SPEED_OF_LIGHT module_globals))) /\
    reported_in cfg "waveguide" "impedance"
      = Some (VFloat (fin (VACUUM_IMPEDANCE module_globals))).
Proof.
  intros Hp Hfj Hf Hf0 Haj Hmode Hmt Ha Ha0 Hb Hb0.
  pose proof c_positive as Hc.
  pose proof PI_RGT_0 as Hpi.
  pose proof (zero_index_cutoff (SPEED_OF_LIGHT module_globals) a b Hc) as Hfc.
  destruct (waveguide_propagating_report data fj aj f a b mt 0 0
              Hp Hfj Hf Hf0 Haj Hmode Hmt ltac:(lia) ltac:(lia) Ha Ha0 Hb Hb0)
    as (cfg & Hrun & _ & _ & _ & _ & Hd).
  { rewrite Hfc. exact Hf0. }
  rewrite Hfc in Hd. rewrite np_div_zero in Hd.
  set (c := SPEED_OF_LIGHT module_globals) in *.
  set (Z0 := VACUUM_IMPEDANCE module_globals) in *.
  assert (Hk : 0 < 2 * PI * f / c) by (apply Rdiv_lt_0_compat; nra).
  assert (Hbeta : sqrt ((2 * PI * f / c) ^ 2 - (2 * PI * 0 / c) ^ 2) = 2 * PI * f / c).
  { replace ((2 * PI * f / c) ^ 2 - (2 * PI * 0 / c) ^ 2)
      with (Rsqr (2 * PI * f / c)) by (unfold Rsqr; field; lra).
    apply sqrt_Rsqr. lra. }
  assert (Hq : sqrt (1 - (0 / f) ^ 2) = 1).
  { replace (1 - (0 / f) ^ 2) with 1 by (field; lra). apply sqrt_1. }
  rewrite Hbeta, Hq in Hd.
  exists cfg. split; [exact Hrun |].
  in_dict Hd.
  split; [reflexivity |]. split; [reflexivity |]. split; [reflexivity |].
  split; [reflexivity |].
  split; [etransitivity; [reflexivity |]; apply Some_VFloat_fin; field; lra |].
  split; [etransitivity; [reflexivity |]; apply Some_VFloat_fin; field; lra |].
  split; [etransitivity; [reflexivity |]; apply Some_VFloat_fin; field; lra |].
  etransitivity; [reflexivity |]. apply Some_VFloat_fin.
  destruct (String.eqb mt "TE"); field.
Qed.

(** X23.  The mode indices are not checked against each other: for [TE00]
    or [TM00], with frequency and dimensions in range, the cutoff frequency
    is 0, every positive frequency propagates, the cutoff wavelength
    [c / fc] is a float that is no finite number, and the other values are
    those of free space: propagation constant [omega / c], guide wavelength
    [c / f], phase and group velocity [c] and impedance [Z0]. *)
Theorem waveguide_mode_without_indices
    (data : gmap string json) (fj aj : json) (f a b : R) (mt : string) :
  data !! "phenomenon" = Some (JStr "waveguide") ->
  data !! "frequency" = Some fj -> as_real fj = Some f -> 0 < f -> in_range f ->
  data !! "amplitude" = Some aj ->
  get data "mode" (JStr "TE10") = JStr (mode_name mt 0 0) ->
  mt = "TE" \/ mt = "TM" ->
  as_real (get data "guide_width" (JNum 0.023)) = Some a -> in_range a ->
  as_real (get data "guide_height" (JNum 0.010)) = Some b -> in_range b ->
  exists cfg,
    generate_configuration data module_globals = (Ok cfg, module_globals) /\
    reported_in cfg "waveguide" "evanescent" = None /\
    reported_in cfg "waveguide" "cutoff_frequency" = Some (VFloat (fin 0)) /\
    reported_in cfg "waveguide" "cutoff_wavelength" = Some (VFloat None) /\
    reported_in cfg "waveguide" "propagation_constant"
      = Some (VFloat (fin (2 * PI * f / SPEED_OF_LIGHT module_globals))) /\
    reported_in cfg "waveguide" "guide_wavelength"
      = Some (VFloat (fin (SPEED_OF_LIGHT module_globals / f))) /\
    reported_in cfg "waveguide" "phase_velocity"
      = Some (VFloat (fin (SPEED_OF_LIGHT module_globals))) /\
    reported_in cfg "waveguide" "group_velocity"
      = Some (VFloat (fin (SPEED_OF_LIGHT module_globals))) /\
    reported_in cfg "waveguide" "impedance"
      = Some (VFloat (fin (VACUUM_IMPEDANCE module_globals))).
Proof.
  intros Hp Hfj Hf Hf0 _ Haj Hmode Hmt Ha Har Hb Hbr.
  exact (zero_index_report data fj aj f a b mt Hp Hfj Hf Hf0 Haj Hmode Hmt
           Ha (in_range_nonzero a Har) Hb (in_range_nonzero b Hbr)).
Qed.

Lemma waveguide_mode_without_indices_witness :
  exists cfg,
    generate_configuration waveguide_TE00 module_globals = (Ok cfg, module_globals) /\
    reported_in cfg "waveguide" "evanescent" = None /\
    reported_in cfg "waveguide" "cutoff_frequency" = Some (VFloat (fin 0)) /\
    reported_in cfg "waveguide" "cutoff_wavelength" = Some (VFloat None) /\
    reported_in cfg "waveguide" "propagation_constant"
      = Some (VFloat (fin (2 * PI * 1e10 / SPEED_OF_LIGHT module_globals))) /\
    reported_in cfg "waveguide" "guide_wavelength"
      = Some (VFloat (fin (SPEED_OF_LIGHT module_globals / 1e10))) /\
    reported_in cfg "waveguide" "phase_velocity"
      = Some (VFloat (fin (SPEED_OF_LIGHT module_globals))) /\
    reported_in cfg "waveguide" "group_velocity"
      = Some (VFloat (fin (SPEED_OF_LIGHT module_globals))) /\
    reported_in cfg "waveguide" "impedance"
      = Some (VFloat (fin (VACUUM_IMPEDANCE module_globals))).
Proof.
  apply (waveguide_mode_without_indices waveguide_TE00 (JNum 1e10) (JNum 1)
           1e10 0.023 0.010 "TE"); try reflexivity; try lra;
    try (apply in_range_pos; lra).
  left. reflexivity.
Defined.

Lemma ascii_prefix_le n m s :
  (n <= m)%nat -> ascii_prefix m s = true -> ascii_prefix n s = true.
Proof.
  revert m s. induction n as [| n IH]; intros m s Hle H; [reflexivity |].
  destruct m as [| m]; [lia |].
  destruct s as [| ch rest]; [reflexivity |].
  cbn [ascii_prefix] in *. apply andb_true_iff in H. destruct H as [H1 H2].
  rewrite H1. simpl. apply (IH m); [lia | exact H2].
Qed.

Lemma slice2_ascii s g :
  ascii_prefix 2 s = true -> slice2 (JStr s) g = (Ok (substring 0 2 s), g).
Proof. intros H. unfold slice2. now rewrite H. Qed.

Lemma char_at_ascii s i g :
  ascii_prefix (S i) s = true ->
  char_at (JStr s) i g
  = match String.get i s with
    | Some ch => (Ok ch, g)
    | None => (Raise IndexError, g)
    end.
Proof. intros H. unfold char_at. rewrite H. now destruct (String.get i s). Qed.

(** X24.  The errors of reading the mode of a waveguide request: a mode that
    is [None], a [bool] or a number raises [TypeError]; a name of ASCII
    characters with fewer than three of them raises [IndexError]; a third
    character that is no digit raises the [ValueError] of [int]; with a
    digit there, a name of three characters raises [IndexError] and a
    fourth character that is no digit the [ValueError] of [int]. *)
Theorem waveguide_mode_errors
    (data : gmap string json) (fj aj : json) (f : R) :
  data !! "phenomenon" = Some (JStr "waveguide") ->
  data !! "frequency" = Some fj -> as_real fj = Some f -> in_range f ->
  data !! "amplitude" = Some aj ->
  ((forall s, get data "mode" (JStr "TE10") <> JStr s) ->
   unhashable (get data "mode" (JStr "TE10")) = false ->
   generate_configuration data module_globals = (Raise TypeError, module_globals)) /\
  (forall s, get data "mode" (JStr "TE10") = JStr s -> ascii_prefix 3 s = true ->
   String.get 2 s = None ->
   generate_configuration data module_globals = (Raise IndexError, module_globals)) /\
  (forall s ch, get data "mode" (JStr "TE10") = JStr s -> ascii_prefix 3 s = true ->
   String.get 2 s = Some ch -> is_digit ch = false ->
   generate_configuration data module_globals
     = (Raise (IntValueError ch), module_globals)) /\
  (forall s ch, get data "mode" (JStr "TE10") = JStr s -> ascii_prefix 4 s = true ->
   String.get 2 s = Some ch -> is_digit ch = true -> String.get 3 s = None ->
   generate_configuration data module_globals = (Raise IndexError, module_globals)) /\
  (forall s ch ch', get data "mode" (JStr "TE10") = JStr s ->
   ascii_prefix 4 s = true ->
   String.get 2 s = Some ch -> is_digit ch = true ->
   String.get 3 s = Some ch' -> is_digit ch' = false ->
   generate_configuration data module_globals
     = (Raise (IntValueError ch'), module_globals)).
Proof.
  intros Hp Hfj Hf Hfr Haj.
  rewrite (generate_configuration_base data fj f aj _ module_globals
             Hfj Hf (in_range_nonzero f Hfr) Haj Hp c_nonzero).
  rewrite dispatch_waveguide.
  unfold waveguide_parameters. cbv zeta.
  assert (Hdigit : forall ch g, is_digit ch = true ->
            exists z, int_of_char ch g = (Ok z, g)).
  { intros ch g H. unfold int_of_char, is_digit in *. rewrite H. eauto. }
  assert (Hnondigit : forall ch g, is_digit ch = false ->
            int_of_char ch g = (Raise (IntValueError ch), g)).
  { intros ch g H. unfold int_of_char, is_digit in *. now rewrite H. }
  split; [| split; [| split; [| split]]].
  - intros Hmode Hh.
    destruct (get data "mode" (JStr "TE10")) as [| | | s | |] eqn:E;
      try reflexivity; try discriminate Hh.
    now destruct (Hmode s).
  - intros s -> Hs H2.
    erewrite bind_ok by (apply slice2_ascii, (ascii_prefix_le 2 3); [lia | exact Hs]).
    erewrite bind_raise; [reflexivity |].
    rewrite char_at_ascii by exact Hs. now rewrite H2.
  - intros s ch -> Hs H2 Hd.
    erewrite bind_ok by (apply slice2_ascii, (ascii_prefix_le 2 3); [lia | exact Hs]).
    erewrite bind_ok by (rewrite char_at_ascii by exact Hs; rewrite H2; reflexivity).
    now erewrite bind_raise by (apply Hnondigit; exact Hd).
  - intros s ch -> Hs H2 Hd H3.
    destruct (Hdigit ch module_globals Hd) as [z Hz].
    pose proof (ascii_prefix_le 3 4 s ltac:(lia) Hs) as Hs3.
    erewrite bind_ok by (apply slice2_ascii, (ascii_prefix_le 2 4); [lia | exact Hs]).
    erewrite bind_ok by (rewrite char_at_ascii by exact Hs3; rewrite H2; reflexivity).
    erewrite bind_ok by exact Hz.
    erewrite bind_raise; [reflexivity |].
    rewrite char_at_ascii by exact Hs. now rewrite H3.
  - intros s ch ch' -> Hs H2 Hd H3 Hd'.
    destruct (Hdigit ch module_globals Hd) as [z Hz].
    pose proof (ascii_prefix_le 3 4 s ltac:(lia) Hs) as Hs3.
    erewrite bind_ok by (apply slice2_ascii, (ascii_prefix_le 2 4); [lia | exact Hs]).
    erewrite bind_ok by (rewrite char_at_ascii by exact Hs3; rewrite H2; reflexivity).
    erewrite bind_ok by exact Hz.
    erewrite bind_ok by (rewrite char_at_ascii by exact Hs; rewrite H3; reflexivity).
    now erewrite bind_raise by (apply Hnondigit; exact Hd').
Qed.

Lemma waveguide_mode_errors_witness :
  generate_configuration waveguide_short_mode module_globals
    = (Raise IndexError, module_globals).
Proof.
  destruct (waveguide_mode_errors waveguide_short_mode (JNum 1e10) (JNum 1) 1e10)
    as (_ & _ & _ & H & _); try reflexivity; [apply in_range_pos; lra |].
  apply (H "TE1" "1"%char); reflexivity.
Defined.

(** The errors of the dimensions of a guide, in exact arithmetic. *)
Lemma zero_dimension_errors
    (data : gmap string json) (fj aj : json) (f : R)
    (mt : string) (m n : nat) :
  data !! "phenomenon" = Some (JStr "waveguide") ->
  data !! "frequency" = Some fj -> as_real fj = Some f -> f <> 0 ->
  data !! "amplitude" = Some aj ->
  get data "mode" (JStr "TE10") = JStr (mode_name mt m n) ->
  mt = "TE" \/ mt = "TM" -> (m < 10)%nat -> (n < 10)%nat ->
  (as_real (get data "guide_width" (JNum 0.023)) = Some 0 ->
   generate_configuration data module_globals
     = (Raise ZeroDivisionError, module_globals)) /\
  (forall a, as_real (get data "guide_width" (JNum 0.023)) = Some a -> a <> 0 ->
   as_real (get data "guide_height" (JNum 0.010)) = Some 0 ->
   generate_configuration data module_globals
     = (Raise ZeroDivisionError, module_globals)) /\
  (as_real (get data "guide_width" (JNum 0.023)) = None ->
   generate_configuration data module_globals = (Raise TypeError, module_globals)).
Proof.
  intros Hp Hfj Hf Hf0 Haj Hmode Hmt Hm Hn.
  rewrite (generate_configuration_base data fj f aj _ module_globals
             Hfj Hf Hf0 Haj Hp c_nonzero).
  rewrite dispatch_waveguide.
  assert (H2pi : 2 * PI <> 0) by (pose proof PI_RGT_0; lra).
  unfold waveguide_parameters. cbv zeta. rewrite Hmode.
  erewrite bind_ok by (now apply slice2_mode_name).
  erewrite bind_ok by (now apply char_at_mode_name_2).
  erewrite bind_ok by (now apply int_of_char_digit).
  erewrite bind_ok by (now apply char_at_mode_name_3).
  erewrite bind_ok by (now apply int_of_char_digit).
  erewrite bind_ok by reflexivity.
  erewrite bind_ok by (now apply py_div_ok).
  repeat split.
  - intros Ha.
    erewrite bind_ok by (apply to_number_ok; exact Ha).
    now erewrite bind_raise by apply py_div_zero.
  - intros a Ha Ha0 Hb.
    erewrite bind_ok by (apply to_number_ok; exact Ha).
    erewrite bind_ok by (now apply py_div_ok).
    erewrite bind_ok by (apply to_number_ok; exact Hb).
    now erewrite bind_raise by apply py_div_zero.
  - intros Ha.
    now erewrite bind_raise by (apply to_number_TypeError; exact Ha).
Qed.

(** X25.  A waveguide request with the width 0, or with a width in range
    and the height 0, raises [ZeroDivisionError], also when the mode index
    of that dimension is 0; a width that is no number raises
    [TypeError]. *)
Theorem waveguide_zero_dimension
    (data : gmap string json) (fj aj : json) (f : R)
    (mt : string) (m n : nat) :
  data !! "phenomenon" = Some (JStr "waveguide") ->
  data !! "frequency" = Some fj -> as_real fj = Some f -> in_range f ->
  data !! "amplitude" = Some aj ->
  get data "mode" (JStr "TE10") = JStr (mode_name mt m n) ->
  mt = "TE" \/ mt = "TM" -> (m < 10)%nat -> (n < 10)%nat ->
  (as_real (get data "guide_width" (JNum 0.023)) = Some 0 ->
   generate_configuration data module_globals
     = (Raise ZeroDivisionError, module_globals)) /\
  (forall a, as_real (get data "guide_width" (JNum 0.023)) = Some a -> in_range a ->
   as_real (get data "guide_height" (JNum 0.010)) = Some 0 ->
   generate_configuration data module_globals
     = (Raise ZeroDivisionError, module_globals)) /\
  (as_real (get data "guide_width" (JNum 0.023)) = None ->
   generate_configuration data module_globals = (Raise TypeError, module_globals)).
Proof.
  intros Hp Hfj Hf Hfr Haj Hmode Hmt Hm Hn.
  destruct (zero_dimension_errors data fj aj f mt m n Hp Hfj Hf
              (in_range_nonzero f Hfr) Haj Hmode Hmt Hm Hn) as (H1 & H2 & H3).
  split; [exact H1 |]. split; [| exact H3].
  intros a Ha Har Hb. exact (H2 a Ha (in_range_nonzero a Har) Hb).
Qed.

Lemma waveguide_zero_dimension_witness :
  generate_configuration waveguide_zero_width module_globals
    = (Raise ZeroDivisionError, module_globals).
Proof.
  destruct (waveguide_zero_dimension waveguide_zero_width (JNum 1e10) (JNum 1) 1e10
              "TE" 1 0) as (H & _); try reflexivity; try lia;
    try (apply in_range_pos; lra).
  - left. reflexivity.
  - apply H. reflexivity.
Defined.

(** ** The responses of the handler *)

Lemma jsonify_float16 cfg key x g :
  reported cfg key = Some (VFloat16 x) -> jsonify cfg g = (Raise TypeError, g).
Proof.
  intros H. unfold jsonify.
  destruct (decide (map_Forall (fun _ v => json_serializable v = true) (physics cfg)))
    as [Hall | _]; [| reflexivity].
  specialize (Hall key (VFloat16 x) H). discriminate.
Qed.

Lemma jsonify_Ok_inv cfg g u g' :
  jsonify cfg g = (Ok u, g') -> jsonify cfg g' = (Ok tt, g') /\ g' = g.
Proof.
  unfold jsonify.
  destruct (decide (map_Forall (fun _ v => json_serializable v = true) (physics cfg)));
    intros H; inversion H; subst; auto.
Qed.

Section HandlerResponses.

Variable create_plane_wave_visualization : config -> M figure.
Variable create_standing_wave_visualization : config -> M figure.
Variable create_reflection_visualization : config -> gmap string json -> M figure.
Variable create_interference_visualization : config -> gmap string json -> M figure.
Variable create_doppler_visualization : config -> gmap string json -> M figure.
Variable create_polarization_visualization : config -> gmap string json -> M figure.
Variable create_dipole_visualization : config -> gmap string json -> M figure.
Variable create_waveguide_visualization : config -> gmap string json -> M figure.
Variable float_str : R -> string.
Variable container_str : json -> string.
Variable str_repr : string -> string.
Variable builtin_message : gmap string json -> exn -> string.
Variable stdout_encodes : string -> bool.
Variable format_exc : gmap string json -> exn -> string.

Let handler_try :=
  visualize_try create_plane_wave_visualization create_standing_wave_visualization
    create_reflection_visualization create_interference_visualization
    create_doppler_visualization create_polarization_visualization
    create_dipole_visualization create_waveguide_visualization
    float_str container_str.

Let handler :=
  visualize create_plane_wave_visualization create_standing_wave_visualization
    create_reflection_visualization create_interference_visualization
    create_doppler_visualization create_polarization_visualization
    create_dipole_visualization create_waveguide_visualization
    float_str container_str str_repr builtin_message stdout_encodes format_exc.

Let choose :=
  create_visualization create_plane_wave_visualization
    create_standing_wave_visualization create_reflection_visualization
    create_interference_visualization create_doppler_visualization
    create_polarization_visualization create_dipole_visualization
    create_waveguide_visualization float_str container_str.

Let in_log :=
  logged float_str container_str str_repr builtin_message stdout_encodes format_exc.

Lemma handler_Ok data g r g' :
  handler_try data g = (Ok r, g') -> handler data g = (Ok r, g').
Proof. intros H. unfold handler, visualize. fold handler_try. now rewrite H. Qed.

Lemma handler_Ok_success_inv data g r g' :
  handler data g = (Ok r, g') -> success r = true ->
  handler_try data g = (Ok r, g').
Proof.
  intros H Hs. unfold handler, visualize in H. fold handler_try in H.
  destruct (handler_try data g) as [[r0 | e] g0] eqn:E; [exact H |].
  exfalso. unfold visualize_except, print, bind in H.
  destruct (stdout_encodes ("Error in visualization: " ++ _));
    unfold ret, raise in H; [| discriminate H].
  destruct (stdout_encodes (format_exc data e)); [| discriminate H].
  inversion H. subst r. discriminate Hs.
Qed.

Lemma handler_try_success data g fj f aj a cfg fig g' :
  data !! "frequency" = Some fj -> as_real fj = Some f -> 0 < f ->
  data !! "amplitude" = Some aj -> as_real aj = Some a -> 0 < a ->
  generate_configuration data g = (Ok cfg, g) ->
  choose data cfg g = (Ok fig, g') ->
  jsonify cfg g' = (Ok tt, g') ->
  handler_try data g
  = (Ok (Success (image fig) cfg (default "" (description fig))
           (default "" (description_html fig))), g').
Proof.
  intros Hfj Hf Hf0 Haj Ha Ha0 Hgc Hfig Hjson.
  unfold handler_try, visualize_try.
  erewrite bind_ok by (apply getitem_ok; exact Hfj).
  erewrite bind_ok by (apply le_zero_ok; exact Hf).
  destruct (Rle_dec f 0); [lra |].
  erewrite bind_ok by (apply getitem_ok; exact Haj).
  erewrite bind_ok by (apply le_zero_ok; exact Ha).
  destruct (Rle_dec a 0); [lra |].
  erewrite bind_ok by exact Hgc.
  erewrite bind_ok by exact Hfig.
  erewrite bind_ok by exact Hjson.
  reflexivity.
Qed.

Lemma handler_try_Ok_inv data g r g' :
  handler_try data g = (Ok r, g') ->
  exists fj f aj a cfg fig,
    data !! "frequency" = Some fj /\ as_real fj = Some f /\ 0 < f /\
    data !! "amplitude" = Some aj /\ as_real aj = Some a /\ 0 < a /\
    generate_configuration data g = (Ok cfg, g) /\
    choose data cfg g = (Ok fig, g') /\
    jsonify cfg g' = (Ok tt, g') /\
    r = Success (image fig) cfg (default "" (description fig))
          (default "" (description_html fig)).
Proof.
  intros E. unfold handler_try, visualize_try in E.
  apply bind_Ok_inv in E. destruct E as (fj & g1 & Hstep & E).
  apply getitem_Ok_inv in Hstep. destruct Hstep as [Hfj ->].
  apply bind_Ok_inv in E. destruct E as (bad & g1 & Hstep & E).
  apply le_zero_Ok_inv in Hstep. destruct Hstep as (f & Hf & -> & ->).
  destruct (Rle_dec f 0) as [| Hf0]; [discriminate |].
  apply bind_Ok_inv in E. destruct E as (aj & g1 & Hstep & E).
  apply getitem_Ok_inv in Hstep. destruct Hstep as [Haj ->].
  apply bind_Ok_inv in E. destruct E as (bad & g1 & Hstep & E).
  apply le_zero_Ok_inv in Hstep. destruct Hstep as (a & Ha & -> & ->).
  destruct (Rle_dec a 0) as [| Ha0]; [discriminate |].
  apply bind_Ok_inv in E. destruct E as (cfg0 & g1 & Hgc & E).
  pose proof (readonly_generate_configuration data g) as Hg.
  rewrite Hgc in Hg. simpl in Hg. subst g1.
  apply bind_Ok_inv in E. destruct E as (fig & g1 & Hfig & E).
  fold choose in Hfig.
  apply bind_Ok_inv in E. destruct E as (u & g2 & Hjson & E).
  apply jsonify_Ok_inv in Hjson. destruct Hjson as [Hjson ->].
  unfold ret in E. inversion E. subst.
  exists fj, f, aj, a, cfg0, fig.
  repeat split; try assumption; lra.
Qed.

(** X26.  To a request of plain values (numbers that are 0 or in range,
    ASCII strings, no list and no dict) the handler answers with
    [success = True] exactly when the
    frequency and the amplitude of the request are positive numbers,
    [generate_configuration] returns a configuration, the plotting function
    of the phenomenon returns a figure and [jsonify] accepts the
    configuration; the response then carries that configuration unchanged,
    the image of the figure, and its description and HTML description,
    each [""] when the figure has none.  A reflection request whose angle
    is [True] or [False] is never answered with [success = True]: the
    configuration holds the [float16] that [np.radians] returns for a
    [bool], which [jsonify] rejects. *)
Theorem visualize_success_response
    (data : gmap string json) (g g' : globals)
    (img : string) (cfg : config) (d dh : string) :
  (plain_request data ->
   (handler data g = (Ok (Success img cfg d dh), g') <->
    exists fj f aj a fig,
      data !! "frequency" = Some fj /\ as_real fj = Some f /\ 0 < f /\
      data !! "amplitude" = Some aj /\ as_real aj = Some a /\ 0 < a /\
      generate_configuration data g = (Ok cfg, g) /\
      choose data cfg g = (Ok fig, g') /\
      jsonify cfg g' = (Ok tt, g') /\
      img = image fig /\
      d = default "" (description fig) /\
      dh = default "" (description_html fig))) /\
  (forall b key1 key2 medium1 medium2 r g1,
     data !! "phenomenon" = Some (JStr "reflection") ->
     data !! "medium1" = Some (JStr key1) -> materials !! key1 = Some medium1 ->
     data !! "medium2" = Some (JStr key2) -> materials !! key2 = Some medium2 ->
     data !! "angle" = Some (JBool b) ->
     handler data module_globals = (Ok r, g1) -> success r = false).
Proof.
  split; [intros _; split |].
  - intros H.
    apply handler_Ok_success_inv in H; [| reflexivity].
    apply handler_try_Ok_inv in H.
    destruct H as (fj & f & aj & a & cfg0 & fig & Hfj & Hf & Hf0 & Haj & Ha & Ha0
                   & Hgc & Hfig & Hjson & Hr).
    inversion Hr. subst.
    exists fj, f, aj, a, fig. repeat split; assumption.
  - intros (fj & f & aj & a & fig & Hfj & Hf & Hf0 & Haj & Ha & Ha0 & Hgc & Hfig
            & Hjson & -> & -> & ->).
    apply handler_Ok. eapply handler_try_success; eassumption.
  - intros b key1 key2 medium1 medium2 r g1 Hp Hk1 Hm1 Hk2 Hm2 Hangle H.
    destruct (success r) eqn:Hs; [exfalso | reflexivity].
    apply handler_Ok_success_inv in H; [| exact Hs].
    apply handler_try_Ok_inv in H.
    destruct H as (fj & f & aj & a & cfg0 & fig & Hfj & Hf & Hf0 & Haj & Ha & Ha0
                   & Hgc & Hfig & Hjson & Hr).
    destruct (reflection_report data fj aj (JBool b) f (if b then 1 else 0)
                key1 key2 medium1 medium2
                Hp Hfj Hf ltac:(lra) Haj Hk1 Hm1 Hk2 Hm2 Hangle eq_refl)
      as (cfg1 & n1 & n2 & e1 & e2 & Hrun & _ & _ & _ & _ & _ & _
          & _ & _ & _ & _ & _ & Hrad & _).
    rewrite Hrun in Hgc. inversion Hgc. subst cfg0.
    rewrite (jsonify_float16 cfg1 "incident_angle_rad" _ g1 Hrad) in Hjson.
    discriminate.
Qed.

(** X27.  What the handler answers to an incomplete request, when the
    [except] clause can print its two lines: without [frequency], without
    [amplitude] (the frequency being positive) or without [phenomenon]
    (both being positive) the error of the response is the [repr] of the
    missing key, the text of the [KeyError]; a frequency or an amplitude
    that is no number gives the message of the [TypeError] of the
    comparison. *)
Theorem visualize_missing_fields (data : gmap string json) (g : globals) :
  (data !! "frequency" = None ->
   in_log data (KeyError (JStr "frequency")) ->
   handler data g = (Ok (Failure (str_repr "frequency")), g)) /\
  (forall fj, data !! "frequency" = Some fj -> as_real fj = None ->
   in_log data TypeError ->
   handler data g = (Ok (Failure (builtin_message data TypeError)), g)) /\
  (forall fj f, data !! "frequency" = Some fj -> as_real fj = Some f -> 0 < f ->
   data !! "amplitude" = None ->
   in_log data (KeyError (JStr "amplitude")) ->
   handler data g = (Ok (Failure (str_repr "amplitude")), g)) /\
  (forall fj f aj, data !! "frequency" = Some fj -> as_real fj = Some f -> 0 < f ->
   data !! "amplitude" = Some aj -> as_real aj = None ->
   in_log data TypeError ->
   handler data g = (Ok (Failure (builtin_message data TypeError)), g)) /\
  (forall fj f aj a, data !! "frequency" = Some fj -> as_real fj = Some f -> 0 < f ->
   data !! "amplitude" = Some aj -> as_real aj = Some a -> 0 < a ->
   data !! "phenomenon" = None ->
   in_log data (KeyError (JStr "phenomenon")) ->
   handler data g = (Ok (Failure (str_repr "phenomenon")), g)).
Proof.
  assert (Hle : forall j g0, as_real j = None -> le_zero j g0 = (Raise TypeError, g0)).
  { intros j g0 H. unfold le_zero.
    now erewrite bind_raise by (apply to_number_TypeError; exact H). }
  assert (Hfail : forall e g0, handler_try data g = (Raise e, g0) -> in_log data e ->
            handler data g
            = (Ok (Failure (str_exn float_str container_str str_repr
                              builtin_message data e)), g0)).
  { intros e g0 H Hlog.
    exact (handler_raise _ _ _ _ _ _ _ _ _ _ _ _ _ _ data g e g0 H Hlog). }
  repeat split.
  - intros H Hlog. apply (Hfail (KeyError (JStr "frequency")) g); [| exact Hlog].
    unfold handler_try, visualize_try.
    now erewrite bind_raise by (apply getitem_missing; exact H).
  - intros fj Hfj Hf Hlog. apply (Hfail TypeError g); [| exact Hlog].
    unfold handler_try, visualize_try.
    erewrite bind_ok by (apply getitem_ok; exact Hfj).
    now erewrite bind_raise by (apply Hle; exact Hf).
  - intros fj f Hfj Hf Hf0 H Hlog.
    apply (Hfail (KeyError (JStr "amplitude")) g); [| exact Hlog].
    unfold handler_try, visualize_try.
    erewrite bind_ok by (apply getitem_ok; exact Hfj).
    erewrite bind_ok by (apply le_zero_ok; exact Hf).
    destruct (Rle_dec f 0); [lra |].
    now erewrite bind_raise by (apply getitem_missing; exact H).
  - intros fj f aj Hfj Hf Hf0 Haj Ha Hlog.
    apply (Hfail TypeError g); [| exact Hlog].
    unfold handler_try, visualize_try.
    erewrite bind_ok by (apply getitem_ok; exact Hfj).
    erewrite bind_ok by (apply le_zero_ok; exact Hf).
    destruct (Rle_dec f 0); [lra |].
    erewrite bind_ok by (apply getitem_ok; exact Haj).
    now erewrite bind_raise by (apply Hle; exact Ha).
  - intros fj f aj a Hfj Hf Hf0 Haj Ha Ha0 H Hlog.
    apply (Hfail (KeyError (JStr "phenomenon")) g); [| exact Hlog].
    unfold handler_try, visualize_try.
    erewrite bind_ok by (apply getitem_ok; exact Hfj).
    erewrite bind_ok by (apply le_zero_ok; exact Hf).
    destruct (Rle_dec f 0); [lra |].
    erewrite bind_ok by (apply getitem_ok; exact Haj).
    erewrite bind_ok by (apply le_zero_ok; exact Ha).
    destruct (Rle_dec a 0); [lra |].
    erewrite bind_raise; [reflexivity |].
    apply (generate_configuration_missing_phenomenon data g fj aj Hfj Haj H).
Qed.

End HandlerResponses.

Lemma visualize_success_response_witness :
  example_handler plane_wave_example module_globals
  = (Ok (Success "" plane_wave_configuration "" ""), module_globals).
Proof.
  unfold example_handler.
  apply visualize_success_response.
  { unfold plain_request, plane_wave_example.
    repeat apply map_Forall_insert_2; [| | | apply map_Forall_empty]; simpl.
    - right. apply in_range_pos. lra.
    - right. apply in_range_pos. lra.
    - reflexivity. }
  exists (JNum 1e9), 1e9, (JNum 1), 1, blank_figure.
  repeat split; try reflexivity; try lra.
  rewrite (generate_configuration_base plane_wave_example (JNum 1e9) 1e9 (JNum 1)
             (JStr "plane_wave") module_globals);
    [reflexivity | reflexivity | reflexivity | lra | reflexivity | reflexivity
    | apply c_nonzero].
Defined.

Lemma visualize_missing_fields_witness :
  example_handler no_frequency_request module_globals
  = (Ok (Failure "'frequency'"), module_globals).
Proof.
  unfold example_handler.
  apply (visualize_missing_fields
           (fun _ => ret blank_figure) (fun _ => ret blank_figure)
           (fun _ _ => ret blank_figure) (fun _ _ => ret blank_figure)
           (fun _ _ => ret blank_figure) (fun _ _ => ret blank_figure)
           (fun _ _ => ret blank_figure) (fun _ _ => ret blank_figure)
           (fun _ => "") (fun _ => "") ascii_repr example_message utf8_encodes
           (fun data e =>
              "Traceback (most recent call last): "
              ++ str_exn (fun _ => "") (fun _ => "") ascii_repr example_message data e)
           no_frequency_request module_globals).
  - reflexivity.
  - split; reflexivity.
Defined.
